(** * PacketInsight: the streaming statistics aggregator and the baseline store

    A shallow embedding of [insight/core.py] ([PacketAnalyzer],
    [BaselineManager]), of [insight/utils.py] ([safe_divide],
    [extract_device_name], [validate_interface]), of the conversion
    [insight/report.py] applies before it exports the statistics, and of
    the validation of [insight/config.py].

    Python dictionaries of type [Dict[str, Any]] are finite maps from key
    names to dynamically typed values, exceptions are an explicit outcome,
    and a statement that mutates [stats] in place is a state transformer:
    what was written before an exception is raised stays written.
    Timestamps are IEEE 754 binary64 numbers, as Python's [float]; their
    arithmetic is the one specified by [SpecFloat]. *)

From Stdlib Require Import ZArith String Ascii List PrimFloat FloatOps SpecFloat.
From stdpp Require Import gmap strings list fin_maps.

Set Warnings "-inexact-float,-register-all".
Local Open Scope string_scope.
Local Open Scope Z_scope.

(* ===================================================================== *)
(** ** Exceptions and the state-and-exception monad                      *)
(* ===================================================================== *)

(** The exception classes the modelled code can meet.  [IOError] is an
    alias of [OSError]; [JSONDecodeError] and [UnicodeDecodeError] are two
    subclasses of [ValueError], neither a subclass of the other;
    [RecursionError] is a subclass of [RuntimeError]. *)
Inductive exn :=
| AttributeError | KeyError | TypeError | ValueError | OverflowError
| ZeroDivisionError | OSError | JSONDecodeError | BaselineError
| UnicodeDecodeError | RecursionError.

Inductive outcome (A : Type) :=
| Ret (a : A)
| Raise (e : exn).
Arguments Ret {A} a.
Arguments Raise {A} e.

(** A computation over a mutable store [S]: it ends normally or by raising,
    and in both cases hands back the store as it stands. *)
Definition M (S A : Type) : Type := S -> outcome A * S.

Definition ret {S A} (a : A) : M S A := fun s => (Ret a, s).
Definition raise {S A} (e : exn) : M S A := fun s => (Raise e, s).
Definition bind {S A B} (m : M S A) (k : A -> M S B) : M S B :=
  fun s => match m s with
           | (Ret a, s') => k a s'
           | (Raise e, s') => (Raise e, s')
           end.
Definition lift {S A} (o : outcome A) : M S A := fun s => (o, s).

(** [try: m except <catches>: h]. *)
Definition try_except {S A} (m : M S A) (catches : exn -> bool) (h : exn -> M S A) : M S A :=
  fun s => match m s with
           | (Ret a, s') => (Ret a, s')
           | (Raise e, s') => if catches e then h e s' else (Raise e, s')
           end.

Notation "x <- m ;; k" := (bind m (fun x => k))
  (at level 100, m at next level, right associativity).
Notation "m ;; k" := (bind m (fun _ => k))
  (at level 100, right associativity).

(** [except Exception] catches every class above. *)
Definition Exception (e : exn) : bool := true.

Definition is_AttributeError (e : exn) : bool :=
  match e with AttributeError => true | _ => false end.

(** [except (IOError, OSError)] *)
Definition is_OSError (e : exn) : bool :=
  match e with OSError => true | _ => false end.

(** [except (json.JSONDecodeError, IOError)] *)
Definition is_JSONDecodeError_or_IOError (e : exn) : bool :=
  match e with JSONDecodeError | OSError => true | _ => false end.

(** Reading an attribute that may be missing: [obj.name]. *)
Definition attr {S A} (o : option A) : M S A :=
  match o with Some a => ret a | None => raise AttributeError end.

(** [hasattr(obj, name)] *)
Definition hasattr {A} (o : option A) : bool :=
  match o with Some _ => true | None => false end.

(* ===================================================================== *)
(** ** Python numbers                                                     *)
(* ===================================================================== *)

(** A Python [float] is a binary64 number. *)
Abbreviation float64 := spec_float.

Definition fadd : float64 -> float64 -> float64 := SFadd prec emax.
Definition fsub : float64 -> float64 -> float64 := SFsub prec emax.
Definition fdiv : float64 -> float64 -> float64 := SFdiv prec emax.
Definition feqb : float64 -> float64 -> bool := SFeqb.
Definition fltb : float64 -> float64 -> bool := SFltb.
Definition fzero : float64 := S754_zero false.
Definition finf : float64 := S754_infinity false.

(** The binary64 number a decimal literal denotes. *)
Definition f64 (x : PrimFloat.float) : float64 := Prim2SF x.

(** An [int] is unbounded, a [float] is binary64. *)
Inductive num :=
| NInt (z : Z)
| NFloat (f : float64).

(** [float(z)] for an integer: round to nearest even, [OverflowError] when
    the integer is too large for a double. *)
Definition float_of_int (z : Z) : outcome float64 :=
  match binary_normalize prec emax z 0 false with
  | S754_infinity _ => Raise OverflowError
  | f => Ret f
  end.

(** [float(n)] *)
Definition py_float (n : num) : outcome float64 :=
  match n with
  | NInt z => float_of_int z
  | NFloat f => Ret f
  end.

(** Mixed arithmetic converts the integer operand to [float]. *)
Definition num_arith (fz : Z -> Z -> Z) (ff : float64 -> float64 -> float64)
    (a b : num) : outcome num :=
  match a, b with
  | NInt x, NInt y => Ret (NInt (fz x y))
  | NFloat x, NFloat y => Ret (NFloat (ff x y))
  | NInt x, NFloat y =>
      match float_of_int x with
      | Ret x' => Ret (NFloat (ff x' y))
      | Raise e => Raise e
      end
  | NFloat x, NInt y =>
      match float_of_int y with
      | Ret y' => Ret (NFloat (ff x y'))
      | Raise e => Raise e
      end
  end.

Definition num_add : num -> num -> outcome num := num_arith Z.add fadd.
Definition num_sub : num -> num -> outcome num := num_arith Z.sub fsub.

(** Python compares an [int] with a [float] exactly, without converting:
    [float_cmp_Z f z] is the order of [f] and [z], [None] when [f] is NaN. *)
Definition float_cmp_Z (f : float64) (z : Z) : option comparison :=
  match f with
  | S754_nan => None
  | S754_infinity false => Some Gt
  | S754_infinity true => Some Lt
  | S754_zero _ => Some (0 ?= z)
  | S754_finite s m e =>
      let v := if s then Z.neg m else Z.pos m in
      if 0 <=? e then Some (v * 2 ^ e ?= z) else Some (v ?= z * 2 ^ (- e))
  end.

(** [a < b] *)
Definition num_lt (a b : num) : bool :=
  match a, b with
  | NInt x, NInt y => x <? y
  | NFloat x, NFloat y => fltb x y
  | NFloat x, NInt y =>
      match float_cmp_Z x y with Some Lt => true | _ => false end
  | NInt x, NFloat y =>
      match float_cmp_Z y x with Some Gt => true | _ => false end
  end.

(** [n == 0] *)
Definition num_is_zero (n : num) : bool :=
  match n with
  | NInt z => z =? 0
  | NFloat f => feqb f fzero
  end.

(** [min(a, b)] keeps [a] unless [b < a]; [max(a, b)] keeps [a] unless
    [b > a]. *)
Definition py_min (a b : num) : num := if num_lt b a then b else a.
Definition py_max (a b : num) : num := if num_lt a b then b else a.

(* ===================================================================== *)
(** ** Insertion-ordered dictionaries                                     *)
(* ===================================================================== *)

(** Keys of the inner dictionaries: a string (an address, a protocol name,
    a status code, a transaction id) or a tuple of strings (a conversation
    pair, a UDP flow key). *)
Inductive key :=
| KStr (s : string)
| KTuple (l : list string).

Global Instance key_eq_dec : EqDecision key.
Proof. solve_decision. Defined.

(** A [dict] keeps its items in insertion order; each key occurs once. *)
Section odict.
Context {V : Type}.

Definition odict := list (key * V).

(** [k in d], [d[k]] *)
Fixpoint od_get (k : key) (d : list (key * V)) : option V :=
  match d with
  | [] => None
  | (k', v) :: d' => if decide (k = k') then Some v else od_get k d'
  end.

(** [d[k] = v]: a present key keeps its place, a new key goes last. *)
Fixpoint od_set (k : key) (v : V) (d : list (key * V)) : list (key * V) :=
  match d with
  | [] => [(k, v)]
  | (k', v') :: d' =>
      if decide (k = k') then (k', v) :: d' else (k', v') :: od_set k v d'
  end.

(** [del d[k]] / [d.pop(k)] *)
Fixpoint od_del (k : key) (d : list (key * V)) : list (key * V) :=
  match d with
  | [] => []
  | (k', v') :: d' =>
      if decide (k = k') then od_del k d' else (k', v') :: od_del k d'
  end.

Definition od_keys (d : list (key * V)) : list key := map fst d.
Definition od_values (d : list (key * V)) : list V := map snd d.
End odict.
Arguments odict V : clear implicits.

(* ===================================================================== *)
(** ** Values held by the statistics dictionary                           *)
(* ===================================================================== *)

(** A list element: a number, or a tuple of numbers (a throughput sample
    [(time, size)]). *)
Inductive elem :=
| ENum (n : num)
| ETuple (l : list num).

(** A value of [stats]: a number, a list, or a dictionary from keys to
    numbers; [dflt] tells a [defaultdict(int)] from a plain [dict]. *)
Inductive pyval :=
| VNum (n : num)
| VList (l : list elem)
| VDict (dflt : bool) (d : odict num).

Abbreviation stats := (gmap string pyval).

(** [stats[name]], [stats[name] = v], [del stats[name]] *)
Definition getitem (name : string) : M stats pyval :=
  fun s => match s !! name with
           | Some v => (Ret v, s)
           | None => (Raise KeyError, s)
           end.
Definition setitem (name : string) (v : pyval) : M stats unit :=
  fun s => (Ret tt, <[name := v]> s).
Definition delitem (name : string) : M stats unit :=
  fun s => match s !! name with
           | Some _ => (Ret tt, delete name s)
           | None => (Raise KeyError, s)
           end.
(** [name in stats] *)
Definition haskey (name : string) : M stats bool :=
  fun s => (Ret (bool_decide (is_Some (s !! name))), s).

(** [v + n] for a number [n]; lists and dictionaries do not add to one. *)
Definition py_add (v : pyval) (n : num) : outcome pyval :=
  match v with
  | VNum a => match num_add a n with Ret r => Ret (VNum r) | Raise e => Raise e end
  | _ => Raise TypeError
  end.

(** [min(v, float)], [max(v, float)]: ordering a list or a dictionary
    against a number is a [TypeError]. *)
Definition py_min_with (v : pyval) (t : float64) : outcome pyval :=
  match v with
  | VNum a => Ret (VNum (py_min a (NFloat t)))
  | _ => Raise TypeError
  end.
Definition py_max_with (v : pyval) (t : float64) : outcome pyval :=
  match v with
  | VNum a => Ret (VNum (py_max a (NFloat t)))
  | _ => Raise TypeError
  end.

(** [v.append(e)]: only a list has the method. *)
Definition py_append (v : pyval) (e : elem) : outcome pyval :=
  match v with
  | VList l => Ret (VList (l ++ [e]))
  | _ => Raise AttributeError
  end.

(** A key equals a list element only when both are the empty tuple. *)
Definition elem_is_key (k : key) (e : elem) : bool :=
  match k, e with
  | KTuple [], ETuple [] => true
  | _, _ => false
  end.

(** [k in v] *)
Definition py_contains (v : pyval) (k : key) : outcome bool :=
  match v with
  | VDict _ d => Ret (bool_decide (is_Some (od_get k d)))
  | VList l => Ret (existsb (elem_is_key k) l)
  | VNum _ => Raise TypeError
  end.

(** [v[k]]: the value, and the container as the lookup leaves it (a
    [defaultdict] stores 0 under a missing key before returning it). *)
Definition py_getitem (v : pyval) (k : key) : outcome (num * pyval) :=
  match v with
  | VDict dflt d =>
      match od_get k d with
      | Some n => Ret (n, v)
      | None => if dflt then Ret (NInt 0, VDict dflt (od_set k (NInt 0) d))
                else Raise KeyError
      end
  | _ => Raise TypeError
  end.

(** [v[k] = n] *)
Definition py_setitem (v : pyval) (k : key) (n : num) : outcome pyval :=
  match v with
  | VDict dflt d => Ret (VDict dflt (od_set k n d))
  | _ => Raise TypeError
  end.

(** [v.pop(k)] *)
Definition py_pop (v : pyval) (k : key) : outcome (num * pyval) :=
  match v with
  | VDict dflt d =>
      match od_get k d with
      | Some n => Ret (n, VDict dflt (od_del k d))
      | None => Raise KeyError
      end
  | VList _ => Raise TypeError
  | VNum _ => Raise AttributeError
  end.

(** [stats[name] += n] *)
Definition iadd (name : string) (n : num) : M stats unit :=
  v <- getitem name ;;
  v' <- lift (py_add v n) ;;
  setitem name v'.

(** [stats[name].append(e)] *)
Definition append (name : string) (e : elem) : M stats unit :=
  v <- getitem name ;;
  v' <- lift (py_append v e) ;;
  setitem name v'.

(** [stats[name][k] += 1].  The inner dictionary is one object, changed in
    place: what [__missing__] stored is there whatever happens next. *)
Definition tally (name : string) (k : key) : M stats unit :=
  d <- getitem name ;;
  r <- lift (py_getitem d k) ;;
  setitem name (snd r) ;;
  n' <- lift (num_add (fst r) (NInt 1)) ;;
  d' <- lift (py_setitem (snd r) k n') ;;
  setitem name d'.

(** [x in s] for strings: [x] occurs in [s]. *)
Fixpoint str_contains (x s : string) : bool :=
  String.prefix x s ||
  match s with
  | EmptyString => false
  | String _ s' => str_contains x s'
  end.

(** [code.startswith(('4', '5'))] *)
Definition startswith_4_or_5 (code : string) : bool :=
  String.prefix "4" code || String.prefix "5" code.

(* ===================================================================== *)
(** ** Packet records                                                     *)
(* ===================================================================== *)

(** A field of a decoded layer is a string when the decoder produced it and
    is missing otherwise ([hasattr] is false, reading it raises
    [AttributeError]). *)

Module ip.
Record layer := { src : option string; dst : option string }.
End ip.

Module tcp.
Record layer := {
  analysis_retransmission : option string;
  flags : option string;
  analysis_acks_frame : option string }.
End tcp.

Module udp.
Record layer := { srcport : option string; dstport : option string }.
End udp.

Module http.
Record layer := { response_code : option string }.
End http.

Module tls.
Record layer := {
  record_content_type : option string;
  handshake_type : option string;
  handshake_version : option string;
  handshake_ciphersuite : option string }.
End tls.

Module dns.
Record layer := {
  flags_response : option string;
  response_time : option string;
  qry_name : option string;
  qry_type : option string;
  id : option string }.
End dns.

Module dhcp.
Record layer := { option_dhcp_message_type : option string }.
End dhcp.

(** A text handed to [float()] or [int()]: what the conversion returns, or
    that it raises [ValueError]. *)
Inductive parsed (A : Type) :=
| Unparsable
| Parsed (a : A).
Arguments Unparsable {A}.
Arguments Parsed {A} a.

Module pkt.
(** [transport_layer] is [None] (here [Some None]) for a packet without a
    transport layer.  ['IP' in packet] holds exactly when [packet.ip]
    exists, and so for the other layers; [bootp] is the membership of
    ['BOOTP']. *)
Record packet := {
  sniff_timestamp : option (parsed float64);
  length : option (parsed Z);
  transport_layer : option (option string);
  highest_layer : option string;
  ip : option ip.layer;
  tcp : option tcp.layer;
  udp : option udp.layer;
  http : option http.layer;
  tls : option tls.layer;
  dns : option dns.layer;
  dhcp : option dhcp.layer;
  bootp : bool }.
End pkt.
Abbreviation packet := pkt.packet.

(** [float(x)] / [int(x)] on an attribute that may be missing. *)
Definition convert {S A} (o : option (parsed A)) : M S A :=
  x <- attr o ;;
  match x with
  | Parsed a => ret a
  | Unparsable => raise ValueError
  end.

(** [a or b] on optional strings: [a] when it is a non-empty string. *)
Definition truthy_str (o : option string) : bool :=
  match o with
  | Some s => negb (String.eqb s "")
  | None => false
  end.

(* ===================================================================== *)
(** ** PacketAnalyzer                                                     *)
(* ===================================================================== *)

Definition int0 : pyval := VNum (NInt 0).
Definition defaultdict_int : pyval := VDict true [].
Definition empty_dict : pyval := VDict false [].
Definition empty_list : pyval := VList [].

(** [initialize_stats]; [now] is the reading of [time.time()]. *)
Definition initialize_stats (now : float64) : stats :=
  list_to_map [
    ("packet_count", int0);
    ("total_bytes", int0);
    ("start_time", VNum (NFloat now));
    ("start_timestamp", VNum (NFloat finf));
    ("end_timestamp", int0);
    ("retransmissions", int0);
    ("resets", int0);
    ("dns_issues", int0);
    ("http_errors", defaultdict_int);
    ("tcp_syn_delays", empty_list);
    ("udp_jitter", empty_list);
    ("top_talkers", defaultdict_int);
    ("protocols", defaultdict_int);
    ("conversations", defaultdict_int);
    ("throughput_samples", empty_list);
    ("prev_udp_time", empty_dict);
    ("malformed_packets", int0);
    ("tls_handshakes", int0);
    ("tls_versions", defaultdict_int);
    ("tls_cipher_suites", defaultdict_int);
    ("tls_alerts", int0);
    ("expired_certs", empty_list);
    ("self_signed_certs", empty_list);
    ("dns_queries", defaultdict_int);
    ("dns_response_times", empty_list);
    ("dns_record_types", defaultdict_int);
    ("pending_dns_queries", empty_dict);
    ("dhcp_servers", defaultdict_int);
    ("dhcp_discover", int0);
    ("dhcp_offer", int0);
    ("dhcp_request", int0);
    ("dhcp_ack", int0);
    ("dhcp_nak", int0) ].

(** The handler of the per-layer helpers: [except AttributeError], which
    logs and goes on. *)
Definition except_AttributeError (m : M stats unit) : M stats unit :=
  try_except m is_AttributeError (fun _ => ret tt).

Definition _analyze_ip_layer (p : packet) (current_time : float64) : M stats unit :=
  except_AttributeError (
    l <- attr (pkt.ip p) ;;
    src <- attr (ip.src l) ;;
    dst <- attr (ip.dst l) ;;
    tally "top_talkers" (KStr src) ;;
    tally "top_talkers" (KStr dst) ;;
    tally "conversations" (KTuple [src; dst])).

Definition _analyze_tcp_layer (p : packet) (current_time : float64) : M stats unit :=
  except_AttributeError (
    l <- attr (pkt.tcp p) ;;
    (if hasattr (tcp.analysis_retransmission l)
     then iadd "retransmissions" (NInt 1) else ret tt) ;;
    flags <- attr (tcp.flags l) ;;
    (if str_contains "RST" flags then iadd "resets" (NInt 1) else ret tt) ;;
    (if str_contains "SYN" flags && negb (hasattr (tcp.analysis_acks_frame l))
     then append "tcp_syn_delays" (ENum (NFloat current_time)) else ret tt)).

(** The receiver of [.append]: a list, else [AttributeError]. *)
Definition the_list (v : pyval) : outcome (list elem) :=
  match v with
  | VList l => Ret l
  | _ => Raise AttributeError
  end.

(** [stats['prev_udp_time']] is one dictionary object all through the
    helper: it is read once here, where the source names it three times. *)
Definition _analyze_udp_layer (p : packet) (current_time : float64) : M stats unit :=
  except_AttributeError (
    if hasattr (pkt.ip p) then
      l <- attr (pkt.ip p) ;;
      src <- attr (ip.src l) ;;
      dst <- attr (ip.dst l) ;;
      u <- attr (pkt.udp p) ;;
      srcport <- attr (udp.srcport u) ;;
      dstport <- attr (udp.dstport u) ;;
      let flow_key := KTuple [src; dst; srcport; dstport] in
      table <- getitem "prev_udp_time" ;;
      seen <- lift (py_contains table flow_key) ;;
      (if seen then
         jitter <- getitem "udp_jitter" ;;
         samples <- lift (the_list jitter) ;;
         prev <- lift (py_getitem table flow_key) ;;
         delta <- lift (num_sub (NFloat current_time) (fst prev)) ;;
         setitem "udp_jitter" (VList (samples ++ [ENum delta]))
       else ret tt) ;;
      table' <- lift (py_setitem table flow_key (NFloat current_time)) ;;
      setitem "prev_udp_time" table'
    else ret tt).

Definition _analyze_http_layer (p : packet) : M stats unit :=
  except_AttributeError (
    l <- attr (pkt.http p) ;;
    if hasattr (http.response_code l) then
      code <- attr (http.response_code l) ;;
      if startswith_4_or_5 code then tally "http_errors" (KStr code) else ret tt
    else ret tt).

(** [hasattr(layer, f) and layer.f == lit] *)
Definition field_is (o : option string) (lit : string) : bool :=
  match o with
  | Some s => String.eqb s lit
  | None => false
  end.

Definition _analyze_tls_layer (p : packet) : M stats unit :=
  except_AttributeError (
    l <- attr (pkt.tls p) ;;
    (if field_is (tls.record_content_type l) "22"
     then iadd "tls_handshakes" (NInt 1) else ret tt) ;;
    (if field_is (tls.handshake_type l) "2" then
       (if hasattr (tls.handshake_version l) then
          v <- attr (tls.handshake_version l) ;; tally "tls_versions" (KStr v)
        else ret tt) ;;
       (if hasattr (tls.handshake_ciphersuite l) then
          c <- attr (tls.handshake_ciphersuite l) ;; tally "tls_cipher_suites" (KStr c)
        else ret tt)
     else ret tt) ;;
    (if field_is (tls.record_content_type l) "21"
     then iadd "tls_alerts" (NInt 1) else ret tt)).

(** In the response branch [stats['pending_dns_queries']] is read once for
    the membership test and the [pop]: it is the same object. *)
Definition _analyze_dns_layer (p : packet) (current_time : float64) : M stats unit :=
  except_AttributeError (
    l <- attr (pkt.dns p) ;;
    response <- attr (dns.flags_response l) ;;
    (if String.eqb response "0" && negb (hasattr (dns.response_time l))
     then iadd "dns_issues" (NInt 1) else ret tt) ;;
    (if hasattr (dns.qry_name l) then
       name <- attr (dns.qry_name l) ;;
       tally "dns_queries" (KStr name) ;;
       type <- attr (dns.qry_type l) ;;
       tally "dns_record_types" (KStr type)
     else ret tt) ;;
    response <- attr (dns.flags_response l) ;;
    if String.eqb response "0" then
      query_id <- attr (dns.id l) ;;
      pending <- getitem "pending_dns_queries" ;;
      pending' <- lift (py_setitem pending (KStr query_id) (NFloat current_time)) ;;
      setitem "pending_dns_queries" pending'
    else if String.eqb response "1" then
      query_id <- attr (dns.id l) ;;
      pending <- getitem "pending_dns_queries" ;;
      waiting <- lift (py_contains pending (KStr query_id)) ;;
      if waiting then
        popped <- lift (py_pop pending (KStr query_id)) ;;
        setitem "pending_dns_queries" (snd popped) ;;
        response_time <- lift (num_sub (NFloat current_time) (fst popped)) ;;
        append "dns_response_times" (ENum response_time)
      else ret tt
    else ret tt).

Definition _analyze_dhcp_layer (p : packet) : M stats unit :=
  except_AttributeError (
    match pkt.dhcp p with
    | Some l =>
        if hasattr (dhcp.option_dhcp_message_type l) then
          dhcp_type <- attr (dhcp.option_dhcp_message_type l) ;;
          if String.eqb dhcp_type "1" then iadd "dhcp_discover" (NInt 1)
          else if String.eqb dhcp_type "2" then
            iadd "dhcp_offer" (NInt 1) ;;
            (if hasattr (pkt.ip p) then
               i <- attr (pkt.ip p) ;;
               src <- attr (ip.src i) ;;
               tally "dhcp_servers" (KStr src)
             else ret tt)
          else if String.eqb dhcp_type "3" then iadd "dhcp_request" (NInt 1)
          else if String.eqb dhcp_type "5" then iadd "dhcp_ack" (NInt 1)
          else if String.eqb dhcp_type "6" then iadd "dhcp_nak" (NInt 1)
          else ret tt
        else ret tt
    | None => ret tt
    end).

(** The first statements of [update_stats], up to the choice of the
    protocol name: the packet is counted, its time and size recorded. *)
Definition count_packet (p : packet) : M stats (float64 * string) :=
  iadd "packet_count" (NInt 1) ;;
  current_time <- convert (pkt.sniff_timestamp p) ;;
  first <- getitem "start_timestamp" ;;
  first' <- lift (py_min_with first current_time) ;;
  setitem "start_timestamp" first' ;;
  last <- getitem "end_timestamp" ;;
  last' <- lift (py_max_with last current_time) ;;
  setitem "end_timestamp" last' ;;
  (if hasattr (pkt.length p) then
     packet_size <- convert (pkt.length p) ;;
     iadd "total_bytes" (NInt packet_size) ;;
     append "throughput_samples" (ETuple [NFloat current_time; NInt packet_size])
   else ret tt) ;;
  transport <- attr (pkt.transport_layer p) ;;
  protocol <- (if truthy_str transport then attr transport
               else attr (pkt.highest_layer p)) ;;
  ret (current_time, protocol).

(** The per-layer statements of [update_stats]. *)
Definition analyze_layers (p : packet) (current_time : float64) : M stats unit :=
  (if hasattr (pkt.ip p) then _analyze_ip_layer p current_time else ret tt) ;;
  (if hasattr (pkt.tcp p) then _analyze_tcp_layer p current_time else ret tt) ;;
  (if hasattr (pkt.udp p) then _analyze_udp_layer p current_time else ret tt) ;;
  (if hasattr (pkt.http p) then _analyze_http_layer p else ret tt) ;;
  (if hasattr (pkt.tls p) then _analyze_tls_layer p else ret tt) ;;
  (if hasattr (pkt.dns p) then _analyze_dns_layer p current_time else ret tt) ;;
  (if hasattr (pkt.dhcp p) || pkt.bootp p then _analyze_dhcp_layer p else ret tt).

(** The body of the [try] of [update_stats]. *)
Definition update_stats_rules (p : packet) : M stats unit :=
  r <- count_packet p ;;
  tally "protocols" (KStr (snd r)) ;;
  analyze_layers p (fst r).

Definition update_stats (p : packet) : M stats unit :=
  try_except (update_stats_rules p) Exception
    (fun _ => iadd "malformed_packets" (NInt 1)).

(** [k.items()] on the conversations value: only a dictionary has it. *)
Definition py_items (v : pyval) : outcome (odict num) :=
  match v with
  | VDict _ d => Ret d
  | _ => Raise AttributeError
  end.

(** One turn of the loop of [_cleanup_stats]. *)
Definition cleanup_step (conversations : odict num) (item : key * num) : odict num :=
  match fst item with
  | KTuple l => od_set (KStr (String.concat "_" l)) (snd item) conversations
  | KStr s => od_set (KStr s) (snd item) conversations
  end.

Definition _cleanup_stats : M stats unit :=
  has_table <- haskey "prev_udp_time" ;;
  (if has_table then delitem "prev_udp_time" else ret tt) ;;
  has_conversations <- haskey "conversations" ;;
  if has_conversations then
    old <- getitem "conversations" ;;
    items <- lift (py_items old) ;;
    setitem "conversations" (VDict false (fold_left cleanup_step items []))
  else ret tt.

(** The loop of [analyze_pcap] over the decoded packets. *)
Fixpoint process (all_packets : list packet) : M stats unit :=
  match all_packets with
  | [] => ret tt
  | p :: rest => update_stats p ;; process rest
  end.

(** [analyze_pcap] once the capture has been read: statistics are
    initialised, every packet is processed, the result is cleaned up. *)
Definition analyze_packets (now : float64) (all_packets : list packet) : outcome unit * stats :=
  (process all_packets ;; _cleanup_stats) (initialize_stats now).

(* ===================================================================== *)
(** ** JSON data, paths and files                                         *)
(* ===================================================================== *)

(** What [json.load] returns and [json.dump] is given.  A dictionary read
    from a file has string keys only; one built in memory may have a tuple
    key, which [json.dump] refuses with [TypeError]. *)
Inductive json :=
| JNull
| JBool (b : bool)
| JNum (n : num)
| JStr (s : string)
| JList (l : list json)
| JDict (d : list (key * json)).

(** [bool(j)], as in [j or default]. *)
Definition json_truthy (j : json) : bool :=
  match j with
  | JNull => false
  | JBool b => b
  | JNum n => negb (num_is_zero n)
  | JStr s => negb (String.eqb s "")
  | JList l => match l with [] => false | _ => true end
  | JDict d => match d with [] => false | _ => true end
  end.

Definition is_str_key (k : key) : bool :=
  match k with KStr _ => true | KTuple _ => false end.

(** [json.dump] accepts the data: every dictionary key is a string. *)
Fixpoint serializable (j : json) : bool :=
  match j with
  | JList l => forallb serializable l
  | JDict d => forallb (fun kv => match kv with (k, v) => is_str_key k && serializable v end) d
  | _ => true
  end.

Definition elem_to_json (e : elem) : json :=
  match e with
  | ENum n => JNum n
  | ETuple l => JList (map JNum l)
  end.

(** A value of [stats] placed in the data to dump. *)
Definition to_json (v : pyval) : json :=
  match v with
  | VNum n => JNum n
  | VList l => JList (map elem_to_json l)
  | VDict _ d => JDict (map (fun kv => (fst kv, JNum (snd kv))) d)
  end.

(** The content of a file: the text [json.dump] writes for [j] (from which
    [json.load] gets [j] back); what is left of that text when the write
    stops early; a text that is not JSON; bytes that are not a text in the
    encoding [open] reads with; a JSON text nested deeper than [json.load]
    can follow. *)
Inductive content :=
| Text (j : json)
| Partial (j : json)
| Garbage (s : string)
| Undecodable (bytes : string)
| Overnested (s : string).

(** A path: the parts before the final component, and the final component
    ([PurePath.name], empty for a path that is only a root or a dot).  The
    file map gives what the file at a path holds; directories are not
    entries of it. *)
Abbreviation path := (list string * string)%type.
Abbreviation fs := (gmap path content).

(** [name.rfind('.')], positions counted from [i]. *)
Fixpoint rfind_dot (name : string) (i : nat) : option nat :=
  match name with
  | EmptyString => None
  | String c rest =>
      match rfind_dot rest (S i) with
      | Some j => Some j
      | None => if Ascii.eqb c "." then Some i else None
      end
  end.

(** [PurePath.suffix]: from the last dot on, unless the dot is first or
    last in the name. *)
Definition suffix (name : string) : string :=
  match rfind_dot name 0 with
  | Some i =>
      if Nat.ltb 0 i && Nat.ltb i (String.length name - 1)
      then String.substring i (String.length name - i) name
      else ""
  | None => ""
  end.

(** [PurePath.with_suffix(sfx)] for a well-formed suffix [sfx]: the old
    suffix is replaced, or [sfx] is added when there is none. *)
Definition with_suffix (p : path) (sfx : string) : outcome path :=
  let name := snd p in
  if String.eqb name "" then Raise ValueError
  else
    let old_suffix := suffix name in
    if String.eqb old_suffix "" then Ret (fst p, name ++ sfx)
    else Ret (fst p,
              String.substring 0 (String.length name - String.length old_suffix) name ++ sfx).

(** What the environment does during one call: which file operation fails,
    if any. *)
Record faults := {
  read_fails : bool;      (* [open(path, 'r')] or the read raises [IOError] *)
  mkdir_fails : bool;     (* [mkdir] raises [OSError] *)
  open_fails : bool;      (* [open(temp_path, 'w')] raises [OSError] *)
  write_fails : bool;     (* the write of the text stops early with [OSError] *)
  replace_fails : bool    (* [replace] raises [OSError] *)
}.

Definition no_faults : faults :=
  {| read_fails := false; mkdir_fails := false; open_fails := false;
     write_fails := false; replace_fails := false |}.

(* ===================================================================== *)
(** ** utils.safe_divide and the metrics                                  *)
(* ===================================================================== *)

(** [float(v)] *)
Definition float_of (v : pyval) : outcome float64 :=
  match v with
  | VNum n => py_float n
  | _ => Raise TypeError
  end.

(** [v == 0] *)
Definition py_is_zero (v : pyval) : bool :=
  match v with
  | VNum n => num_is_zero n
  | _ => false
  end.

(** [a / b] on floats *)
Definition float_div (a b : float64) : outcome float64 :=
  if feqb b fzero then Raise ZeroDivisionError
  else Ret (fdiv a b).

Definition obind {A B} (o : outcome A) (k : A -> outcome B) : outcome B :=
  match o with
  | Ret a => k a
  | Raise e => Raise e
  end.

Definition safe_divide (numerator denominator : pyval) : outcome float64 :=
  if py_is_zero denominator then Ret fzero
  else
    obind (float_of numerator) (fun n =>
    obind (float_of denominator) (fun d =>
    float_div n d)).

(** [sum] of numbers, from the left, starting at the integer 0. *)
Fixpoint sum_from (acc : num) (l : list num) : outcome num :=
  match l with
  | [] => Ret acc
  | n :: rest => obind (num_add acc n) (fun acc' => sum_from acc' rest)
  end.

(** [sum] over the elements of a list: a tuple does not add to a number. *)
Fixpoint sum_elems (acc : num) (l : list elem) : outcome num :=
  match l with
  | [] => Ret acc
  | ENum n :: rest => obind (num_add acc n) (fun acc' => sum_elems acc' rest)
  | ETuple _ :: _ => Raise TypeError
  end.

(** [sum(v)]: iterating a dictionary yields its keys, which do not add to
    an integer. *)
Definition py_sum (v : pyval) : outcome num :=
  match v with
  | VList l => sum_elems (NInt 0) l
  | VDict _ [] => Ret (NInt 0)
  | VDict _ (_ :: _) => Raise TypeError
  | VNum _ => Raise TypeError
  end.

(** [len(v)] *)
Definition py_len (v : pyval) : outcome Z :=
  match v with
  | VList l => Ret (Z.of_nat (length l))
  | VDict _ d => Ret (Z.of_nat (length d))
  | VNum _ => Raise TypeError
  end.

(** [bool(v)] *)
Definition py_truthy (v : pyval) : bool :=
  match v with
  | VNum n => negb (num_is_zero n)
  | VList l => match l with [] => false | _ => true end
  | VDict _ d => match d with [] => false | _ => true end
  end.

(** [sum(v.values())] *)
Definition py_sum_values (v : pyval) : outcome num :=
  match v with
  | VDict _ d => sum_from (NInt 0) (od_values d)
  | _ => Raise AttributeError
  end.

(** [stats[name]] on a dictionary that is only read. *)
Definition lookup_stat (stats : gmap string pyval) (name : string) : outcome pyval :=
  match stats !! name with
  | Some v => Ret v
  | None => Raise KeyError
  end.

(** [safe_divide(sum(stats[name]), len(stats[name])) if stats[name] else 0] *)
Definition average_of (stats : gmap string pyval) (name : string) : outcome num :=
  obind (lookup_stat stats name) (fun samples =>
  if py_truthy samples then
    obind (lookup_stat stats name) (fun samples =>
    obind (py_sum samples) (fun total =>
    obind (lookup_stat stats name) (fun samples =>
    obind (py_len samples) (fun count =>
    obind (safe_divide (VNum total) (VNum (NInt count))) (fun r =>
    Ret (NFloat r))))))
  else Ret (NInt 0)).

(** The dictionary literal of [update_baseline]: the five metrics, its
    entries evaluated in order. *)
Definition baseline_metrics (stats : gmap string pyval) : outcome (list (key * json)) :=
  obind (lookup_stat stats "retransmissions") (fun retransmissions =>
  obind (lookup_stat stats "packet_count") (fun packet_count =>
  obind (safe_divide retransmissions packet_count) (fun tcp_retransmission_rate =>
  obind (lookup_stat stats "resets") (fun resets =>
  obind (average_of stats "tcp_syn_delays") (fun avg_tcp_handshake_delay =>
  obind (average_of stats "udp_jitter") (fun avg_udp_jitter =>
  obind (lookup_stat stats "http_errors") (fun http_errors =>
  obind (py_sum_values http_errors) (fun errors =>
  obind (lookup_stat stats "packet_count") (fun packet_count =>
  obind (safe_divide (VNum errors) packet_count) (fun http_error_rate =>
  Ret [ (KStr "tcp_retransmission_rate", JNum (NFloat tcp_retransmission_rate));
        (KStr "tcp_resets", to_json resets);
        (KStr "avg_tcp_handshake_delay", JNum avg_tcp_handshake_delay);
        (KStr "avg_udp_jitter", JNum avg_udp_jitter);
        (KStr "http_error_rate", JNum (NFloat http_error_rate)) ])))))))))).

(* ===================================================================== *)
(** ** BaselineManager                                                    *)
(* ===================================================================== *)

Record BaselineManager := { baseline_path : path }.

(** [get_baseline_type]; [weekday] is [datetime.now().weekday()], Monday
    being 0. *)
Definition get_baseline_type (weekday : Z) : string :=
  if weekday <? 5 then "workday" else "weekend".

(** [path.exists()] *)
Definition exists_file (p : path) : M fs bool :=
  fun files => (Ret (bool_decide (is_Some (files !! p))), files).

(** [with open(p, 'r') as f: return json.load(f)]: a text that is not
    JSON is refused with [JSONDecodeError]; bytes that are not a text make
    the read raise [UnicodeDecodeError], and a text nested too deep makes
    the decoder raise [RecursionError]. *)
Definition read_json (env : faults) (p : path) : M fs json :=
  fun files =>
    if read_fails env then (Raise OSError, files)
    else match files !! p with
         | Some (Text j) => (Ret j, files)
         | Some (Partial _) | Some (Garbage _) => (Raise JSONDecodeError, files)
         | Some (Undecodable _) => (Raise UnicodeDecodeError, files)
         | Some (Overnested _) => (Raise RecursionError, files)
         | None => (Raise OSError, files)
         end.

(** [path.parent.mkdir(parents=True, exist_ok=True)]: the file map holds
    the files and what they hold, not the directories; making directories
    changes what no file holds, and the call succeeds or fails. *)
Definition mkdir_parent (env : faults) (p : path) : M fs unit :=
  fun files => if mkdir_fails env then (Raise OSError, files) else (Ret tt, files).

(** [with open(p, 'w') as f: json.dump(j, f, indent=2)]: opening truncates
    the file; a write that fails leaves a part of the text behind. *)
Definition write_json (env : faults) (p : path) (j : json) : M fs unit :=
  fun files =>
    if open_fails env then (Raise OSError, files)
    else if write_fails env then (Raise OSError, <[p := Partial j]> files)
    else if serializable j then (Ret tt, <[p := Text j]> files)
    else (Raise TypeError, <[p := Partial j]> files).

(** [src.replace(dst)]: an atomic rename. *)
Definition replace_file (env : faults) (src dst : path) : M fs unit :=
  fun files =>
    if replace_fails env then (Raise OSError, files)
    else match files !! src with
         | Some c => (Ret tt, <[dst := c]> (delete src files))
         | None => (Raise OSError, files)
         end.

Definition load_baseline (self : BaselineManager) (env : faults) : M fs (option json) :=
  try_except
    (present <- exists_file (baseline_path self) ;;
     if present then
       j <- read_json env (baseline_path self) ;;
       ret (Some j)
     else ret None)
    is_JSONDecodeError_or_IOError
    (fun _ => raise BaselineError).

Definition save_baseline (self : BaselineManager) (env : faults)
    (baseline_data : list (key * json)) : M fs unit :=
  try_except
    (mkdir_parent env (baseline_path self) ;;
     temp_path <- lift (with_suffix (baseline_path self) ".tmp") ;;
     write_json env temp_path (JDict baseline_data) ;;
     replace_file env temp_path (baseline_path self))
    is_OSError
    (fun _ => raise BaselineError).

(** [{"workday": {}, "weekend": {}}] *)
Definition default_baseline : json :=
  JDict [(KStr "workday", JDict []); (KStr "weekend", JDict [])].

(** [loaded or default] *)
Definition or_default (loaded : option json) : json :=
  match loaded with
  | Some j => if json_truthy j then j else default_baseline
  | None => default_baseline
  end.

(** [data[k] = v] *)
Definition json_setitem (data : json) (k : key) (v : json) : outcome (list (key * json)) :=
  match data with
  | JDict d => Ret (od_set k v d)
  | _ => Raise TypeError
  end.

(** The body of the [try] of [update_baseline]. *)
Definition update_baseline_steps (self : BaselineManager) (weekday : Z) (env : faults)
    (stats : gmap string pyval) : M fs bool :=
  packet_count <- lift (lookup_stat stats "packet_count") ;;
  if py_is_zero packet_count then raise BaselineError
  else
    let baseline_type := get_baseline_type weekday in
    loaded <- load_baseline self env ;;
    let baseline_data := or_default loaded in
    bucket <- lift (baseline_metrics stats) ;;
    baseline_data' <- lift (json_setitem baseline_data (KStr baseline_type) (JDict bucket)) ;;
    save_baseline self env baseline_data' ;;
    ret true.

Definition update_baseline (self : BaselineManager) (weekday : Z) (env : faults)
    (stats : gmap string pyval) : M fs bool :=
  try_except (update_baseline_steps self weekday env stats) Exception
    (fun _ => ret false).

(* ===================================================================== *)
(** ** utils: interface names                                            *)
(* ===================================================================== *)

(** [s.split(sep, 1)[0]] for a separator that is not empty: what comes
    before the first occurrence of [sep], all of [s] when there is none. *)
Fixpoint before_first (sep s : string) : string :=
  if String.prefix sep s then ""
  else match s with
       | EmptyString => ""
       | String c rest => String c (before_first sep rest)
       end.

Definition extract_device_name (interface_display_name : string) : string :=
  before_first " (" interface_display_name.

(** The display string [_get_macos_interfaces] builds for a device and the
    friendly name found for it ([""] when none was found). *)
Definition interface_display (iface friendly : string) : string :=
  if negb (String.eqb friendly "") then iface ++ " (" ++ friendly ++ ")" else iface.

(** [validate_interface]; [active_interfaces] is what
    [get_active_interfaces()] returns or raises. *)
Definition validate_interface (active_interfaces : outcome (list string))
    (interface : string) : bool :=
  match active_interfaces with
  | Ret active =>
      existsb (fun active_iface =>
                 String.eqb interface active_iface ||
                 String.eqb interface (extract_device_name active_iface)) active
  | Raise _ => false
  end.

(* ===================================================================== *)
(** ** ReportGenerator: the statistics as exported                       *)
(* ===================================================================== *)

(** [ReportGenerator._prepare_for_serialization] on a dictionary key: a
    tuple is joined with underscores, anything else goes through [str]. *)
Definition prepare_key (k : key) : key :=
  match k with
  | KTuple l => KStr (String.concat "_" l)
  | KStr s => KStr s
  end.

(** ... on a value of the statistics: a dictionary is rebuilt as a plain
    [dict] under the new keys; the items of a list (numbers and tuples) and
    a number are returned as they are. *)
Definition prepare_value (v : pyval) : pyval :=
  match v with
  | VDict _ d =>
      VDict false
        (fold_left (fun result kv => od_set (prepare_key (fst kv)) (snd kv) result) d [])
  | VList l => VList l
  | VNum n => VNum n
  end.

(** ... on the statistics themselves, whose keys are strings. *)
Definition _prepare_for_serialization (stats : gmap string pyval) : gmap string pyval :=
  prepare_value <$> stats.

(* ===================================================================== *)
(** ** PacketInsightConfig                                               *)
(* ===================================================================== *)

(** A configuration value: [None], a [bool], an [int], a [float] or a
    [str]. *)
Inductive cval :=
| CNone
| CBool (b : bool)
| CInt (z : Z)
| CFloat (f : float64)
| CStr (s : string).

(** The classes the ['type'] entries of the schema name. *)
Inductive ctype := Cfloat | Cint | Cbool | Cstr.

(** [isinstance(value, t)]; [bool] is a subclass of [int]. *)
Definition isinstance (value : cval) (t : ctype) : bool :=
  match t, value with
  | Cfloat, CFloat _ => true
  | Cint, CInt _ => true
  | Cint, CBool _ => true
  | Cbool, CBool _ => true
  | Cstr, CStr _ => true
  | _, _ => false
  end.

(** An entry of [VALIDATION_SCHEMA]: its ['type'], and the ['min'], the
    ['max'] and the ['choices'] it may have. *)
Record rule := {
  rule_type : ctype;
  rule_min : option num;
  rule_max : option num;
  rule_choices : option (list string) }.

(** A value as an operand of [<] or [>] against a bound: a [bool] counts
    as 0 or 1; [None] and a [str] do not order against a number. *)
Definition as_num (value : cval) : outcome num :=
  match value with
  | CBool b => Ret (NInt (if b then 1 else 0))
  | CInt z => Ret (NInt z)
  | CFloat f => Ret (NFloat f)
  | _ => Raise TypeError
  end.

(** [value in choices] for a list of strings. *)
Definition is_choice (value : cval) (choices : list string) : bool :=
  match value with
  | CStr s => existsb (String.eqb s) choices
  | _ => false
  end.

(** What [_validate_value] reports: the check that failed, with what the
    message names (its text is not modelled). *)
Inductive verror :=
| WrongType (k : key) (expected : ctype) (value : cval)
| BelowMinimum (k : key) (value : cval) (bound : num)
| AboveMaximum (k : key) (value : cval) (bound : num)
| NotAChoice (k : key) (value : cval) (choices : list string).

Definition _validate_value (k : key) (value : cval) (schema : rule)
    : outcome (option verror) :=
  if negb (isinstance value (rule_type schema))
  then Ret (Some (WrongType k (rule_type schema) value))
  else
    obind (match rule_min schema with
           | Some bound => obind (as_num value) (fun v => Ret (num_lt v bound))
           | None => Ret false
           end) (fun below =>
    if below then Ret (option_map (BelowMinimum k value) (rule_min schema))
    else
      obind (match rule_max schema with
             | Some bound => obind (as_num value) (fun v => Ret (num_lt bound v))
             | None => Ret false
             end) (fun above =>
      if above then Ret (option_map (AboveMaximum k value) (rule_max schema))
      else
        match rule_choices schema with
        | Some choices =>
            if negb (is_choice value choices)
            then Ret (Some (NotAChoice k value choices))
            else Ret None
        | None => Ret None
        end)).

Definition bounded (t : ctype) (lo hi : num) : rule :=
  {| rule_type := t; rule_min := Some lo; rule_max := Some hi; rule_choices := None |}.
Definition flag : rule :=
  {| rule_type := Cbool; rule_min := None; rule_max := None; rule_choices := None |}.
Definition one_of (choices : list string) : rule :=
  {| rule_type := Cstr; rule_min := None; rule_max := None; rule_choices := Some choices |}.

Definition VALIDATION_SCHEMA : odict rule := [
  (KStr "retransmission_threshold", bounded Cfloat (NFloat (f64 0.0)) (NFloat (f64 1.0)));
  (KStr "high_jitter_threshold", bounded Cfloat (NFloat (f64 0.0)) (NFloat (f64 10.0)));
  (KStr "syn_delay_threshold", bounded Cfloat (NFloat (f64 0.0)) (NFloat (f64 60.0)));
  (KStr "dns_timeout_threshold", bounded Cfloat (NFloat (f64 0.0)) (NFloat (f64 30.0)));
  (KStr "rolling_capture_size_mb", bounded Cint (NInt 1) (NInt 10000));
  (KStr "rolling_capture_interval_min", bounded Cint (NInt 1) (NInt 1440));
  (KStr "enable_realtime_alerts", flag);
  (KStr "default_capture_duration", bounded Cint (NInt 1) (NInt 86400));
  (KStr "default_output_format", one_of ["text"; "json"; "csv"; "html"]);
  (KStr "packet_sample_rate", bounded Cint (NInt 1) (NInt 1000));
  (KStr "max_packets_in_memory", bounded Cint (NInt 100) (NInt 1000000));
  (KStr "enable_experimental_features", flag);
  (KStr "telemetry_enabled", flag);
  (KStr "telemetry_interval_hours", bounded Cint (NInt 1) (NInt 168));
  (KStr "log_level", one_of ["DEBUG"; "INFO"; "WARNING"; "ERROR"]);
  (KStr "enable_debug_mode", flag);
  (KStr "worker_threads", bounded Cint (NInt 1) (NInt 32));
  (KStr "chunk_size", bounded Cint (NInt 10) (NInt 10000));
  (KStr "memory_limit_mb", bounded Cint (NInt 64) (NInt 16384)) ].

Definition DEFAULT_CONFIG : odict cval := [
  (KStr "retransmission_threshold", CFloat (f64 0.05));
  (KStr "high_jitter_threshold", CFloat (f64 0.1));
  (KStr "syn_delay_threshold", CFloat (f64 0.5));
  (KStr "dns_timeout_threshold", CFloat (f64 1.0));
  (KStr "rolling_capture_size_mb", CInt 100);
  (KStr "rolling_capture_interval_min", CInt 15);
  (KStr "enable_realtime_alerts", CBool true);
  (KStr "default_capture_duration", CInt 60);
  (KStr "default_output_format", CStr "text");
  (KStr "default_output_dir", CStr "reports");
  (KStr "packet_sample_rate", CInt 1);
  (KStr "max_packets_in_memory", CInt 10000);
  (KStr "enable_experimental_features", CBool false);
  (KStr "telemetry_enabled", CBool false);
  (KStr "telemetry_endpoint", CStr "https://api.packetinsight.local/v1/telemetry");
  (KStr "telemetry_interval_hours", CInt 24);
  (KStr "log_level", CStr "INFO");
  (KStr "log_file", CNone);
  (KStr "enable_debug_mode", CBool false);
  (KStr "worker_threads", CInt 4);
  (KStr "chunk_size", CInt 1000);
  (KStr "memory_limit_mb", CInt 512) ].

(** The loop of [validate] and of [update]: the errors of the items whose
    key the schema knows, in the order of the items. *)
Fixpoint collect_errors (items : list (key * cval)) : outcome (list verror) :=
  match items with
  | [] => Ret []
  | (k, value) :: rest =>
      match od_get k VALIDATION_SCHEMA with
      | Some schema =>
          obind (_validate_value k value schema) (fun error =>
          obind (collect_errors rest) (fun errors =>
          Ret (match error with
               | Some e => e :: errors
               | None => errors
               end)))
      | None => collect_errors rest
      end
  end.

(** How a call that may refuse its argument ends: normally, with
    [ConfigurationError] carrying the errors found, or with another
    exception. *)
Inductive config_result (A : Type) :=
| Done (a : A)
| ConfigurationError (errors : list verror)
| Raised (e : exn).
Arguments Done {A} a.
Arguments ConfigurationError {A} errors.
Arguments Raised {A} e.

Module PacketInsightConfig.

(** [validate()] *)
Definition validate (config : odict cval) : outcome (list verror) :=
  collect_errors config.

(** [get(key, default)] *)
Definition get (k : key) (dflt : cval) (config : odict cval) : cval :=
  match od_get k config with
  | Some value => value
  | None => dflt
  end.

(** [set(key, value)]: the configuration after the call. *)
Definition set (k : key) (value : cval) (config : odict cval)
    : config_result (odict cval) :=
  match od_get k VALIDATION_SCHEMA with
  | Some schema =>
      match _validate_value k value schema with
      | Ret (Some error) => ConfigurationError [error]
      | Ret None => Done (od_set k value config)
      | Raise e => Raised e
      end
  | None => Done (od_set k value config)
  end.

(** [update(config_dict)]: every item is checked before any is stored. *)
Definition update (config_dict : odict cval) (config : odict cval)
    : config_result (odict cval) :=
  match collect_errors config_dict with
  | Ret [] => Done (fold_left (fun c kv => od_set (fst kv) (snd kv) c) config_dict config)
  | Ret errors => ConfigurationError errors
  | Raise e => Raised e
  end.

(** [PacketInsightConfig(config_dict)] *)
Definition __init__ (config_dict : option (odict cval)) : config_result (odict cval) :=
  match config_dict with
  | Some (item :: items) => update (item :: items) DEFAULT_CONFIG
  | _ => Done DEFAULT_CONFIG
  end.

End PacketInsightConfig.

(* ===================================================================== *)
(** ** The metrics as the specification words them                        *)
(* ===================================================================== *)

(** The nearest binary64 number to an integer. *)
Definition to_float (z : Z) : float64 := binary_normalize prec emax z 0 false.

Module Spec.

(** A finished snapshot, reduced to what the metrics read. *)
Record snapshot := {
  packet_count : Z;
  retransmissions : Z;
  resets : Z;
  tcp_syn_delays : list float64;
  udp_jitter : list float64;
  http_errors : list (key * Z) }.

Record metrics := {
  retransmission_rate : num;
  reset_count : Z;
  avg_syn_delay : num;
  avg_udp_jitter : num;
  http_error_rate : num }.

(** [a / b], and 0 when [b] is 0. *)
Definition ratio (a b : Z) : num :=
  if b =? 0 then NFloat fzero else NFloat (fdiv (to_float a) (to_float b)).

(** The samples added up from the first to the last. *)
Definition float_sum (l : list float64) : float64 := fold_left fadd l fzero.

(** The arithmetic mean of the samples, and 0 when there is none. *)
Definition mean (l : list float64) : num :=
  match l with
  | [] => NInt 0
  | _ => NFloat (fdiv (float_sum l) (to_float (Z.of_nat (length l))))
  end.

Definition int_sum (l : list Z) : Z := fold_left Z.add l 0.

Definition computeMetrics (sn : snapshot) : metrics :=
  {| retransmission_rate := ratio (retransmissions sn) (packet_count sn);
     reset_count := resets sn;
     avg_syn_delay := mean (tcp_syn_delays sn);
     avg_udp_jitter := mean (udp_jitter sn);
     http_error_rate := ratio (int_sum (map snd (http_errors sn))) (packet_count sn) |}.

End Spec.

(** The snapshot as the dictionary [update_baseline] is given holds it. *)
Definition holds (stats : gmap string pyval) (sn : Spec.snapshot) : Prop :=
  stats !! "packet_count" = Some (VNum (NInt (Spec.packet_count sn))) /\
  stats !! "retransmissions" = Some (VNum (NInt (Spec.retransmissions sn))) /\
  stats !! "resets" = Some (VNum (NInt (Spec.resets sn))) /\
  stats !! "tcp_syn_delays" = Some (VList (map (fun t => ENum (NFloat t)) (Spec.tcp_syn_delays sn))) /\
  stats !! "udp_jitter" = Some (VList (map (fun t => ENum (NFloat t)) (Spec.udp_jitter sn))) /\
  exists dflt, stats !! "http_errors" =
    Some (VDict dflt (map (fun kv => (fst kv, NInt (snd kv))) (Spec.http_errors sn))).

(** The bucket [update_baseline] stores for given metrics. *)
Definition bucket_of (m : Spec.metrics) : list (key * json) :=
  [ (KStr "tcp_retransmission_rate", JNum (Spec.retransmission_rate m));
    (KStr "tcp_resets", JNum (NInt (Spec.reset_count m)));
    (KStr "avg_tcp_handshake_delay", JNum (Spec.avg_syn_delay m));
    (KStr "avg_udp_jitter", JNum (Spec.avg_udp_jitter m));
    (KStr "http_error_rate", JNum (Spec.http_error_rate m)) ].

(** An integer that [float()] converts without [OverflowError]. *)
Definition in_float_range (z : Z) : Prop :=
  forall s, to_float z <> S754_infinity s.

(** The counts of a snapshot are within the range of a double. *)
Definition convertible (sn : Spec.snapshot) : Prop :=
  in_float_range (Spec.packet_count sn) /\
  in_float_range (Spec.retransmissions sn) /\
  in_float_range (Spec.int_sum (map snd (Spec.http_errors sn))) /\
  in_float_range (Z.of_nat (length (Spec.tcp_syn_delays sn))) /\
  in_float_range (Z.of_nat (length (Spec.udp_jitter sn))).

(* ===================================================================== *)
(** ** The shape of the statistics dictionary                             *)
(* ===================================================================== *)

(** The kinds of value [initialize_stats] stores and [update_stats] keeps:
    an integer counter, a number, a list, a [defaultdict(int)] of tallies,
    a dictionary of timestamps. *)
Inductive ty := TInt | TNum | TList | TCounts | TTimes.

Definition is_float (n : num) : bool :=
  match n with NFloat _ => true | NInt _ => false end.

Definition has_ty (t : ty) (v : pyval) : bool :=
  match t, v with
  | TInt, VNum (NInt _) => true
  | TNum, VNum _ => true
  | TList, VList _ => true
  | TCounts, VDict true _ => true
  | TTimes, VDict _ d => forallb is_float (od_values d)
  | _, _ => false
  end.

Definition schema : list (string * ty) := [
  ("packet_count", TInt);
  ("total_bytes", TInt);
  ("start_time", TNum);
  ("start_timestamp", TNum);
  ("end_timestamp", TNum);
  ("retransmissions", TInt);
  ("resets", TInt);
  ("dns_issues", TInt);
  ("http_errors", TCounts);
  ("tcp_syn_delays", TList);
  ("udp_jitter", TList);
  ("top_talkers", TCounts);
  ("protocols", TCounts);
  ("conversations", TCounts);
  ("throughput_samples", TList);
  ("prev_udp_time", TTimes);
  ("malformed_packets", TInt);
  ("tls_handshakes", TInt);
  ("tls_versions", TCounts);
  ("tls_cipher_suites", TCounts);
  ("tls_alerts", TInt);
  ("expired_certs", TList);
  ("self_signed_certs", TList);
  ("dns_queries", TCounts);
  ("dns_response_times", TList);
  ("dns_record_types", TCounts);
  ("pending_dns_queries", TTimes);
  ("dhcp_servers", TCounts);
  ("dhcp_discover", TInt);
  ("dhcp_offer", TInt);
  ("dhcp_request", TInt);
  ("dhcp_ack", TInt);
  ("dhcp_nak", TInt) ].

Fixpoint assoc (name : string) (l : list (string * ty)) : option ty :=
  match l with
  | [] => None
  | (n, t) :: rest => if String.eqb name n then Some t else assoc name rest
  end.

Definition type_of (name : string) : option ty := assoc name schema.

(** Every entry of the schema is present in [s] with a value of its kind. *)
Definition well_formed (s : stats) : Prop :=
  forall name t, type_of name = Some t ->
    exists v, s !! name = Some v /\ has_ty t v = true.

(** The entries named outside [K] are the same in [s] as in [s0]. *)
Definition unchanged_outside (K : list string) (s0 s : stats) : Prop :=
  forall name, name ∉ K -> s !! name = s0 !! name.

(** The entries written before the protocol of a record is known. *)
Definition counter_keys : list string :=
  ["packet_count"; "start_timestamp"; "end_timestamp"; "total_bytes";
   "throughput_samples"].

(** The entries the per-layer helpers write. *)
Definition layer_keys : list string :=
  ["top_talkers"; "conversations"; "retransmissions"; "resets";
   "tcp_syn_delays"; "udp_jitter"; "prev_udp_time"; "http_errors";
   "tls_handshakes"; "tls_versions"; "tls_cipher_suites"; "tls_alerts";
   "dns_issues"; "dns_queries"; "dns_record_types"; "pending_dns_queries";
   "dns_response_times"; "dhcp_discover"; "dhcp_offer"; "dhcp_servers";
   "dhcp_request"; "dhcp_ack"; "dhcp_nak"].

(** The entries [_analyze_dns_layer] writes before it times a query or a
    response. *)
Definition dns_tally_keys : list string :=
  ["dns_issues"; "dns_queries"; "dns_record_types"].

(* ===================================================================== *)
(** ** A program logic for the monad                                      *)
(* ===================================================================== *)

(** [wp m Q E s]: run from [s], [m] ends normally in a state and with a
    result satisfying [Q], or raises [e] in a state satisfying [E e]. *)
Definition wp {S A} (m : M S A) (Q : A -> S -> Prop) (E : exn -> S -> Prop) (s : S) : Prop :=
  match m s with
  | (Ret a, s') => Q a s'
  | (Raise e, s') => E e s'
  end.

(** The invariant of a run started in [s0] that writes only entries of
    [K], each with a value of its kind. *)
Definition inv (K : list string) (s0 s : stats) : Prop :=
  well_formed s /\ unchanged_outside K s0 s.

(** [triple K X m]: [m] keeps [inv K], and raises only exceptions of [X]. *)
Definition triple {A} (K : list string) (X : exn -> bool) (m : M stats A) : Prop :=
  forall s0 s, inv K s0 s ->
    wp m (fun _ s' => inv K s0 s') (fun e s' => X e = true /\ inv K s0 s') s.

Definition no_exn (e : exn) : bool := false.

(** What reading a packet can raise before its protocol is known. *)
Definition Attribute_or_Value (e : exn) : bool :=
  match e with AttributeError | ValueError => true | _ => false end.

(** A record whose frame fields can all be read: it reaches the protocol
    tally. *)
Definition readable (p : packet) : Prop :=
  (exists t, pkt.sniff_timestamp p = Some (Parsed t)) /\
  (pkt.length p = None \/ exists size, pkt.length p = Some (Parsed size)) /\
  (exists transport, pkt.transport_layer p = Some transport /\
     (truthy_str transport = true \/ is_Some (pkt.highest_layer p))).

(** A dictionary of integer tallies, and the sum of its values. *)
Definition counts_of (d : list (key * Z)) : odict num :=
  map (fun kv => (fst kv, NInt (snd kv))) d.
Definition total (d : list (key * Z)) : Z := Spec.int_sum (map snd d).

(** The protocol tallies add up to the packet count. *)
Definition balanced (s : stats) : Prop :=
  exists d, s !! "protocols" = Some (VDict true (counts_of d)) /\
            s !! "packet_count" = Some (VNum (NInt (total d))).

(** The key a conversation or any other entry has after [_cleanup_stats]. *)
Definition cleaned_key (k : key) : key :=
  match k with
  | KTuple l => KStr (String.concat "_" l)
  | KStr s => KStr s
  end.



(** The record [update_baseline] starts from: what the file holds when it
    is there and not empty, the two empty buckets otherwise. *)
Definition previous_record (files : fs) (p : path) : json :=
  or_default (match files !! p with Some (Text j) => Some j | _ => None end).

(* ===================================================================== *)
(** ** Tallies, sample sizes and written entries                         *)
(* ===================================================================== *)

Definition sample_size (e : elem) : Z :=
  match e with
  | ETuple [_; NInt size] => size
  | _ => 0
  end.
Definition sampled_bytes (samples : list elem) : Z :=
  Spec.int_sum (map sample_size samples).

(** [d'] is [d] with one more under [k]: the effect of [d[k] += 1] on a
    dictionary of integer tallies. *)
Definition tallied (k : key) (d d' : list (key * Z)) : Prop :=
  od_get k d' = Some (default 0 (od_get k d) + 1) /\
  forall k', k' <> k -> od_get k' d' = od_get k' d.

(** ['RST' in str(packet.tcp.flags)] once the flags are read. *)
Definition has_flag (l : tcp.layer) (name : string) : bool :=
  match tcp.flags l with
  | Some flags => str_contains name flags
  | None => false
  end.

(** The entries [update_stats] writes. *)
Definition written_keys : list string :=
  ["malformed_packets"; "protocols";
   "packet_count"; "start_timestamp"; "end_timestamp"; "total_bytes";
   "throughput_samples";
   "top_talkers"; "conversations"; "retransmissions"; "resets";
   "tcp_syn_delays"; "udp_jitter"; "prev_udp_time"; "http_errors";
   "tls_handshakes"; "tls_versions"; "tls_cipher_suites"; "tls_alerts";
   "dns_issues"; "dns_queries"; "dns_record_types"; "pending_dns_queries";
   "dns_response_times"; "dhcp_discover"; "dhcp_offer"; "dhcp_servers";
   "dhcp_request"; "dhcp_ack"; "dhcp_nak"].

(* ===================================================================== *)
(** ** Sample records, snapshots and files                                *)
(* ===================================================================== *)

(** A record with the given frame fields and IP, UDP and DNS layers, and no
    other layer. *)
Definition record (t : option (parsed float64)) (size : option (parsed Z))
    (transport : option (option string)) (highest : option string)
    (i : option ip.layer) (u : option udp.layer) (d : option dns.layer) : packet :=
  {| pkt.sniff_timestamp := t; pkt.length := size;
     pkt.transport_layer := transport; pkt.highest_layer := highest;
     pkt.ip := i; pkt.tcp := None; pkt.udp := u; pkt.http := None;
     pkt.tls := None; pkt.dns := d; pkt.dhcp := None; pkt.bootp := false |}.

Definition addresses : ip.layer :=
  {| ip.src := Some "10.0.0.1"; ip.dst := Some "10.0.0.2" |}.

Definition ports : udp.layer :=
  {| udp.srcport := Some "5000"; udp.dstport := Some "53" |}.

(** A UDP datagram of one flow, seen at time [t]. *)
Definition datagram (t : float64) : packet :=
  record (Some (Parsed t)) (Some (Parsed 100)) (Some (Some "UDP")) (Some "DATA")
    (Some addresses) (Some ports) None.

(** A DNS message with transaction id 42: a query ([response] is "0") or a
    response ("1"). *)
Definition dns_message (response : string) (t : float64) : packet :=
  record (Some (Parsed t)) (Some (Parsed 80)) (Some (Some "UDP")) (Some "DNS")
    (Some addresses) None
    (Some {| dns.flags_response := Some response; dns.response_time := None;
             dns.qry_name := Some "example.org"; dns.qry_type := Some "1";
             dns.id := Some "42" |}).

(** A DNS message with transaction id 42 whose question was decoded with
    its name and without its type. *)
Definition untyped_message (response : string) (t : float64) : packet :=
  record (Some (Parsed t)) (Some (Parsed 80)) (Some (Some "UDP")) (Some "DNS")
    (Some addresses) None
    (Some {| dns.flags_response := Some response; dns.response_time := None;
             dns.qry_name := Some "example.org"; dns.qry_type := None;
             dns.id := Some "42" |}).

(** A record whose time stamp is a text [float()] rejects. *)
Definition undated : packet :=
  record (Some Unparsable) (Some (Parsed 100)) (Some (Some "TCP")) (Some "TCP")
    None None None.

(** A record with a time and a size but no layer names to read. *)
Definition unclassified : packet :=
  record (Some (Parsed (f64 5))) (Some (Parsed 100)) None None None None None.

(** The statistics of [test_baseline_metrics_calculation]. *)
Definition sample_snapshot : Spec.snapshot :=
  {| Spec.packet_count := 1000;
     Spec.retransmissions := 50;
     Spec.resets := 10;
     Spec.tcp_syn_delays := [f64 0.1; f64 0.2; f64 0.15];
     Spec.udp_jitter := [f64 0.01; f64 0.02];
     Spec.http_errors := [(KStr "404", 5); (KStr "500", 3)] |}.

Definition sample_stats : gmap string pyval :=
  list_to_map [
    ("packet_count", VNum (NInt 1000));
    ("retransmissions", VNum (NInt 50));
    ("resets", VNum (NInt 10));
    ("tcp_syn_delays", VList [ENum (NFloat (f64 0.1)); ENum (NFloat (f64 0.2));
                              ENum (NFloat (f64 0.15))]);
    ("udp_jitter", VList [ENum (NFloat (f64 0.01)); ENum (NFloat (f64 0.02))]);
    ("http_errors", VDict false [(KStr "404", NInt 5); (KStr "500", NInt 3)]) ].

(** [empty_stats] of [test_update_baseline_empty_stats]. *)
Definition empty_stats : gmap string pyval :=
  {[ "packet_count" := VNum (NInt 0) ]}.

(** [BaselineManager()] with its default path, and one whose file name
    ends in [.tmp]. *)
Definition default_manager : BaselineManager :=
  {| baseline_path := ([], "network_baselines.json") |}.
Definition tmp_manager : BaselineManager :=
  {| baseline_path := ([], "baselines.tmp") |}.

(** A weekend bucket stored by an earlier update. *)
Definition weekend_bucket : json :=
  JDict [(KStr "tcp_retransmission_rate", JNum (NFloat (f64 0.015)));
         (KStr "tcp_resets", JNum (NInt 1))].

Definition stored_record : json :=
  JDict [(KStr "workday", JDict []); (KStr "weekend", weekend_bucket)].

(** A record that was stored with the workday bucket only. *)
Definition workday_only_record : json :=
  JDict [(KStr "workday", JDict [(KStr "tcp_resets", JNum (NInt 3))])].

(** The device fills up while the text is written. *)
Definition disk_full : faults :=
  {| read_fails := false; mkdir_fails := false; open_fails := false;
     write_fails := true; replace_fails := false |}.

(** Two conversations whose joined keys are the same text. *)
Definition clashing_conversations : odict num :=
  [(KTuple ["a_b"; "c"], NInt 1); (KTuple ["a"; "b_c"], NInt 2)].

(* ===================================================================== *)
(** * Properties                                                          *)
(* ===================================================================== *)

(** ** Ordered dictionaries *)

Section odict_facts.
Context {V : Type}.
Implicit Types (k : key) (v : V) (d : list (key * V)).

Lemma od_get_set_eq k v d : od_get k (od_set k v d) = Some v.
Proof.
  induction d as [|[k' v'] d IH]; simpl.
  - by rewrite decide_True.
  - destruct (decide (k = k')) as [->|Hne]; simpl.
    + by rewrite decide_True.
    + by rewrite decide_False.
Qed.

Lemma od_get_set_ne k k' v d : k <> k' -> od_get k' (od_set k v d) = od_get k' d.
Proof.
  intros Hne. induction d as [|[k0 v0] d IH]; simpl.
  - rewrite decide_False; [done | congruence].
  - destruct (decide (k = k0)) as [->|Hk]; simpl.
    + rewrite !decide_False; [done | congruence | congruence].
    + destruct (decide (k' = k0)); [done | apply IH].
Qed.

Lemma od_get_del_eq k d : od_get k (od_del k d) = None.
Proof.
  induction d as [|[k0 v0] d IH]; simpl; [done|].
  destruct (decide (k = k0)); simpl; [done|].
  by rewrite decide_False.
Qed.

Lemma od_get_del_ne k k' d : k <> k' -> od_get k' (od_del k d) = od_get k' d.
Proof.
  intros Hne. induction d as [|[k0 v0] d IH]; simpl; [done|].
  destruct (decide (k = k0)) as [->|Hk]; simpl.
  - rewrite decide_False; [done | congruence].
  - destruct (decide (k' = k0)); [done | apply IH].
Qed.

Lemma od_get_None_keys k d : od_get k d = None <-> k ∉ od_keys d.
Proof.
  induction d as [|[k0 v0] d IH]; simpl.
  - split; [intros _; apply not_elem_of_nil | done].
  - rewrite not_elem_of_cons. destruct (decide (k = k0)) as [->|Hk].
    + split; [done | intros [? _]; done].
    + rewrite IH. tauto.
Qed.

Lemma od_set_fresh k v d : od_get k d = None -> od_set k v d = (d ++ [(k, v)])%list.
Proof.
  induction d as [|[k0 v0] d IH]; simpl; [done|].
  destruct (decide (k = k0)); [done|]. intros H. by rewrite IH.
Qed.

Lemma od_get_app k d d' :
  od_get k (d ++ d')%list = match od_get k d with Some v => Some v | None => od_get k d' end.
Proof.
  induction d as [|[k0 v0] d IH]; simpl; [done|].
  by destruct (decide (k = k0)).
Qed.

Lemma od_get_Some_elem k v d : od_get k d = Some v -> (k, v) ∈ d.
Proof.
  induction d as [|[k0 v0] d IH]; simpl; [done|].
  destruct (decide (k = k0)) as [->|Hk].
  - intros [= ->]. apply list_elem_of_here.
  - intros H. apply list_elem_of_further, IH, H.
Qed.

End odict_facts.

Lemma floats_set k t d :
  forallb is_float (od_values d) = true ->
  forallb is_float (od_values (od_set k (NFloat t) d)) = true.
Proof.
  induction d as [|[k0 v0] d IH]; simpl; [done|].
  intros [H1 H2]%andb_prop. destruct (decide (k = k0)); simpl.
  - by rewrite H2.
  - by rewrite H1, IH.
Qed.

Lemma floats_del k d :
  forallb is_float (od_values d) = true ->
  forallb is_float (od_values (od_del k d)) = true.
Proof.
  induction d as [|[k0 v0] d IH]; simpl; [done|].
  intros [H1 H2]%andb_prop. destruct (decide (k = k0)); simpl.
  - by apply IH.
  - by rewrite H1, IH.
Qed.

Lemma floats_get k n d :
  forallb is_float (od_values d) = true -> od_get k d = Some n ->
  exists t, n = NFloat t.
Proof.
  induction d as [|[k0 v0] d IH]; simpl; [done|].
  intros [H1 H2]%andb_prop. destruct (decide (k = k0)).
  - intros [= ->]. destruct n; [done | eauto].
  - by apply IH.
Qed.

(** ** Weakest preconditions *)

Section wp_rules.
Context {S : Type}.

Lemma wp_ret {A} (a : A) (Q : A -> S -> Prop) (E : exn -> S -> Prop) s :
  Q a s -> wp (ret a) Q E s.
Proof. done. Qed.

Lemma wp_raise {A} e (Q : A -> S -> Prop) (E : exn -> S -> Prop) s :
  E e s -> wp (raise e) Q E s.
Proof. done. Qed.

Lemma wp_bind {A B} (m : M S A) (k : A -> M S B)
    (Q : B -> S -> Prop) (E : exn -> S -> Prop) s :
  wp m (fun a s' => wp (k a) Q E s') E s -> wp (bind m k) Q E s.
Proof. unfold wp, bind. by destruct (m s) as [[a|e] s']. Qed.

Lemma wp_mono {A} (m : M S A) (Q Q' : A -> S -> Prop) (E E' : exn -> S -> Prop) s :
  (forall a s', Q a s' -> Q' a s') -> (forall e s', E e s' -> E' e s') ->
  wp m Q E s -> wp m Q' E' s.
Proof. unfold wp. intros HQ HE. destruct (m s) as [[a|e] s']; auto. Qed.

Lemma wp_try {A} (m : M S A) (catches : exn -> bool) (h : exn -> M S A)
    (Q : A -> S -> Prop) (E : exn -> S -> Prop) s :
  wp m Q (fun e s' => if catches e then wp (h e) Q E s' else E e s') s ->
  wp (try_except m catches h) Q E s.
Proof.
  unfold wp, try_except. destruct (m s) as [[a|e] s']; [done|].
  by destruct (catches e).
Qed.

Lemma wp_run {A} (m : M S A) (Q : A -> S -> Prop) (E : exn -> S -> Prop) s r s' :
  wp m Q E s -> m s = (r, s') ->
  match r with Ret a => Q a s' | Raise e => E e s' end.
Proof. unfold wp. intros H Heq. rewrite Heq in H. by destruct r. Qed.

End wp_rules.

(** ** Well-formed statistics *)

Lemma assoc_Forall (P : string -> ty -> Prop) (l : list (string * ty)) :
  Forall (fun e => P (fst e) (snd e)) l ->
  forall name t, assoc name l = Some t -> P name t.
Proof.
  induction 1 as [|[n t0] l Hhd _ IH]; simpl; [done|].
  intros name t. destruct (String.eqb name n) eqn:E.
  - apply String.eqb_eq in E as ->. by intros [= <-].
  - apply IH.
Qed.

Lemma well_formed_initialize_stats now : well_formed (initialize_stats now).
Proof.
  unfold well_formed, type_of.
  apply (assoc_Forall (fun name t =>
    exists v, initialize_stats now !! name = Some v /\ has_ty t v = true)).
  unfold schema.
  repeat (apply Forall_cons; split; [eexists; split; [vm_compute; reflexivity | reflexivity] |]).
  constructor.
Qed.

Lemma well_formed_insert s name t v :
  well_formed s -> type_of name = Some t -> has_ty t v = true ->
  well_formed (<[name := v]> s).
Proof.
  intros Hwf Ht Hv name' t' Ht'.
  destruct (decide (name = name')) as [<-|Hne].
  - exists v. rewrite lookup_insert_eq. split; [done | congruence].
  - rewrite lookup_insert_ne by done. by apply Hwf.
Qed.

Lemma unchanged_outside_refl K s : unchanged_outside K s s.
Proof. by intros name _. Qed.

Lemma unchanged_outside_insert K s0 s name v :
  unchanged_outside K s0 s -> name ∈ K -> unchanged_outside K s0 (<[name := v]> s).
Proof.
  intros H Hin name' Hout. rewrite lookup_insert_ne; [by apply H|].
  intros ->. done.
Qed.

Lemma unchanged_outside_trans K s0 s1 s2 :
  unchanged_outside K s0 s1 -> unchanged_outside K s1 s2 -> unchanged_outside K s0 s2.
Proof. intros H1 H2 name Hout. rewrite H2, H1; done. Qed.

Lemma unchanged_outside_weaken K K' s0 s :
  K ⊆ K' -> unchanged_outside K s0 s -> unchanged_outside K' s0 s.
Proof. intros Hsub H name Hout. apply H. intros Hin. apply Hout, Hsub, Hin. Qed.

Lemma inv_refl K s : well_formed s -> inv K s s.
Proof. intros H. split; [done | apply unchanged_outside_refl]. Qed.

Lemma inv_insert K s0 s name t v :
  inv K s0 s -> name ∈ K -> type_of name = Some t -> has_ty t v = true ->
  inv K s0 (<[name := v]> s).
Proof.
  intros [Hwf Hun] Hin Ht Hv. split.
  - by eapply well_formed_insert.
  - by apply unchanged_outside_insert.
Qed.

(** ** Rules of the program logic *)

Section triple_rules.
Context (K : list string) (X : exn -> bool).

Lemma triple_ret {A} (a : A) : triple K X (ret a).
Proof. intros s0 s Hinv. by apply wp_ret. Qed.

Lemma triple_raise {A} e : X e = true -> triple K X (@raise stats A e).
Proof. intros HX s0 s Hinv. by apply wp_raise. Qed.

Lemma triple_bind {A B} (m : M stats A) (k : A -> M stats B) :
  triple K X m -> (forall a, triple K X (k a)) -> triple K X (bind m k).
Proof.
  intros Hm Hk s0 s Hinv. apply wp_bind.
  eapply wp_mono; [| | by apply Hm]; simpl.
  - intros a s' Hinv'. by apply Hk.
  - done.
Qed.

Lemma triple_attr {A} (o : option A) :
  X AttributeError = true -> triple K X (attr o).
Proof.
  intros HX. destruct o; simpl; [apply triple_ret | by apply triple_raise].
Qed.

Lemma triple_convert {A} (o : option (parsed A)) :
  X AttributeError = true -> X ValueError = true -> triple K X (convert o).
Proof.
  intros HA HV. unfold convert. apply triple_bind; [by apply triple_attr|].
  intros [|a]; [by apply triple_raise | apply triple_ret].
Qed.

Lemma triple_lift_bind {A B} (o : outcome A) (k : A -> M stats B) :
  match o with Ret a => triple K X (k a) | Raise e => X e = true end ->
  triple K X (bind (lift o) k).
Proof.
  destruct o as [a|e]; intros H s0 s Hinv.
  - by apply (H s0 s).
  - by apply wp_raise.
Qed.

Lemma triple_getitem_bind {B} name t (k : pyval -> M stats B) :
  type_of name = Some t ->
  (forall v, has_ty t v = true -> triple K X (k v)) ->
  triple K X (bind (getitem name) k).
Proof.
  intros Ht Hk s0 s Hinv.
  destruct (proj1 Hinv name t Ht) as (v & Hv & Hty).
  unfold wp, bind, getitem. rewrite Hv. by apply (Hk v Hty s0 s).
Qed.

Lemma triple_setitem name t v :
  name ∈ K -> type_of name = Some t -> has_ty t v = true ->
  triple K X (setitem name v).
Proof.
  intros Hin Ht Hv s0 s Hinv. unfold wp, setitem. by eapply inv_insert.
Qed.

Lemma triple_iadd name z :
  name ∈ K -> type_of name = Some TInt -> triple K X (iadd name (NInt z)).
Proof.
  intros Hin Ht. unfold iadd. eapply triple_getitem_bind; [done|].
  intros [[x|f]|l|b d] Hv; try discriminate Hv.
  apply triple_lift_bind; simpl. by eapply triple_setitem.
Qed.

Lemma triple_append name e :
  name ∈ K -> type_of name = Some TList -> triple K X (append name e).
Proof.
  intros Hin Ht. unfold append. eapply triple_getitem_bind; [done|].
  intros [n|l|b d] Hv; try discriminate Hv.
  apply triple_lift_bind; simpl. by eapply triple_setitem.
Qed.

Lemma num_add_one n : exists n', num_add n (NInt 1) = Ret n'.
Proof. destruct n as [x|f]; simpl; eauto. Qed.

Lemma triple_tally name k :
  name ∈ K -> type_of name = Some TCounts -> triple K X (tally name k).
Proof.
  intros Hin Ht. unfold tally. eapply triple_getitem_bind; [done|].
  intros [n|l|[] d] Hv; try discriminate Hv.
  apply triple_lift_bind; simpl.
  destruct (od_get k d) as [n|] eqn:Hget; simpl.
  - apply triple_bind; [by eapply triple_setitem|]. intros _.
    destruct (num_add_one n) as [n' ->].
    apply triple_lift_bind; simpl. apply triple_lift_bind; simpl.
    by eapply triple_setitem.
  - apply triple_bind; [by eapply triple_setitem|]. intros _.
    apply triple_lift_bind; simpl. apply triple_lift_bind; simpl.
    by eapply triple_setitem.
Qed.

End triple_rules.

Lemma triple_try {A} K X X' (m : M stats A) (catches : exn -> bool) (h : exn -> M stats A) :
  triple K X m ->
  (forall e, X e = true -> if catches e then triple K X' (h e) else X' e = true) ->
  triple K X' (try_except m catches h).
Proof.
  intros Hm Hh s0 s Hinv. apply wp_try.
  eapply wp_mono; [| | by apply Hm]; simpl; [done|].
  intros e s' [HX Hinv']. specialize (Hh e HX).
  destruct (catches e); [by apply Hh | done].
Qed.

(** A helper that catches [AttributeError] and meets no other exception
    raises nothing. *)
Lemma triple_except_AttributeError K X (m : M stats unit) :
  triple K is_AttributeError m -> triple K X (except_AttributeError m).
Proof.
  intros Hm. eapply triple_try; [exact Hm|].
  intros e He. rewrite He. apply triple_ret.
Qed.

Lemma triple_wp {A} K X (m : M stats A) (Q : A -> stats -> Prop) (E : exn -> stats -> Prop) s0 s :
  triple K X m -> inv K s0 s ->
  (forall a s', inv K s0 s' -> Q a s') ->
  (forall e s', X e = true -> inv K s0 s' -> E e s') ->
  wp m Q E s.
Proof.
  intros Hm Hinv HQ HE. eapply wp_mono; [| | by apply Hm]; simpl.
  - intros a s'. apply HQ.
  - intros e s' [HX Hi]. by apply HE.
Qed.

(** ** The per-layer helpers raise nothing and write only their entries *)

Ltac in_keys :=
  repeat first [apply list_elem_of_here | apply list_elem_of_further].

Ltac triple_step :=
  lazymatch goal with
  | |- triple _ _ (ret _) => apply triple_ret
  | |- triple _ _ (raise _) => apply triple_raise; reflexivity
  | |- triple _ _ (attr _) => apply triple_attr; reflexivity
  | |- triple _ _ (convert _) => apply triple_convert; reflexivity
  | |- triple _ _ (iadd _ (NInt _)) => apply triple_iadd; [in_keys | reflexivity]
  | |- triple _ _ (append _ _) => apply triple_append; [in_keys | reflexivity]
  | |- triple _ _ (tally _ _) => apply triple_tally; [in_keys | reflexivity]
  | |- triple _ _ (bind (lift _) _) => apply triple_lift_bind; simpl
  | |- triple _ _ (bind _ _) => apply triple_bind; [| intros ?]
  | |- triple _ _ (if ?b then _ else _) => destruct b
  | |- triple _ _ (match ?o with _ => _ end) => destruct o
  end.

Ltac triple_auto := repeat triple_step.

Lemma triple_analyze_ip_layer p t :
  triple layer_keys no_exn (_analyze_ip_layer p t).
Proof.
  apply triple_except_AttributeError. triple_auto.
Qed.

Lemma triple_analyze_tcp_layer p t :
  triple layer_keys no_exn (_analyze_tcp_layer p t).
Proof.
  apply triple_except_AttributeError. triple_auto.
Qed.

Lemma triple_analyze_http_layer p :
  triple layer_keys no_exn (_analyze_http_layer p).
Proof.
  apply triple_except_AttributeError. triple_auto.
Qed.

Lemma triple_analyze_tls_layer p :
  triple layer_keys no_exn (_analyze_tls_layer p).
Proof.
  apply triple_except_AttributeError. triple_auto.
Qed.

Lemma triple_analyze_dhcp_layer p :
  triple layer_keys no_exn (_analyze_dhcp_layer p).
Proof.
  apply triple_except_AttributeError. triple_auto.
Qed.

Lemma triple_analyze_udp_layer p t :
  triple layer_keys no_exn (_analyze_udp_layer p t).
Proof.
  apply triple_except_AttributeError.
  destruct (hasattr (pkt.ip p)); [|apply triple_ret].
  do 6 (apply triple_bind; [apply triple_attr; reflexivity | intros ?]).
  eapply triple_getitem_bind; [reflexivity|].
  intros [n|l|b d] Hv; try discriminate Hv. simpl in Hv.
  apply triple_lift_bind; simpl.
  apply triple_bind.
  - destruct (od_get _ d) as [prev|] eqn:Hget.
    + rewrite bool_decide_true by eauto.
      eapply triple_getitem_bind; [reflexivity|].
      intros [n|l|b' d'] Hj; try discriminate Hj.
      apply triple_lift_bind; simpl.
      destruct (floats_get _ _ _ Hv Hget) as [t0 ->].
      apply triple_lift_bind; simpl.
      eapply triple_setitem; [in_keys | reflexivity | reflexivity].
    + rewrite bool_decide_false by (intros [? ?]; done).
      apply triple_ret.
  - intros _. apply triple_lift_bind; simpl.
    eapply triple_setitem; [in_keys | reflexivity |].
    simpl. by apply floats_set.
Qed.

Lemma triple_analyze_dns_layer p t :
  triple layer_keys no_exn (_analyze_dns_layer p t).
Proof.
  apply triple_except_AttributeError.
  do 2 (apply triple_bind; [apply triple_attr; reflexivity | intros ?]).
  apply triple_bind; [triple_auto | intros _].
  apply triple_bind; [triple_auto | intros _].
  apply triple_bind; [apply triple_attr; reflexivity | intros response].
  destruct (String.eqb response "0").
  - apply triple_bind; [apply triple_attr; reflexivity | intros qid].
    eapply triple_getitem_bind; [reflexivity|].
    intros [n|l|b d] Hv; try discriminate Hv. simpl in Hv.
    apply triple_lift_bind; simpl.
    eapply triple_setitem; [in_keys | reflexivity |].
    simpl. by apply floats_set.
  - destruct (String.eqb response "1"); [|apply triple_ret].
    apply triple_bind; [apply triple_attr; reflexivity | intros qid].
    eapply triple_getitem_bind; [reflexivity|].
    intros [n|l|b d] Hv; try discriminate Hv. simpl in Hv.
    apply triple_lift_bind; simpl.
    destruct (od_get (KStr qid) d) as [t0|] eqn:Hget.
    + rewrite bool_decide_true by eauto.
      apply triple_lift_bind; simpl.
      apply triple_bind.
      { eapply triple_setitem; [in_keys | reflexivity |].
        simpl. by apply floats_del. }
      intros _. destruct (floats_get _ _ _ Hv Hget) as [t1 ->].
      apply triple_lift_bind; simpl. triple_auto.
    + rewrite bool_decide_false by (intros [? ?]; done).
      apply triple_ret.
Qed.

Lemma triple_analyze_layers p t :
  triple layer_keys no_exn (analyze_layers p t).
Proof.
  unfold analyze_layers.
  repeat (apply triple_bind; [| intros _]);
    match goal with |- triple _ _ (if ?b then _ else _) => destruct b end;
    first [ apply triple_ret
          | apply triple_analyze_ip_layer | apply triple_analyze_tcp_layer
          | apply triple_analyze_udp_layer | apply triple_analyze_http_layer
          | apply triple_analyze_tls_layer | apply triple_analyze_dns_layer
          | apply triple_analyze_dhcp_layer ].
Qed.

(** Before the protocol is known only [AttributeError] and [ValueError]
    can be raised, and only the counters of [counter_keys] are written. *)
Lemma triple_count_packet p :
  triple counter_keys Attribute_or_Value (count_packet p).
Proof.
  unfold count_packet.
  apply triple_bind; [triple_step | intros _].
  apply triple_bind; [triple_step | intros t].
  eapply triple_getitem_bind; [reflexivity|].
  intros [n|l|b d] Hv; try discriminate Hv.
  apply triple_lift_bind; simpl.
  apply triple_bind;
    [eapply triple_setitem; [in_keys | reflexivity | reflexivity] | intros _].
  eapply triple_getitem_bind; [reflexivity|].
  intros [n'|l|b d] Hv'; try discriminate Hv'.
  apply triple_lift_bind; simpl.
  apply triple_bind;
    [eapply triple_setitem; [in_keys | reflexivity | reflexivity] | intros _].
  triple_auto.
Qed.

(** ** update_stats: a faulty record is absorbed *)

Ltac not_in_keys :=
  let H := fresh in
  intros H; repeat (apply elem_of_cons in H as [H|H]; [discriminate H|]);
  by apply elem_of_nil in H.

(** The rules of one record, run on well-formed statistics, keep them
    well-formed; when they raise, only the counters of [counter_keys] have
    been written. *)
Lemma update_stats_rules_wp s p :
  well_formed s ->
  wp (update_stats_rules p)
     (fun _ s' => well_formed s')
     (fun e s' => Attribute_or_Value e = true /\ well_formed s' /\
                  unchanged_outside counter_keys s s') s.
Proof.
  intros Hwf. unfold update_stats_rules. apply wp_bind.
  eapply (triple_wp counter_keys Attribute_or_Value);
    [apply triple_count_packet | by apply inv_refl | | ].
  - intros r s1 [Hwf1 _]. apply wp_bind.
    eapply (triple_wp ["protocols"] no_exn _ _ _ s1 s1);
      [apply triple_tally; [in_keys | reflexivity] | by apply inv_refl
      | | intros; discriminate].
    intros _ s2 [Hwf2 _].
    eapply (triple_wp layer_keys no_exn _ _ _ s2 s2);
      [apply triple_analyze_layers | by apply inv_refl
      | by intros _ s3 [? _] | intros; discriminate].
  - by intros e s1 HX [Hwf1 Hun1].
Qed.

(** [update_stats] returns, and keeps the statistics well-formed. *)
Lemma update_stats_total s p :
  well_formed s -> exists s', update_stats p s = (Ret tt, s') /\ well_formed s'.
Proof.
  intros Hwf. pose proof (update_stats_rules_wp s p Hwf) as H.
  unfold wp in H. unfold update_stats, try_except.
  destruct (update_stats_rules p s) as [[[]|e] s1].
  - by exists s1.
  - destruct H as (_ & Hwf1 & _). simpl.
    destruct (Hwf1 "malformed_packets" TInt eq_refl) as (v & Hv & Hty).
    destruct v as [[m|f]|l|b d]; try discriminate Hty.
    unfold iadd, bind, getitem. rewrite Hv. simpl.
    eexists. split; [reflexivity|].
    by eapply well_formed_insert.
Qed.

(** The loop over a capture returns. *)
Lemma process_total all_packets s :
  well_formed s ->
  exists s', process all_packets s = (Ret tt, s') /\ well_formed s'.
Proof.
  revert s. induction all_packets as [|p rest IH]; intros s Hwf; simpl.
  - by exists s.
  - destruct (update_stats_total s p Hwf) as (s1 & Hs1 & Hwf1).
    unfold bind. rewrite Hs1. by apply IH.
Qed.

(** C1, as amended.  On well-formed statistics [update_stats] returns
    normally for every record.  When the rules of the record raise an
    exception that reaches the handler of [update_stats],
    [malformed_packets] grows by exactly 1 and every entry other than
    [malformed_packets] and the counters written before the protocol tally
    ([packet_count], the time range, [total_bytes], [throughput_samples])
    is as it was before the call. *)
Theorem update_stats_isolation (s : stats) (p : packet) :
  well_formed s ->
  exists s', update_stats p s = (Ret tt, s') /\
    forall e s1, update_stats_rules p s = (Raise e, s1) ->
      (exists m, s !! "malformed_packets" = Some (VNum (NInt m)) /\
                 s' !! "malformed_packets" = Some (VNum (NInt (m + 1)))) /\
      (forall name, name ∉ "malformed_packets" :: counter_keys ->
                    s' !! name = s !! name).
Proof.
  intros Hwf. pose proof (update_stats_rules_wp s p Hwf) as H.
  unfold wp in H. unfold update_stats, try_except.
  destruct (update_stats_rules p s) as [[[]|e] s1].
  - exists s1. split; [done|]. intros e' s1' [=].
  - destruct H as (_ & Hwf1 & Hun). simpl.
    destruct (Hwf1 "malformed_packets" TInt eq_refl) as (v & Hv & Hty).
    destruct v as [[m|f]|l|b d]; try discriminate Hty.
    unfold iadd, bind, getitem. rewrite Hv. simpl.
    eexists. split; [reflexivity|].
    intros e' s1' _. split.
    + exists m. split; [| apply lookup_insert_eq].
      rewrite <- Hv. symmetry. apply Hun. unfold counter_keys. not_in_keys.
    + intros name [Hne Hout]%not_elem_of_cons.
      rewrite lookup_insert_ne by done. by apply Hun.
Qed.

Lemma update_stats_isolation_witness :
  well_formed (initialize_stats fzero) /\
  exists s', update_stats unclassified (initialize_stats fzero) = (Ret tt, s') /\
    forall e s1, update_stats_rules unclassified (initialize_stats fzero) = (Raise e, s1) ->
      (exists m, initialize_stats fzero !! "malformed_packets" = Some (VNum (NInt m)) /\
                 s' !! "malformed_packets" = Some (VNum (NInt (m + 1)))) /\
      (forall name, name ∉ "malformed_packets" :: counter_keys ->
                    s' !! name = initialize_stats fzero !! name).
Proof.
  split; [apply well_formed_initialize_stats|].
  apply (update_stats_isolation (initialize_stats fzero) unclassified).
  apply well_formed_initialize_stats.
Defined.

(** C1, as stated, fails: the record [unclassified] makes the rules raise,
    the exception is absorbed, and yet [total_bytes] is no longer what it
    was before the call. *)
Lemma update_stats_isolation_counterexample :
  ~ (forall (s : stats) (p : packet), well_formed s ->
       forall e s1, update_stats_rules p s = (Raise e, s1) ->
         forall name, name <> "malformed_packets" ->
           snd (update_stats p s) !! name = s !! name).
Proof.
  intros H.
  destruct (update_stats_rules unclassified (initialize_stats fzero)) as [r s1] eqn:Hr.
  assert (Hraise : fst (update_stats_rules unclassified (initialize_stats fzero))
                   = Raise AttributeError) by (vm_compute; reflexivity).
  rewrite Hr in Hraise. simpl in Hraise. subst r.
  specialize (H (initialize_stats fzero) unclassified
                (well_formed_initialize_stats fzero) AttributeError s1 Hr
                "total_bytes" ltac:(discriminate)).
  vm_compute in H. discriminate H.
Qed.

(** ** UDP jitter *)

(** What [_analyze_udp_layer] does to a datagram that carries an IP layer:
    the table entry of the flow is overwritten with the current time, and
    the time since the previous datagram of the flow, when there is one,
    is appended to [udp_jitter]; nothing else is written. *)
Lemma analyze_udp_layer_effect s p t l u src dst sport dport dflt table samples :
  pkt.ip p = Some l -> ip.src l = Some src -> ip.dst l = Some dst ->
  pkt.udp p = Some u -> udp.srcport u = Some sport -> udp.dstport u = Some dport ->
  s !! "prev_udp_time" = Some (VDict dflt table) ->
  s !! "udp_jitter" = Some (VList samples) ->
  forallb is_float (od_values table) = true ->
  exists s', _analyze_udp_layer p t s = (Ret tt, s') /\
    s' !! "prev_udp_time" =
      Some (VDict dflt (od_set (KTuple [src; dst; sport; dport]) (NFloat t) table)) /\
    s' !! "udp_jitter" =
      Some (VList match od_get (KTuple [src; dst; sport; dport]) table with
                  | Some (NFloat prior) => samples ++ [ENum (NFloat (fsub t prior))]
                  | _ => samples
                  end) /\
    forall name, name ∉ ["prev_udp_time"; "udp_jitter"] -> s' !! name = s !! name.
Proof.
  intros Hip Hsrc Hdst Hudp Hsp Hdp Htab Hjit Hfl.
  unfold _analyze_udp_layer, except_AttributeError, try_except, bind.
  rewrite Hip. simpl. rewrite Hsrc, Hdst, Hudp. simpl. rewrite Hsp, Hdp. simpl.
  unfold getitem. rewrite Htab. simpl.
  destruct (od_get _ table) as [prior|] eqn:Hget.
  - rewrite bool_decide_true by eauto. rewrite Hjit. simpl.
    destruct (floats_get _ _ _ Hfl Hget) as [t0 ->]. simpl.
    eexists. split; [reflexivity|]. split; [apply lookup_insert_eq|]. split.
    + rewrite lookup_insert_ne by discriminate. apply lookup_insert_eq.
    + intros name Hout. apply not_elem_of_cons in Hout as [Hn1 Hout].
      apply not_elem_of_cons in Hout as [Hn2 _].
      rewrite !lookup_insert_ne by done. done.
  - rewrite bool_decide_false by (intros [? ?]; done). simpl.
    eexists. split; [reflexivity|]. split; [apply lookup_insert_eq|]. split.
    + rewrite lookup_insert_ne by discriminate. done.
    + intros name Hout. apply not_elem_of_cons in Hout as [Hn1 _].
      rewrite lookup_insert_ne by done. done.
Qed.

(** C7, as amended.  For a UDP record with an IP layer and flow key
    (src, dst, srcport, dstport): when the key has a stored time [prior],
    the binary64 difference [t - prior] is appended to [udp_jitter]; in all
    cases the stored time of the key becomes [t].  Three datagrams of one
    flow at 0, 1.0 and 1.3 give [udp_jitter == [1.0, 1.3 - 1.0]], whose
    second sample is the double 0.30000000000000004 (one unit in the last
    place above the double 0.3). *)
Theorem udp_jitter_rule :
  (forall s p t l u src dst sport dport dflt table samples,
     pkt.ip p = Some l -> ip.src l = Some src -> ip.dst l = Some dst ->
     pkt.udp p = Some u -> udp.srcport u = Some sport -> udp.dstport u = Some dport ->
     s !! "prev_udp_time" = Some (VDict dflt table) ->
     s !! "udp_jitter" = Some (VList samples) ->
     forallb is_float (od_values table) = true ->
     let flow := KTuple [src; dst; sport; dport] in
     exists s' table',
       _analyze_udp_layer p t s = (Ret tt, s') /\
       s' !! "prev_udp_time" = Some (VDict dflt table') /\
       od_get flow table' = Some (NFloat t) /\
       (forall other, other <> flow -> od_get other table' = od_get other table) /\
       s' !! "udp_jitter" =
         Some (VList match od_get flow table with
                     | Some (NFloat prior) => samples ++ [ENum (NFloat (fsub t prior))]
                     | _ => samples
                     end)) /\
  (let r := process [datagram (f64 0); datagram (f64 1.0); datagram (f64 1.3)]
                    (initialize_stats fzero) in
   fst r = Ret tt /\
   snd r !! "udp_jitter" =
     Some (VList [ENum (NFloat (f64 1.0)); ENum (NFloat (fsub (f64 1.3) (f64 1.0)))]) /\
   fsub (f64 1.3) (f64 1.0) = f64 0.30000000000000004).
Proof.
  split.
  - intros s p t l u src dst sport dport dflt table samples
      Hip Hsrc Hdst Hudp Hsp Hdp Htab Hjit Hfl flow.
    destruct (analyze_udp_layer_effect s p t l u src dst sport dport dflt table
                samples Hip Hsrc Hdst Hudp Hsp Hdp Htab Hjit Hfl)
      as (s' & Hrun & Htab' & Hjit' & _).
    exists s', (od_set flow (NFloat t) table).
    split; [done|]. split; [done|]. split; [apply od_get_set_eq|].
    split; [|done]. intros other Hne. by apply od_get_set_ne.
  - vm_compute. repeat split; reflexivity.
Qed.

Lemma udp_jitter_rule_witness :
  (pkt.ip (datagram (f64 1.0)) = Some addresses /\
   pkt.udp (datagram (f64 1.0)) = Some ports /\
   forallb is_float (od_values ([] : odict num)) = true) /\
  exists s' table',
    _analyze_udp_layer (datagram (f64 1.0)) (f64 1.0) (initialize_stats fzero) = (Ret tt, s') /\
    s' !! "prev_udp_time" = Some (VDict false table') /\
    od_get (KTuple ["10.0.0.1"; "10.0.0.2"; "5000"; "53"]) table' = Some (NFloat (f64 1.0)).
Proof.
  split; [repeat split; reflexivity|].
  destruct (proj1 udp_jitter_rule (initialize_stats fzero) (datagram (f64 1.0)) (f64 1.0)
              addresses ports "10.0.0.1" "10.0.0.2" "5000" "53" false [] []
              eq_refl eq_refl eq_refl eq_refl eq_refl eq_refl eq_refl eq_refl eq_refl)
    as (s' & table' & Hrun & Htab & Hget & _).
  exists s', table'. by repeat split.
Defined.

(** C7, as stated, fails on its example: the three datagrams do not give
    [udp_jitter == [1.0, 0.3]], because [1.3 - 1.0] is not the double 0.3. *)
Lemma udp_jitter_example_counterexample :
  snd (process [datagram (f64 0); datagram (f64 1.0); datagram (f64 1.3)]
               (initialize_stats fzero)) !! "udp_jitter"
  <> Some (VList [ENum (NFloat (f64 1.0)); ENum (NFloat (f64 0.3))]).
Proof. vm_compute. discriminate. Qed.

(** ** DNS round trips *)

Lemma wp_total {S A} (m : M S A) (Q : A -> S -> Prop) s :
  wp m Q (fun _ _ => False) s -> exists a s', m s = (Ret a, s') /\ Q a s'.
Proof. unfold wp. destruct (m s) as [[a|e] s']; [eauto | done]. Qed.

Lemma wp_getitem name v (Q : pyval -> stats -> Prop) (E : exn -> stats -> Prop) (s : stats) :
  s !! name = Some v -> Q v s -> wp (getitem name) Q E s.
Proof. intros Hs HQ. unfold wp, getitem. by rewrite Hs. Qed.

Lemma wp_setitem name v (Q : unit -> stats -> Prop) (E : exn -> stats -> Prop) (s : stats) :
  Q tt (<[name := v]> s) -> wp (setitem name v) Q E s.
Proof. done. Qed.

Lemma wp_lift {S A} (o : outcome A) (Q : A -> S -> Prop) (E : exn -> S -> Prop) s :
  match o with Ret a => Q a s | Raise e => E e s end -> wp (lift o) Q E s.
Proof. by destruct o. Qed.

Lemma wp_attr {S A} (o : option A) a (Q : A -> S -> Prop) (E : exn -> S -> Prop) s :
  o = Some a -> Q a s -> wp (attr o) Q E s.
Proof. by intros ->. Qed.

Lemma wp_except_AttributeError (m : M stats unit) (Q : unit -> stats -> Prop)
    (E : exn -> stats -> Prop) s :
  wp m Q (fun e s' => if is_AttributeError e then Q tt s' else E e s') s ->
  wp (except_AttributeError m) Q E s.
Proof.
  intros H. apply wp_try. eapply wp_mono; [| | exact H]; simpl; [done|].
  intros e s'. by destruct (is_AttributeError e).
Qed.

Lemma triple_dns_names K X (l : dns.layer) :
  "dns_queries" ∈ K -> "dns_record_types" ∈ K ->
  (is_Some (dns.qry_name l) -> is_Some (dns.qry_type l)) ->
  triple K X
    (if hasattr (dns.qry_name l) then
       name <- attr (dns.qry_name l) ;;
       tally "dns_queries" (KStr name) ;;
       type <- attr (dns.qry_type l) ;;
       tally "dns_record_types" (KStr type)
     else ret tt).
Proof.
  intros H1 H2 Hq.
  destruct (dns.qry_name l) as [name|]; simpl; [|apply triple_ret].
  destruct (Hq ltac:(eauto)) as [type ->]. simpl.
  apply triple_bind; [apply triple_ret | intros ?].
  apply triple_bind; [by apply triple_tally | intros _].
  apply triple_bind; [apply triple_ret | intros ?]. by apply triple_tally.
Qed.

(** A query stores its time under its transaction id. *)
Lemma analyze_dns_query s p t l qid dflt pending :
  well_formed s ->
  pkt.dns p = Some l ->
  dns.flags_response l = Some "0" -> dns.id l = Some qid ->
  (is_Some (dns.qry_name l) -> is_Some (dns.qry_type l)) ->
  s !! "pending_dns_queries" = Some (VDict dflt pending) ->
  wp (_analyze_dns_layer p t)
     (fun _ s' =>
        s' !! "pending_dns_queries" =
          Some (VDict dflt (od_set (KStr qid) (NFloat t) pending)) /\
        s' !! "dns_response_times" = s !! "dns_response_times")
     (fun _ _ => False) s.
Proof.
  intros Hwf Hdns Hresp Hid Hq Hpend.
  unfold _analyze_dns_layer. apply wp_except_AttributeError.
  apply wp_bind. eapply wp_attr; [exact Hdns|].
  apply wp_bind. eapply wp_attr; [exact Hresp|].
  apply wp_bind.
  eapply (triple_wp dns_tally_keys no_exn _ _ _ s s);
    [triple_auto | by apply inv_refl | | intros; discriminate].
  intros _ s1 Hinv1. apply wp_bind.
  eapply (triple_wp dns_tally_keys no_exn _ _ _ s s1);
    [apply triple_dns_names; [in_keys | in_keys | done] | exact Hinv1
    | | intros; discriminate].
  intros _ s2 [Hwf2 Hun2].
  apply wp_bind. eapply wp_attr; [exact Hresp|].
  change (String.eqb "0" "0") with true. cbv iota.
  apply wp_bind. eapply wp_attr; [exact Hid|].
  apply wp_bind. eapply wp_getitem.
  { rewrite (Hun2 "pending_dns_queries") by not_in_keys. exact Hpend. }
  apply wp_bind. apply wp_lift. simpl. apply wp_setitem.
  split; [apply lookup_insert_eq|].
  rewrite lookup_insert_ne by discriminate. apply Hun2. not_in_keys.
Qed.

(** A response whose id is pending records the round trip and clears the
    entry. *)
Lemma analyze_dns_response s p t l qid dflt pending asked times :
  well_formed s ->
  pkt.dns p = Some l ->
  dns.flags_response l = Some "1" -> dns.id l = Some qid ->
  (is_Some (dns.qry_name l) -> is_Some (dns.qry_type l)) ->
  s !! "pending_dns_queries" = Some (VDict dflt pending) ->
  od_get (KStr qid) pending = Some (NFloat asked) ->
  s !! "dns_response_times" = Some (VList times) ->
  wp (_analyze_dns_layer p t)
     (fun _ s' =>
        s' !! "dns_response_times" =
          Some (VList (times ++ [ENum (NFloat (fsub t asked))])) /\
        s' !! "pending_dns_queries" = Some (VDict dflt (od_del (KStr qid) pending)))
     (fun _ _ => False) s.
Proof.
  intros Hwf Hdns Hresp Hid Hq Hpend Hget Htimes.
  unfold _analyze_dns_layer. apply wp_except_AttributeError.
  apply wp_bind. eapply wp_attr; [exact Hdns|].
  apply wp_bind. eapply wp_attr; [exact Hresp|].
  apply wp_bind.
  eapply (triple_wp dns_tally_keys no_exn _ _ _ s s);
    [triple_auto | by apply inv_refl | | intros; discriminate].
  intros _ s1 Hinv1. apply wp_bind.
  eapply (triple_wp dns_tally_keys no_exn _ _ _ s s1);
    [apply triple_dns_names; [in_keys | in_keys | done] | exact Hinv1
    | | intros; discriminate].
  intros _ s2 [Hwf2 Hun2].
  apply wp_bind. eapply wp_attr; [exact Hresp|].
  change (String.eqb "1" "0") with false. change (String.eqb "1" "1") with true.
  cbv iota.
  apply wp_bind. eapply wp_attr; [exact Hid|].
  apply wp_bind. eapply wp_getitem.
  { rewrite (Hun2 "pending_dns_queries") by not_in_keys. exact Hpend. }
  apply wp_bind. apply wp_lift. simpl. rewrite Hget.
  rewrite bool_decide_true by eauto.
  apply wp_bind. apply wp_lift. simpl.
  apply wp_bind. apply wp_setitem.
  apply wp_bind. apply wp_lift. simpl.
  unfold append. apply wp_bind. eapply wp_getitem.
  { rewrite lookup_insert_ne by discriminate.
    rewrite (Hun2 "dns_response_times") by not_in_keys. exact Htimes. }
  apply wp_bind. apply wp_lift. simpl. apply wp_setitem.
  split; [apply lookup_insert_eq|].
  rewrite lookup_insert_ne by discriminate. apply lookup_insert_eq.
Qed.

(** A record whose question has a name and no type is dropped at the
    tally of the type: the timing is not reached. *)
Lemma analyze_dns_untyped s p t l response name :
  well_formed s ->
  pkt.dns p = Some l ->
  dns.flags_response l = Some response ->
  dns.qry_name l = Some name -> dns.qry_type l = None ->
  wp (_analyze_dns_layer p t)
     (fun _ s' =>
        s' !! "pending_dns_queries" = s !! "pending_dns_queries" /\
        s' !! "dns_response_times" = s !! "dns_response_times")
     (fun _ _ => False) s.
Proof.
  intros Hwf Hdns Hresp Hname Htype.
  unfold _analyze_dns_layer. apply wp_except_AttributeError.
  apply wp_bind. eapply wp_attr; [exact Hdns|].
  apply wp_bind. eapply wp_attr; [exact Hresp|].
  apply wp_bind.
  eapply (triple_wp dns_tally_keys no_exn _ _ _ s s);
    [triple_auto | by apply inv_refl | | intros; discriminate].
  intros _ s1 Hinv1. apply wp_bind.
  rewrite Hname, Htype. cbn [hasattr].
  apply wp_bind. eapply wp_attr; [reflexivity|].
  apply wp_bind.
  eapply (triple_wp dns_tally_keys no_exn _ _ _ s s1);
    [apply triple_tally; [in_keys | reflexivity] | exact Hinv1 | | intros; discriminate].
  intros _ s2 [Hwf2 Hun2].
  apply wp_bind. apply wp_raise. cbn [is_AttributeError].
  split; apply Hun2; not_in_keys.
Qed.

(** C8, as amended.  For a DNS record whose type of question can be read
    whenever its name can: a query overwrites the pending entry of its
    transaction id with its time, whatever was stored there; a response
    whose id is pending appends (its time minus the pending time) to
    [dns_response_times] and removes the entry.  A query with id 42 at
    10.0 followed by a response with id 42 at 10.25 gives
    [dns_response_times == [0.25]], and 42 is no longer pending.  A
    record whose question has a name and no type changes neither the
    pending table nor [dns_response_times]. *)
Theorem dns_round_trip_rule :
  (forall s p t l qid dflt pending,
     well_formed s ->
     pkt.dns p = Some l ->
     dns.flags_response l = Some "0" -> dns.id l = Some qid ->
     (is_Some (dns.qry_name l) -> is_Some (dns.qry_type l)) ->
     s !! "pending_dns_queries" = Some (VDict dflt pending) ->
     exists s' pending',
       _analyze_dns_layer p t s = (Ret tt, s') /\
       s' !! "pending_dns_queries" = Some (VDict dflt pending') /\
       pending' = od_set (KStr qid) (NFloat t) pending /\
       od_get (KStr qid) pending' = Some (NFloat t) /\
       s' !! "dns_response_times" = s !! "dns_response_times") /\
  (forall s p t l qid dflt pending asked times,
     well_formed s ->
     pkt.dns p = Some l ->
     dns.flags_response l = Some "1" -> dns.id l = Some qid ->
     (is_Some (dns.qry_name l) -> is_Some (dns.qry_type l)) ->
     s !! "pending_dns_queries" = Some (VDict dflt pending) ->
     od_get (KStr qid) pending = Some (NFloat asked) ->
     s !! "dns_response_times" = Some (VList times) ->
     exists s' pending',
       _analyze_dns_layer p t s = (Ret tt, s') /\
       s' !! "dns_response_times" =
         Some (VList (times ++ [ENum (NFloat (fsub t asked))])) /\
       s' !! "pending_dns_queries" = Some (VDict dflt pending') /\
       pending' = od_del (KStr qid) pending /\
       od_get (KStr qid) pending' = None) /\
  (let r := process [dns_message "0" (f64 10.0); dns_message "1" (f64 10.25)]
                    (initialize_stats fzero) in
   fst r = Ret tt /\
   snd r !! "dns_response_times" = Some (VList [ENum (NFloat (f64 0.25))]) /\
   exists dflt pending,
     snd r !! "pending_dns_queries" = Some (VDict dflt pending) /\
     od_get (KStr "42") pending = None) /\
  (forall s p t l response name,
     well_formed s ->
     pkt.dns p = Some l ->
     dns.flags_response l = Some response ->
     dns.qry_name l = Some name -> dns.qry_type l = None ->
     exists s',
       _analyze_dns_layer p t s = (Ret tt, s') /\
       s' !! "pending_dns_queries" = s !! "pending_dns_queries" /\
       s' !! "dns_response_times" = s !! "dns_response_times").
Proof.
  split; [|split; [|split]].
  - intros s p t l qid dflt pending Hwf Hdns Hresp Hid Hq Hpend.
    destruct (wp_total _ _ _
                (analyze_dns_query s p t l qid dflt pending Hwf Hdns Hresp Hid Hq Hpend))
      as ([] & s' & Hrun & Hp & Ht).
    exists s', (od_set (KStr qid) (NFloat t) pending).
    repeat split; try done. apply od_get_set_eq.
  - intros s p t l qid dflt pending asked times Hwf Hdns Hresp Hid Hq Hpend Hget Htimes.
    destruct (wp_total _ _ _
                (analyze_dns_response s p t l qid dflt pending asked times
                   Hwf Hdns Hresp Hid Hq Hpend Hget Htimes))
      as ([] & s' & Hrun & Ht & Hp).
    exists s', (od_del (KStr qid) pending).
    repeat split; try done. apply od_get_del_eq.
  - vm_compute. split; [reflexivity|]. split; [reflexivity|].
    eexists _, _. split; reflexivity.
  - intros s p t l response name Hwf Hdns Hresp Hname Htype.
    destruct (wp_total _ _ _
                (analyze_dns_untyped s p t l response name Hwf Hdns Hresp Hname Htype))
      as ([] & s' & Hrun & Hp & Ht).
    by exists s'.
Qed.

Lemma dns_round_trip_rule_witness :
  let s0 := initialize_stats fzero in
  let s1 := snd (update_stats (dns_message "0" (f64 10.0)) s0) in
  (well_formed s0 /\ well_formed s1) /\
  (exists s' pending',
     _analyze_dns_layer (dns_message "0" (f64 10.0)) (f64 10.0) s0 = (Ret tt, s') /\
     s' !! "pending_dns_queries" = Some (VDict false pending') /\
     od_get (KStr "42") pending' = Some (NFloat (f64 10.0))) /\
  (exists s' pending',
     _analyze_dns_layer (dns_message "1" (f64 10.25)) (f64 10.25) s1 = (Ret tt, s') /\
     s' !! "dns_response_times" =
       Some (VList ([] ++ [ENum (NFloat (fsub (f64 10.25) (f64 10.0)))])) /\
     s' !! "pending_dns_queries" = Some (VDict false pending') /\
     od_get (KStr "42") pending' = None).
Proof.
  intros s0 s1.
  assert (Hwf0 : well_formed s0) by apply well_formed_initialize_stats.
  assert (Hwf1 : well_formed s1).
  { destruct (update_stats_total s0 (dns_message "0" (f64 10.0)) Hwf0) as (s' & Hs' & Hwf').
    unfold s1. by rewrite Hs'. }
  split; [done|]. split.
  - destruct (proj1 dns_round_trip_rule s0 (dns_message "0" (f64 10.0)) (f64 10.0)
                _ "42" false [] Hwf0 eq_refl eq_refl eq_refl) as
      (s' & pending' & Hrun & Hp & _ & Hget & _).
    + intros _. by eexists.
    + vm_compute. reflexivity.
    + exists s', pending'. exact (conj Hrun (conj Hp Hget)).
  - destruct (proj1 (proj2 dns_round_trip_rule) s1 (dns_message "1" (f64 10.25)) (f64 10.25)
                _ "42" false [(KStr "42", NFloat (f64 10.0))] (f64 10.0) []
                Hwf1 eq_refl eq_refl eq_refl) as
      (s' & pending' & Hrun & Ht & Hp & _ & Hget).
    + intros _. by eexists.
    + vm_compute. reflexivity.
    + reflexivity.
    + vm_compute. reflexivity.
    + exists s', pending'. exact (conj Hrun (conj Ht (conj Hp Hget))).
Defined.

(** C8, as stated, fails for a record whose question was decoded with its
    name and without its type: the tally of the type raises
    [AttributeError] before the timing is reached, and the helper absorbs
    it.  Such a query is not made pending, so the response that follows it
    records no round trip; and such a response neither records the round
    trip of the query it answers nor removes its pending entry.  Neither
    record is counted as malformed. *)
Lemma dns_round_trip_rule_counterexample :
  (let q := untyped_message "0" (f64 10.0) in
   (exists l, pkt.dns q = Some l /\ dns.flags_response l = Some "0" /\
              dns.id l = Some "42") /\
   let r := process [q; dns_message "1" (f64 10.25)] (initialize_stats fzero) in
   fst (_analyze_dns_layer q (f64 10.0) (initialize_stats fzero)) = Ret tt /\
   snd (_analyze_dns_layer q (f64 10.0) (initialize_stats fzero)) !! "pending_dns_queries"
     = Some (VDict false []) /\
   fst r = Ret tt /\
   snd r !! "malformed_packets" = Some (VNum (NInt 0)) /\
   snd r !! "dns_response_times" = Some (VList [])) /\
  (let a := untyped_message "1" (f64 10.25) in
   (exists l, pkt.dns a = Some l /\ dns.flags_response l = Some "1" /\
              dns.id l = Some "42") /\
   let r := process [dns_message "0" (f64 10.0); a] (initialize_stats fzero) in
   fst r = Ret tt /\
   snd r !! "malformed_packets" = Some (VNum (NInt 0)) /\
   snd r !! "dns_response_times" = Some (VList []) /\
   snd r !! "pending_dns_queries" = Some (VDict false [(KStr "42", NFloat (f64 10.0))])).
Proof.
  split.
  - split; [eexists; repeat split; reflexivity|].
    vm_compute. repeat split; reflexivity.
  - split; [eexists; repeat split; reflexivity|].
    vm_compute. repeat split; reflexivity.
Qed.

(** ** Finalization *)

Lemma wp_haskey name (Q : bool -> stats -> Prop) (E : exn -> stats -> Prop) (s : stats) :
  Q (bool_decide (is_Some (s !! name))) s -> wp (haskey name) Q E s.
Proof. done. Qed.

Lemma wp_delitem name (Q : unit -> stats -> Prop) (E : exn -> stats -> Prop) (s : stats) :
  is_Some (s !! name) -> Q tt (delete name s) -> wp (delitem name) Q E s.
Proof. intros [v Hv] HQ. unfold wp, delitem. by rewrite Hv. Qed.

Lemma wp_snd {S A} (m : M S A) (Q : A -> S -> Prop) (E : exn -> S -> Prop)
    (P : S -> Prop) s :
  wp m Q E s -> (forall a s', Q a s' -> P s') -> (forall e s', E e s' -> P s') ->
  P (snd (m s)).
Proof. unfold wp. intros H HQ HE. destruct (m s) as [[a|e] s']; simpl; eauto. Qed.

(** What stays true of the two tables while [_cleanup_stats] runs. *)
Lemma wp_cleanup_tables (s : stats) :
  wp _cleanup_stats
     (fun _ s' => s' !! "prev_udp_time" = None /\
                  s' !! "pending_dns_queries" = s !! "pending_dns_queries")
     (fun _ s' => s' !! "prev_udp_time" = None /\
                  s' !! "pending_dns_queries" = s !! "pending_dns_queries") s.
Proof.
  unfold _cleanup_stats.
  apply wp_bind, wp_haskey. apply wp_bind.
  assert (Hstep : wp (if bool_decide (is_Some (s !! "prev_udp_time"))
                      then delitem "prev_udp_time" else ret tt)
                     (fun _ s' => s' !! "prev_udp_time" = None /\
                        s' !! "pending_dns_queries" = s !! "pending_dns_queries")
                     (fun _ _ => False) s).
  { case_bool_decide as Hd.
    - apply wp_delitem; [done|]. split; [apply lookup_delete_eq|].
      by rewrite lookup_delete_ne.
    - apply wp_ret. split; [by apply eq_None_not_Some | done]. }
  eapply wp_mono; [| | exact Hstep]; simpl; [|done].
  intros _ s1 [H1 H2]. clear Hstep.
  apply wp_bind, wp_haskey. case_bool_decide as Hc; [|apply wp_ret; cbv beta; by split].
  destruct Hc as [c Hc]. apply wp_bind. eapply wp_getitem; [exact Hc|].
  apply wp_bind, wp_lift. destruct c as [n|l|b d]; simpl; try (cbv beta; by split).
  apply wp_setitem. split; by rewrite lookup_insert_ne.
Qed.

(** C9, as amended.  After [_cleanup_stats], whether it returns or raises,
    the UDP table [prev_udp_time] is absent from the statistics, and the
    pending DNS table [pending_dns_queries] is exactly what it was. *)
Theorem cleanup_stats_tables (s : stats) :
  snd (_cleanup_stats s) !! "prev_udp_time" = None /\
  snd (_cleanup_stats s) !! "pending_dns_queries" = s !! "pending_dns_queries".
Proof.
  apply (wp_snd _cleanup_stats _ _
           (fun s' : stats => s' !! "prev_udp_time" = None /\
              s' !! "pending_dns_queries" = s !! "pending_dns_queries") s
           (wp_cleanup_tables s)); intros ? ? H; exact H.
Qed.

(** C9, as stated, fails: statistics fresh from [initialize_stats] still
    hold [pending_dns_queries] after [_cleanup_stats]. *)
Lemma cleanup_stats_tables_counterexample :
  fst (_cleanup_stats (initialize_stats fzero)) = Ret tt /\
  snd (_cleanup_stats (initialize_stats fzero)) !! "pending_dns_queries"
    = Some (VDict false []).
Proof. vm_compute. split; reflexivity. Qed.

(** ** Conversation keys after finalization *)


Lemma cleanup_step_set acc (k : key) (n : num) :
  cleanup_step acc (k, n) = od_set (cleaned_key k) n acc.
Proof. by destruct k. Qed.

(** Keys whose cleaned forms are pairwise distinct each get an item of
    their own, in the order of the dictionary. *)
Lemma cleanup_fold (d acc : odict num) :
  NoDup (od_keys d) ->
  (forall k1 k2, k1 ∈ od_keys d -> k2 ∈ od_keys d ->
                 cleaned_key k1 = cleaned_key k2 -> k1 = k2) ->
  (forall k, k ∈ od_keys d -> od_get (cleaned_key k) acc = None) ->
  fold_left cleanup_step d acc =
    (acc ++ map (fun kv => (cleaned_key (fst kv), snd kv)) d)%list.
Proof.
  revert acc. induction d as [|[k0 n0] d IH]; intros acc Hnd Hinj Hfresh; simpl.
  - by rewrite app_nil_r.
  - apply NoDup_cons in Hnd as [Hk0 Hnd].
    rewrite cleanup_step_set.
    rewrite od_set_fresh by (apply Hfresh; simpl; apply list_elem_of_here).
    rewrite IH; [by rewrite <- app_assoc | done | |].
    + intros k1 k2 H1 H2. apply Hinj; simpl; by apply list_elem_of_further.
    + intros k Hk. rewrite od_get_app.
      rewrite Hfresh by (simpl; by apply list_elem_of_further). simpl.
      rewrite decide_False; [done|]. intros Heq.
      apply Hinj in Heq; simpl;
        [| by apply list_elem_of_further | apply list_elem_of_here].
      by subst.
Qed.








(** The condition on the addresses is needed: of two pairs whose joined
    forms are the same text, only the count of the later one is found
    after [_cleanup_stats]. *)
Lemma cleanup_stats_clashing_keys :
  ~ (forall (s : stats) dflt (d : odict num),
       s !! "conversations" = Some (VDict dflt d) -> NoDup (od_keys d) ->
       forall src dst n, od_get (KTuple [src; dst]) d = Some n ->
         exists dflt' d',
           snd (_cleanup_stats s) !! "conversations" = Some (VDict dflt' d') /\
           od_get (KStr (src ++ "_" ++ dst)) d' = Some n).
Proof.
  intros H.
  destruct (H {[ "conversations" := VDict true clashing_conversations ]}
              true clashing_conversations (lookup_singleton_eq _ _)) with
    (src := "a_b") (dst := "c") (n := NInt 1) as (dflt' & d' & Hc & Hget).
  - apply NoDup_cons. split; [|apply NoDup_singleton].
    intros Hin%list_elem_of_singleton. discriminate Hin.
  - reflexivity.
  - assert (Hv : snd (_cleanup_stats {[ "conversations" := VDict true clashing_conversations ]})
                   !! "conversations" = Some (VDict false [(KStr "a_b_c", NInt 2)]))
      by (vm_compute; reflexivity).
    rewrite Hv in Hc. injection Hc as <- <-.
    vm_compute in Hget. discriminate Hget.
Qed.

(** ** Converting a counter to binary64 *)

Lemma digits2_pos_bound p : 2 ^ (Z.pos (digits2_pos p) - 1) <= Z.pos p.
Proof.
  induction p as [p IH|p IH|]; simpl digits2_pos.
  - rewrite Pos2Z.inj_succ.
    replace (Z.succ (Z.pos (digits2_pos p)) - 1)
      with (Z.succ (Z.pos (digits2_pos p) - 1)) by lia.
    rewrite Z.pow_succ_r by lia. lia.
  - rewrite Pos2Z.inj_succ.
    replace (Z.succ (Z.pos (digits2_pos p)) - 1)
      with (Z.succ (Z.pos (digits2_pos p) - 1)) by lia.
    rewrite Z.pow_succ_r by lia. lia.
  - done.
Qed.

Lemma shr_1_m mrs : 0 <= shr_m mrs -> shr_m (shr_1 mrs) = shr_m mrs / 2.
Proof.
  destruct mrs as [m r s]. simpl.
  destruct m as [|[p|p|]|p]; simpl; intros H; try lia; try done.
  - apply Z.div_unique with (r := 1); lia.
  - apply Z.div_unique with (r := 0); lia.
Qed.

Lemma iter_shr_1_m p mrs :
  0 <= shr_m mrs -> shr_m (SpecFloat.iter_pos shr_1 p mrs) = shr_m mrs / 2 ^ Z.pos p.
Proof.
  revert mrs. induction p as [p IH|p IH|]; intros mrs H; simpl SpecFloat.iter_pos.
  - assert (Hpow : 0 < 2 ^ Z.pos p) by (apply Z.pow_pos_nonneg; lia).
    assert (H1 : 0 <= shr_m (shr_1 mrs)) by (rewrite shr_1_m by done; apply Z.div_pos; lia).
    assert (H2 : 0 <= shr_m (SpecFloat.iter_pos shr_1 p (shr_1 mrs)))
      by (rewrite IH by done; apply Z.div_pos; lia).
    rewrite IH by done. rewrite IH by done. rewrite shr_1_m by done.
    rewrite !Z.div_div by lia.
    f_equal.
    replace (Z.pos p~1) with (1 + Z.pos p + Z.pos p) by lia.
    rewrite !Z.pow_add_r by lia. change (2 ^ 1) with 2. lia.
  - assert (Hpow : 0 < 2 ^ Z.pos p) by (apply Z.pow_pos_nonneg; lia).
    assert (H2 : 0 <= shr_m (SpecFloat.iter_pos shr_1 p mrs))
      by (rewrite IH by done; apply Z.div_pos; lia).
    rewrite IH by done. rewrite IH by done.
    rewrite Z.div_div by lia.
    f_equal.
    replace (Z.pos p~0) with (Z.pos p + Z.pos p) by lia.
    by rewrite Z.pow_add_r by lia.
  - rewrite shr_1_m by done. done.
Qed.

Lemma shr_record_of_loc_m m l : shr_m (shr_record_of_loc m l) = m.
Proof. by destruct l as [|[]]. Qed.

(** Shifting a positive mantissa into the format leaves it positive, as
    long as the number is above the subnormal range. *)
Lemma shr_fexp_pos m e l :
  0 < m -> - 1074 < e + Zdigits2 m ->
  0 < shr_m (fst (shr_fexp prec emax m e l)) /\ e <= snd (shr_fexp prec emax m e l).
Proof.
  intros Hm He. unfold shr_fexp, shr.
  destruct m as [|p|p]; try lia. simpl Zdigits2 in *.
  pose proof (digits2_pos_bound p) as Hd.
  destruct (fexp prec emax (Z.pos (digits2_pos p) + e) - e) as [|n|n] eqn:Hn; simpl.
  - rewrite shr_record_of_loc_m. lia.
  - rewrite iter_shr_1_m by (rewrite shr_record_of_loc_m; lia).
    rewrite shr_record_of_loc_m. split; [|lia].
    apply Z.div_str_pos. split; [apply Z.pow_pos_nonneg; lia|].
    etransitivity; [|exact Hd]. apply Z.pow_le_mono_r; [lia|].
    unfold fexp, SpecFloat.emin, prec, emax in Hn. lia.
  - rewrite shr_record_of_loc_m. lia.
Qed.

Lemma round_nearest_even_ge m l : m <= round_nearest_even m l.
Proof. destruct l as [|[]]; simpl; try lia. destruct (Z.even m); lia. Qed.

Lemma Zdigits2_pos m : 0 < m -> 0 < Zdigits2 m.
Proof. destruct m; simpl; lia. Qed.

Lemma binary_round_aux_nonzero sx m e l s :
  0 < m -> - 52 <= e ->
  binary_round_aux prec emax sx m e l <> S754_zero s.
Proof.
  intros Hm He. unfold binary_round_aux.
  pose proof (shr_fexp_pos m e l Hm) as H1.
  destruct (shr_fexp prec emax m e l) as [mrs' e'] eqn:E1. simpl in H1.
  destruct H1 as [Hm1 He1]; [pose proof (Zdigits2_pos m Hm); lia|].
  set (m2 := round_nearest_even (shr_m mrs') (loc_of_shr_record mrs')).
  assert (Hm2 : 0 < m2)
    by (pose proof (round_nearest_even_ge (shr_m mrs') (loc_of_shr_record mrs')); unfold m2; lia).
  pose proof (shr_fexp_pos m2 e' loc_Exact Hm2) as H2.
  destruct (shr_fexp prec emax m2 e' loc_Exact) as [mrs'' e''] eqn:E2. simpl in H2.
  destruct H2 as [Hm3 _]; [pose proof (Zdigits2_pos m2 Hm2); lia|].
  destruct (shr_m mrs'') as [|q|q]; try lia.
  by destruct (e'' <=? emax - prec).
Qed.

Lemma binary_round_nonzero sx p s :
  binary_round prec emax sx p 0 <> S754_zero s.
Proof.
  unfold binary_round, shl_align.
  assert (Hf : - 52 <= fexp prec emax (Z.pos (digits2_pos p) + 0)).
  { unfold fexp, SpecFloat.emin, prec, emax. lia. }
  destruct (fexp prec emax (Z.pos (digits2_pos p) + 0) - 0) as [|d|d] eqn:Hd.
  - apply binary_round_aux_nonzero; lia.
  - apply binary_round_aux_nonzero; lia.
  - apply binary_round_aux_nonzero; lia.
Qed.

(** [float(z)] is not zero unless [z] is. *)
Lemma to_float_nonzero z : z <> 0 -> feqb (to_float z) fzero = false.
Proof.
  intros Hz. unfold to_float, binary_normalize.
  destruct z as [|p|p]; [done| |].
  - pose proof (binary_round_nonzero false p) as H.
    destruct (binary_round prec emax false p 0) as [s| | |s m e]; try done.
    + by destruct (H s).
    + by destruct s.
    + by destruct s.
  - pose proof (binary_round_nonzero true p) as H.
    destruct (binary_round prec emax true p 0) as [s| | |s m e]; try done.
    + by destruct (H s).
    + by destruct s.
    + by destruct s.
Qed.

Lemma float_of_int_in_range z : in_float_range z -> float_of_int z = Ret (to_float z).
Proof.
  unfold in_float_range, float_of_int, to_float. intros H.
  destruct (binary_normalize prec emax z 0 false) as [s|s| |s m e]; try done.
  by destruct (H s).
Qed.

(** ** The baseline metrics *)

Lemma safe_divide_ints a b :
  in_float_range a -> in_float_range b ->
  safe_divide (VNum (NInt a)) (VNum (NInt b)) =
    Ret (match Spec.ratio a b with NFloat r => r | NInt _ => fzero end).
Proof.
  intros Ha Hb. unfold safe_divide, Spec.ratio. simpl.
  destruct (b =? 0) eqn:E; [done|]. apply Z.eqb_neq in E.
  rewrite (float_of_int_in_range a Ha), (float_of_int_in_range b Hb). simpl.
  unfold float_div. by rewrite (to_float_nonzero b E).
Qed.

Lemma ratio_is_float a b : exists r, Spec.ratio a b = NFloat r.
Proof. unfold Spec.ratio. destruct (b =? 0); eauto. Qed.

Lemma sum_elems_floats acc (l : list float64) :
  sum_elems (NFloat acc) (map (fun t => ENum (NFloat t)) l) =
    Ret (NFloat (fold_left fadd l acc)).
Proof.
  revert acc. induction l as [|x l IH]; intros acc; simpl; [done|]. apply IH.
Qed.

(** [sum] of a non-empty list of floats is their sum from the left,
    started at 0.0. *)
Lemma py_sum_floats x (l : list float64) :
  py_sum (VList (map (fun t => ENum (NFloat t)) (x :: l))) =
    Ret (NFloat (Spec.float_sum (x :: l))).
Proof.
  unfold py_sum, Spec.float_sum. simpl.
  change (float_of_int 0) with (Ret fzero). simpl. apply sum_elems_floats.
Qed.

Lemma sum_from_ints acc (l : list Z) :
  sum_from (NInt acc) (map NInt l) = Ret (NInt (fold_left Z.add l acc)).
Proof.
  revert acc. induction l as [|x l IH]; intros acc; simpl; [done|]. apply IH.
Qed.

Lemma od_values_ints (d : list (key * Z)) :
  od_values (map (fun kv => (fst kv, NInt (snd kv))) d) = map NInt (map snd d).
Proof.
  unfold od_values. induction d as [|[k z] d IH]; simpl; [done|]. by rewrite IH.
Qed.

(** The average the code computes is the mean of the specification. *)
Lemma average_of_mean (stats : gmap string pyval) name (l : list float64) :
  stats !! name = Some (VList (map (fun t => ENum (NFloat t)) l)) ->
  in_float_range (Z.of_nat (length l)) ->
  average_of stats name = Ret (Spec.mean l).
Proof.
  intros Hs Hr. unfold average_of, lookup_stat. rewrite Hs. cbn [obind].
  destruct l as [|x l]; [done|].
  change (py_truthy (VList (map (fun t => ENum (NFloat t)) (x :: l)))) with true.
  cbv iota. rewrite py_sum_floats. cbn [obind py_len].
  rewrite length_map.
  unfold safe_divide. cbn [py_is_zero num_is_zero].
  destruct (Z.of_nat (length (x :: l)) =? 0) eqn:E;
    [apply Z.eqb_eq in E; simpl in E; lia|].
  apply Z.eqb_neq in E. cbn [float_of py_float obind].
  rewrite (float_of_int_in_range _ Hr). cbn [obind].
  unfold float_div. rewrite (to_float_nonzero _ E). reflexivity.
Qed.

(** C3.  For a snapshot whose counts are within the range of a double, the
    bucket [update_baseline] derives holds: tcp_retransmission_rate =
    retransmissions / packet_count, and 0 when packet_count is 0;
    tcp_resets = resets; avg_tcp_handshake_delay and avg_udp_jitter = the
    arithmetic mean of the respective samples, and 0 when there is none;
    http_error_rate = the sum of the http_errors values divided by
    packet_count. *)
Theorem baseline_metrics_spec (stats : gmap string pyval) (sn : Spec.snapshot) :
  holds stats sn -> convertible sn ->
  baseline_metrics stats = Ret (bucket_of (Spec.computeMetrics sn)).
Proof.
  intros (Hpc & Hre & Hrs & Hsyn & Hjit & dflt & Hhttp) (Rpc & Rre & Rht & Rsyn & Rjit).
  unfold baseline_metrics.
  unfold lookup_stat at 1. rewrite Hre. simpl obind.
  unfold lookup_stat at 1. rewrite Hpc. simpl obind.
  rewrite (safe_divide_ints _ _ Rre Rpc). simpl obind.
  unfold lookup_stat at 1. rewrite Hrs. simpl obind.
  rewrite (average_of_mean stats "tcp_syn_delays" _ Hsyn Rsyn). simpl obind.
  rewrite (average_of_mean stats "udp_jitter" _ Hjit Rjit). simpl obind.
  unfold lookup_stat at 1. rewrite Hhttp. simpl obind.
  unfold py_sum_values. rewrite od_values_ints, sum_from_ints. simpl obind.
  unfold lookup_stat at 1. rewrite Hpc. simpl obind.
  fold (Spec.int_sum (map snd (Spec.http_errors sn))).
  rewrite (safe_divide_ints _ _ Rht Rpc). simpl obind.
  unfold bucket_of, Spec.computeMetrics. simpl.
  destruct (ratio_is_float (Spec.retransmissions sn) (Spec.packet_count sn)) as [r1 ->].
  destruct (ratio_is_float (Spec.int_sum (map snd (Spec.http_errors sn)))
              (Spec.packet_count sn)) as [r2 ->].
  done.
Qed.

Lemma baseline_metrics_spec_witness :
  (holds sample_stats sample_snapshot /\ convertible sample_snapshot) /\
  baseline_metrics sample_stats = Ret (bucket_of (Spec.computeMetrics sample_snapshot)).
Proof.
  assert (Hh : holds sample_stats sample_snapshot).
  { repeat split; try (vm_compute; reflexivity).
    exists false. vm_compute. reflexivity. }
  assert (Hc : convertible sample_snapshot).
  { repeat split; intros s; vm_compute; discriminate. }
  split; [done|]. exact (baseline_metrics_spec sample_stats sample_snapshot Hh Hc).
Defined.

(** ** The baseline file *)

(** Loading never writes; what it returns is the stored record. *)
Lemma load_baseline_run (self : BaselineManager) (env : faults) (files : fs) :
  exists r, load_baseline self env files = (r, files) /\
    forall loaded, r = Ret loaded ->
      or_default loaded = previous_record files (baseline_path self).
Proof.
  unfold load_baseline, try_except, bind, exists_file, read_json, ret, raise,
    previous_record.
  destruct (files !! baseline_path self) as [c|] eqn:Hc.
  - rewrite bool_decide_true by eauto.
    destruct (read_fails env); simpl.
    + eexists. split; [reflexivity|]. intros loaded [=].
    + rewrite Hc. destruct c as [j|j|g|b|n]; simpl.
      * eexists. split; [reflexivity|]. by intros loaded [= <-].
      * eexists. split; [reflexivity|]. intros loaded [=].
      * eexists. split; [reflexivity|]. intros loaded [=].
      * eexists. split; [reflexivity|]. intros loaded [=].
      * eexists. split; [reflexivity|]. intros loaded [=].
  - rewrite bool_decide_false by (intros [? ?]; done). simpl.
    eexists. split; [reflexivity|]. by intros loaded [= <-].
Qed.

(** A save that returns has put the whole text at the destination. *)
Lemma save_baseline_done (self : BaselineManager) (env : faults)
    (data : list (key * json)) (files files' : fs) :
  save_baseline self env data files = (Ret tt, files') ->
  files' !! baseline_path self = Some (Text (JDict data)).
Proof.
  unfold save_baseline, try_except, bind, mkdir_parent, lift, write_json,
    replace_file, raise.
  set (ok := serializable (JDict data)).
  destruct (mkdir_fails env); simpl; [done|].
  destruct (with_suffix (baseline_path self) ".tmp") as [temp|e]; simpl;
    [|by destruct e].
  destruct (open_fails env); simpl; [done|].
  destruct (write_fails env); simpl; [done|].
  destruct ok; simpl; [|done].
  destruct (replace_fails env); simpl; [done|].
  rewrite lookup_insert_eq. intros [= <-]. apply lookup_insert_eq.
Qed.

(** A save that raises, with a temporary path other than the destination,
    has left the destination as it was. *)
Lemma save_baseline_failed (self : BaselineManager) (env : faults)
    (data : list (key * json)) (files files' : fs) (e : exn) :
  with_suffix (baseline_path self) ".tmp" <> Ret (baseline_path self) ->
  save_baseline self env data files = (Raise e, files') ->
  files' !! baseline_path self = files !! baseline_path self.
Proof.
  intros Hne.
  unfold save_baseline, try_except, bind, mkdir_parent, lift, write_json,
    replace_file, raise.
  set (ok := serializable (JDict data)).
  destruct (mkdir_fails env); simpl; [by intros [= _ <-]|].
  destruct (with_suffix (baseline_path self) ".tmp") as [temp|e0]; simpl;
    [|destruct e0; simpl; by intros [= _ <-]].
  assert (Htemp : temp <> baseline_path self) by congruence.
  destruct (open_fails env); simpl; [by intros [= _ <-]|].
  destruct (write_fails env); simpl;
    [intros [= _ <-]; by rewrite lookup_insert_ne|].
  destruct ok; simpl;
    [|intros [= _ <-]; by rewrite lookup_insert_ne].
  destruct (replace_fails env); simpl;
    [intros [= _ <-]; by rewrite lookup_insert_ne|].
  rewrite lookup_insert_eq. done.
Qed.

(** The two ways the steps of [update_baseline] end: by returning [True]
    with the merged record stored, or by raising, the destination being
    untouched when the temporary path is another path. *)
Lemma update_baseline_steps_run (self : BaselineManager) (weekday : Z) (env : faults)
    (stats : gmap string pyval) (files files' : fs) (r : outcome bool) :
  update_baseline_steps self weekday env stats files = (r, files') ->
  match r with
  | Ret b =>
      b = true /\
      exists old bucket,
        previous_record files (baseline_path self) = JDict old /\
        baseline_metrics stats = Ret bucket /\
        files' !! baseline_path self =
          Some (Text (JDict (od_set (KStr (get_baseline_type weekday)) (JDict bucket) old)))
  | Raise e =>
      with_suffix (baseline_path self) ".tmp" <> Ret (baseline_path self) ->
      files' !! baseline_path self = files !! baseline_path self
  end.
Proof.
  unfold update_baseline_steps, bind, lift, raise, ret.
  destruct (lookup_stat stats "packet_count") as [pc|e]; [|by intros [= <- <-]].
  destruct (py_is_zero pc); [by intros [= <- <-]|].
  destruct (load_baseline_run self env files) as (rl & -> & Hdef).
  destruct rl as [loaded|e]; [|by intros [= <- <-]].
  rewrite (Hdef loaded eq_refl).
  destruct (baseline_metrics stats) as [bucket|e]; [|by intros [= <- <-]].
  destruct (previous_record files (baseline_path self)) as [| | | |l|old]; simpl;
    try (by intros [= <- <-]).
  destruct (save_baseline self env _ files) as [[[]|e] f] eqn:Hsave.
  - intros [= <- <-]. split; [done|]. exists old, bucket.
    split; [done|]. split; [done|]. by eapply save_baseline_done.
  - intros [= <- <-] Hne. by eapply save_baseline_failed.
Qed.

(** [update_baseline] always returns; [False] means its steps raised. *)
Lemma update_baseline_returns (self : BaselineManager) (weekday : Z) (env : faults)
    (stats : gmap string pyval) (files : fs) :
  exists b files',
    update_baseline self weekday env stats files = (Ret b, files') /\
    (b = false <-> exists e, update_baseline_steps self weekday env stats files = (Raise e, files')).
Proof.
  unfold update_baseline, try_except.
  destruct (update_baseline_steps self weekday env stats files) as [[b|e] f] eqn:Hrun.
  - pose proof (update_baseline_steps_run _ _ _ _ _ _ _ Hrun) as [-> _].
    exists true, f. split; [done|]. split; [done | by intros [e [=]]].
  - exists false, f. simpl. split; [done|]. split; [by eauto | done].
Qed.

(** With a temporary path that is not the destination, a failed update
    leaves the stored baseline as it was. *)
Lemma failed_update_keeps_file (self : BaselineManager) (weekday : Z) (env : faults)
    (stats : gmap string pyval) (files files' : fs) :
  with_suffix (baseline_path self) ".tmp" <> Ret (baseline_path self) ->
  update_baseline self weekday env stats files = (Ret false, files') ->
  files' !! baseline_path self = files !! baseline_path self.
Proof.
  intros Hne. unfold update_baseline, try_except.
  destruct (update_baseline_steps self weekday env stats files) as [[b|e] f] eqn:Hrun.
  - pose proof (update_baseline_steps_run _ _ _ _ _ _ _ Hrun) as [-> _]. done.
  - simpl. intros [= <-].
    by apply (update_baseline_steps_run _ _ _ _ _ _ _ Hrun).
Qed.

(** C4, at the failing input.  The baseline file is named [baselines.tmp],
    so the temporary path is the destination itself; the device fills up
    during the write: the update fails and the stored baseline is no
    longer the record it was before the call. *)
Theorem update_baseline_tmp_path_not_atomic :
  let files : fs := {[ baseline_path tmp_manager := Text stored_record ]} in
  let r := update_baseline tmp_manager 0 disk_full sample_stats files in
  with_suffix (baseline_path tmp_manager) ".tmp" = Ret (baseline_path tmp_manager) /\
  fst r = Ret false /\
  files !! baseline_path tmp_manager = Some (Text stored_record) /\
  (exists j, snd r !! baseline_path tmp_manager = Some (Partial j)).
Proof.
  vm_compute. split; [reflexivity|]. split; [reflexivity|]. split; [reflexivity|].
  eexists. reflexivity.
Qed.

(** C5, at the failing input.  With [packet_count == 0] the steps of
    [update_baseline] raise [BaselineError] and write nothing, but
    [update_baseline] catches it and returns [False]: no error reaches the
    caller. *)
Theorem update_baseline_empty_capture (self : BaselineManager) (weekday : Z)
    (env : faults) (stats : gmap string pyval) (files : fs) (packet_count : pyval) :
  stats !! "packet_count" = Some packet_count ->
  py_is_zero packet_count = true ->
  update_baseline_steps self weekday env stats files = (Raise BaselineError, files) /\
  update_baseline self weekday env stats files = (Ret false, files).
Proof.
  intros Hpc Hzero.
  assert (Hsteps : update_baseline_steps self weekday env stats files
                   = (Raise BaselineError, files)).
  { unfold update_baseline_steps, bind, lift, lookup_stat. by rewrite Hpc, Hzero. }
  split; [done|]. unfold update_baseline, try_except. by rewrite Hsteps.
Qed.

Lemma update_baseline_empty_capture_witness :
  (empty_stats !! "packet_count" = Some (VNum (NInt 0)) /\
   py_is_zero (VNum (NInt 0)) = true) /\
  update_baseline default_manager 0 no_faults empty_stats ∅ = (Ret false, ∅).
Proof.
  split; [split; [apply lookup_singleton_eq | reflexivity]|].
  apply (update_baseline_empty_capture default_manager 0 no_faults empty_stats ∅
           (VNum (NInt 0))); [apply lookup_singleton_eq | reflexivity].
Defined.

(** C6, as amended.  A successful update stores the record it started
    from (the stored record, or the two empty buckets when there is no
    file or the stored value is empty) with the bucket of the current day
    type replaced by the fresh metrics: every other key of that record
    keeps its value, and a bucket key is present afterwards when it is the
    current day type or was present in that record. *)
Theorem update_baseline_buckets (self : BaselineManager) (weekday : Z) (env : faults)
    (stats : gmap string pyval) (files files' : fs) :
  update_baseline self weekday env stats files = (Ret true, files') ->
  exists old new bucket,
    previous_record files (baseline_path self) = JDict old /\
    baseline_metrics stats = Ret bucket /\
    files' !! baseline_path self = Some (Text (JDict new)) /\
    od_get (KStr (get_baseline_type weekday)) new = Some (JDict bucket) /\
    (forall k, k <> KStr (get_baseline_type weekday) -> od_get k new = od_get k old) /\
    (forall day, day = get_baseline_type weekday \/ is_Some (od_get (KStr day) old) ->
                 is_Some (od_get (KStr day) new)) /\
    (files !! baseline_path self = None ->
       is_Some (od_get (KStr "workday") new) /\ is_Some (od_get (KStr "weekend") new)).
Proof.
  unfold update_baseline, try_except.
  destruct (update_baseline_steps self weekday env stats files) as [[b|e] f] eqn:Hrun;
    [|simpl; by intros [=]].
  intros [= -> <-].
  destruct (update_baseline_steps_run _ _ _ _ _ _ _ Hrun)
    as (_ & old & bucket & Hold & Hm & Hf).
  set (today := KStr (get_baseline_type weekday)) in *.
  exists old, (od_set today (JDict bucket) old), bucket.
  assert (Hday : forall day, day = get_baseline_type weekday \/ is_Some (od_get (KStr day) old) ->
                   is_Some (od_get (KStr day) (od_set today (JDict bucket) old))).
  { intros day Hd. destruct (decide (KStr day = today)) as [->|Hne].
    - rewrite od_get_set_eq. by eexists.
    - rewrite od_get_set_ne by done. destruct Hd as [->|Hd]; [done | exact Hd]. }
  split; [done|]. split; [done|]. split; [done|].
  split; [apply od_get_set_eq|].
  split; [intros k Hk; by apply od_get_set_ne|].
  split; [exact Hday|].
  intros Hnone. unfold previous_record in Hold. rewrite Hnone in Hold.
  simpl in Hold. injection Hold as <-.
  split; apply Hday; right; by eexists.
Qed.

Lemma update_baseline_buckets_witness :
  let files : fs := {[ baseline_path default_manager := Text stored_record ]} in
  exists files',
    update_baseline default_manager 0 no_faults sample_stats files = (Ret true, files') /\
    exists new,
      files' !! baseline_path default_manager = Some (Text (JDict new)) /\
      od_get (KStr "weekend") new = Some weekend_bucket /\
      is_Some (od_get (KStr "workday") new).
Proof.
  intros files.
  destruct (update_baseline_returns default_manager 0 no_faults sample_stats files)
    as (b & files' & Hrun & Hb).
  assert (Hfst : fst (update_baseline default_manager 0 no_faults sample_stats files)
                 = Ret true) by (vm_compute; reflexivity).
  rewrite Hrun in Hfst. simpl in Hfst. injection Hfst as ->.
  exists files'. split; [exact Hrun|].
  destruct (update_baseline_buckets default_manager 0 no_faults sample_stats
              files files' Hrun)
    as (old & new & bucket & Hold & _ & Hf & Hget & Hother & Hday & _).
  exists new. split; [exact Hf|].
  assert (Hold' : old = [(KStr "workday", JDict []); (KStr "weekend", weekend_bucket)]).
  { assert (Hp : previous_record files (baseline_path default_manager) = stored_record)
      by (vm_compute; reflexivity).
    rewrite Hp in Hold. by injection Hold as <-. }
  split.
  - rewrite (Hother (KStr "weekend")) by discriminate. by rewrite Hold'.
  - apply (Hday "workday"). by left.
Defined.

(** C6, as stated, fails: updating on a workday a stored record that has
    the workday bucket only succeeds and leaves a record without the
    weekend key. *)
Lemma update_baseline_buckets_counterexample :
  let files : fs := {[ baseline_path default_manager := Text workday_only_record ]} in
  let r := update_baseline default_manager 0 no_faults sample_stats files in
  fst r = Ret true /\
  exists new,
    snd r !! baseline_path default_manager = Some (Text (JDict new)) /\
    od_get (KStr "weekend") new = None.
Proof.
  vm_compute. split; [reflexivity|]. eexists. split; reflexivity.
Qed.

(** ** The protocol tallies and the packet count *)

(** C2, at the failing input.  One record whose time stamp [float()]
    rejects is counted in [packet_count] before the conversion fails, and
    never reaches the protocol tally: afterwards [packet_count] is 1 and
    the values of [protocols] add up to 0. *)
Theorem protocol_sum_after_undated_record :
  let r := process [undated] (initialize_stats fzero) in
  fst r = Ret tt /\
  snd r !! "packet_count" = Some (VNum (NInt 1)) /\
  obind (lookup_stat (snd r) "protocols") py_sum_values = Ret (NInt 0) /\
  snd r !! "malformed_packets" = Some (VNum (NInt 1)).
Proof. vm_compute. repeat split; reflexivity. Qed.

Lemma fold_left_add_shift (l : list Z) a : fold_left Z.add l a = a + fold_left Z.add l 0.
Proof.
  revert a. induction l as [|x l IH]; intros a; simpl; [lia|].
  rewrite (IH (a + x)), (IH (0 + x)). lia.
Qed.

Lemma total_cons k z d : total ((k, z) :: d) = z + total d.
Proof. unfold total, Spec.int_sum. simpl. apply fold_left_add_shift. Qed.

Lemma total_od_set k z d :
  total (od_set k z d) = total d - default 0 (od_get k d) + z.
Proof.
  induction d as [|[k0 z0] d IH]; simpl.
  - rewrite total_cons. unfold total, Spec.int_sum. simpl. lia.
  - destruct (decide (k = k0)); simpl.
    + rewrite !total_cons. lia.
    + rewrite !total_cons, IH. lia.
Qed.

Lemma od_get_counts k d : od_get k (counts_of d) = NInt <$> od_get k d.
Proof.
  induction d as [|[k0 z0] d IH]; simpl; [done|].
  by destruct (decide (k = k0)).
Qed.

Lemma od_set_counts k z d : od_set k (NInt z) (counts_of d) = counts_of (od_set k z d).
Proof.
  induction d as [|[k0 z0] d IH]; simpl; [done|].
  destruct (decide (k = k0)); simpl; [done|]. by rewrite IH.
Qed.

(** One tally adds one to the sum of the tallies. *)
Lemma tally_counts (s : stats) name k d :
  s !! name = Some (VDict true (counts_of d)) ->
  exists d', tally name k s = (Ret tt, <[name := VDict true (counts_of d')]> s) /\
             total d' = total d + 1.
Proof.
  intros Hs. unfold tally, bind, getitem, lift, setitem. rewrite Hs. simpl.
  rewrite od_get_counts. destruct (od_get k d) as [z|] eqn:Hget; simpl.
  - exists (od_set k (z + 1) d). rewrite insert_insert_eq, od_set_counts.
    split; [done|]. rewrite total_od_set, Hget. simpl. lia.
  - exists (od_set k 1 (od_set k 0 d)).
    rewrite insert_insert_eq, !od_set_counts.
    split; [done|]. rewrite !total_od_set, od_get_set_eq, Hget. simpl. lia.
Qed.

(** A statement that only reads passes its result on. *)
Lemma triple_bind_pure {A B} K X (m : M stats A) (a : A) (k : A -> M stats B) :
  (forall s, m s = (Ret a, s)) -> triple K X (k a) -> triple K X (bind m k).
Proof.
  intros Hm Hk s0 s Hinv. unfold wp, bind. rewrite Hm. by apply (Hk s0 s).
Qed.

(** A readable record is counted once and reaches the tally. *)
Lemma count_packet_readable (s : stats) p n :
  well_formed s -> readable p ->
  s !! "packet_count" = Some (VNum (NInt n)) ->
  wp (count_packet p)
     (fun _ s' => well_formed s' /\
                  s' !! "packet_count" = Some (VNum (NInt (n + 1))) /\
                  s' !! "protocols" = s !! "protocols")
     (fun _ _ => False) s.
Proof.
  intros Hwf ((t & Ht) & Hlen & (transport & Htr & Hname)) Hpc.
  unfold count_packet. apply wp_bind.
  unfold iadd at 1. apply wp_bind. eapply wp_getitem; [exact Hpc|].
  apply wp_bind, wp_lift. simpl. apply wp_setitem.
  set (s1 := <["packet_count" := VNum (NInt (n + 1))]> s).
  assert (Hwf1 : well_formed s1) by (by eapply well_formed_insert).
  eapply (triple_wp ["start_timestamp"; "end_timestamp"; "total_bytes";
                     "throughput_samples"] no_exn _ _ _ s1 s1);
    [| by apply inv_refl | | intros; discriminate].
  - apply (triple_bind_pure _ _ _ t); [intros s2; by rewrite Ht|].
    eapply triple_getitem_bind; [reflexivity|].
    intros [x|l|b d] Hv; try discriminate Hv.
    apply triple_lift_bind; simpl.
    apply triple_bind;
      [eapply triple_setitem; [in_keys | reflexivity | reflexivity] | intros _].
    eapply triple_getitem_bind; [reflexivity|].
    intros [x'|l|b d] Hv'; try discriminate Hv'.
    apply triple_lift_bind; simpl.
    apply triple_bind;
      [eapply triple_setitem; [in_keys | reflexivity | reflexivity] | intros _].
    apply triple_bind.
    { destruct Hlen as [Hnone | [size Hsize]].
      - rewrite Hnone. cbn [hasattr]. apply triple_ret.
      - rewrite Hsize. cbn [hasattr].
        apply (triple_bind_pure _ _ _ size); [done|]. cbv beta. triple_auto. }
    intros _. apply (triple_bind_pure _ _ _ transport); [intros s2; by rewrite Htr|].
    destruct transport as [name|]; simpl in *.
    + destruct (String.eqb name ""); simpl.
      * destruct Hname as [Hname|[h Hh]]; [discriminate Hname|].
        apply (triple_bind_pure _ _ _ h); [intros s2; by rewrite Hh|]. apply triple_ret.
      * apply (triple_bind_pure _ _ _ name); [done|]. apply triple_ret.
    + destruct Hname as [Hname|[h Hh]]; [discriminate Hname|].
      apply (triple_bind_pure _ _ _ h); [intros s2; by rewrite Hh|]. apply triple_ret.
  - intros r s' [Hwf' Hun]. split; [done|]. split.
    + rewrite (Hun "packet_count") by not_in_keys. apply lookup_insert_eq.
    + rewrite (Hun "protocols") by not_in_keys. unfold s1.
      by rewrite lookup_insert_ne.
Qed.

(** Processing a readable record keeps the tallies in step with the
    packet count. *)
Lemma update_stats_balanced (s : stats) p :
  well_formed s -> balanced s -> readable p ->
  exists s', update_stats p s = (Ret tt, s') /\ well_formed s' /\ balanced s'.
Proof.
  intros Hwf (d & Hprot & Hpc) Hread.
  assert (Hwp : wp (update_stats_rules p)
                   (fun _ s' => well_formed s' /\ balanced s') (fun _ _ => False) s).
  { unfold update_stats_rules. apply wp_bind.
    eapply wp_mono; [| | exact (count_packet_readable s p _ Hwf Hread Hpc)];
      simpl; [|done].
    intros r s1 (Hwf1 & Hpc1 & Hprot1). rewrite Hprot in Hprot1.
    destruct (tally_counts s1 "protocols" (KStr (snd r)) d Hprot1) as (d' & Htally & Htot).
    apply wp_bind. unfold wp at 1. rewrite Htally.
    set (s2 := <["protocols" := VDict true (counts_of d')]> s1).
    assert (Hwf2 : well_formed s2) by (by eapply well_formed_insert).
    eapply (triple_wp layer_keys no_exn _ _ _ s2 s2);
      [apply triple_analyze_layers | by apply inv_refl | | intros; discriminate].
    intros _ s3 [Hwf3 Hun]. split; [done|]. exists d'. split.
    - rewrite (Hun "protocols") by not_in_keys. apply lookup_insert_eq.
    - rewrite (Hun "packet_count") by not_in_keys.
      unfold s2. rewrite lookup_insert_ne by discriminate. by rewrite Hpc1, Htot. }
  destruct (wp_total _ _ _ Hwp) as ([] & s' & Hrun & Hwf' & Hbal).
  exists s'. unfold update_stats, try_except. by rewrite Hrun.
Qed.

(** For a stream of readable records, the values of [protocols] add up to
    [packet_count]: the part of C2 that holds. *)
Lemma process_balanced all_packets now :
  Forall readable all_packets ->
  exists s', process all_packets (initialize_stats now) = (Ret tt, s') /\ balanced s'.
Proof.
  intros Hall.
  assert (Hgen : forall s, well_formed s -> balanced s ->
            exists s', process all_packets s = (Ret tt, s') /\ balanced s').
  { induction Hall as [|p rest Hp _ IH]; intros s Hwf Hbal; simpl.
    - by exists s.
    - destruct (update_stats_balanced s p Hwf Hbal Hp) as (s1 & Hrun & Hwf1 & Hbal1).
      unfold bind. rewrite Hrun. by apply IH. }
  apply Hgen; [apply well_formed_initialize_stats|].
  exists []. split; vm_compute; reflexivity.
Qed.

(** ** Every record is counted once *)

Lemma wp_getitem_wf name t (Q : pyval -> stats -> Prop) (E : exn -> stats -> Prop) (s : stats) :
  well_formed s -> type_of name = Some t ->
  (forall v, s !! name = Some v -> has_ty t v = true -> Q v s) ->
  wp (getitem name) Q E s.
Proof.
  intros Hwf Ht HQ. destruct (Hwf name t Ht) as (v & Hv & Hty).
  eapply wp_getitem; [exact Hv|]. by apply HQ.
Qed.

Lemma wp_convert {S A} (o : option (parsed A)) (Q : A -> S -> Prop) (E : exn -> S -> Prop) s :
  match o with
  | Some (Parsed a) => Q a s
  | Some Unparsable => E ValueError s
  | None => E AttributeError s
  end -> wp (convert o) Q E s.
Proof. by destruct o as [[|a]|]. Qed.

Lemma wp_attr_cases {S A} (o : option A) (Q : A -> S -> Prop) (E : exn -> S -> Prop) s :
  match o with Some a => Q a s | None => E AttributeError s end -> wp (attr o) Q E s.
Proof. by destruct o. Qed.

(** The choice of the protocol name reads the record only. *)
Lemma wp_protocol_name (p : packet) (t : float64) (Q : float64 * string -> stats -> Prop)
    (E : exn -> stats -> Prop) (s : stats) :
  ((exists transport, pkt.transport_layer p = Some transport /\
      (truthy_str transport = true \/ is_Some (pkt.highest_layer p))) ->
   forall name, Q (t, name) s) ->
  (~ (exists transport, pkt.transport_layer p = Some transport /\
      (truthy_str transport = true \/ is_Some (pkt.highest_layer p))) ->
   E AttributeError s) ->
  wp (transport <- attr (pkt.transport_layer p) ;;
      protocol <- (if truthy_str transport then attr transport
                   else attr (pkt.highest_layer p)) ;;
      ret (t, protocol)) Q E s.
Proof.
  intros HQ HE. apply wp_bind, wp_attr_cases.
  destruct (pkt.transport_layer p) as [transport|] eqn:Htr.
  - apply wp_bind. destruct (truthy_str transport) eqn:Htruthy.
    + apply wp_attr_cases. destruct transport as [name|]; [|discriminate Htruthy].
      apply wp_ret, HQ. eexists. split; [done|]. by left.
    + apply wp_attr_cases. destruct (pkt.highest_layer p) as [h|] eqn:Hh.
      * apply wp_ret, HQ. eexists. split; [done|]. right. by eexists.
      * apply HE. intros (tr & [= <-] & [Ht|[h Hh']]); congruence.
  - apply HE. intros (tr & [=] & _).
Qed.

Lemma count_packet_wp (s : stats) (p : packet) (n b : Z) (l : list elem) :
  well_formed s ->
  s !! "packet_count" = Some (VNum (NInt n)) ->
  s !! "total_bytes" = Some (VNum (NInt b)) ->
  s !! "throughput_samples" = Some (VList l) ->
  let counted (s' : stats) :=
    well_formed s' /\
    s' !! "packet_count" = Some (VNum (NInt (n + 1))) /\
    unchanged_outside counter_keys s s' /\
    ((s' !! "total_bytes" = Some (VNum (NInt b)) /\
      s' !! "throughput_samples" = Some (VList l)) \/
     (exists t size,
        s' !! "total_bytes" = Some (VNum (NInt (b + size))) /\
        s' !! "throughput_samples" = Some (VList (l ++ [ETuple [NFloat t; NInt size]])))) in
  wp (count_packet p)
     (fun _ s' => readable p /\ counted s')
     (fun e s' => ~ readable p /\ counted s') s.
Proof.
  intros Hwf Hpc Hb Hl counted. unfold count_packet.
  apply wp_bind. unfold iadd at 1. apply wp_bind. eapply wp_getitem; [exact Hpc|].
  apply wp_bind, wp_lift. simpl. apply wp_setitem.
  set (s1 := <["packet_count" := VNum (NInt (n + 1))]> s).
  assert (Hwf1 : well_formed s1) by (by eapply well_formed_insert).
  assert (Hun1 : unchanged_outside counter_keys s s1).
  { apply unchanged_outside_insert; [apply unchanged_outside_refl | in_keys]. }
  apply wp_bind, wp_convert.
  destruct (pkt.sniff_timestamp p) as [[|t]|] eqn:Hts.
  { split; [intros ((t0 & Ht0) & _); congruence|].
    split; [done|]. split; [apply lookup_insert_eq|]. split; [done|].
    left. unfold s1. by rewrite !lookup_insert_ne. }
  2:{ split; [intros ((t0 & Ht0) & _); congruence|].
    split; [done|]. split; [apply lookup_insert_eq|]. split; [done|].
    left. unfold s1. by rewrite !lookup_insert_ne. }
  apply wp_bind. eapply wp_getitem_wf; [exact Hwf1 | reflexivity |].
  intros [first|?|? ?] _ Hty; try discriminate Hty.
  apply wp_bind, wp_lift. simpl. apply wp_bind, wp_setitem.
  set (s2 := <["start_timestamp" := _]> s1).
  assert (Hwf2 : well_formed s2) by (by eapply well_formed_insert).
  apply wp_bind. eapply wp_getitem_wf; [exact Hwf2 | reflexivity |].
  intros [last|?|? ?] _ Hty'; try discriminate Hty'.
  apply wp_bind, wp_lift. simpl. apply wp_bind, wp_setitem.
  set (s3 := <["end_timestamp" := _]> s2).
  assert (Hwf3 : well_formed s3) by (by eapply well_formed_insert).
  assert (Hpc3 : s3 !! "packet_count" = Some (VNum (NInt (n + 1)))).
  { unfold s3, s2, s1. rewrite !lookup_insert_ne by discriminate. apply lookup_insert_eq. }
  assert (Hun3 : unchanged_outside counter_keys s s3).
  { unfold s3, s2. do 2 (apply unchanged_outside_insert; [|in_keys]). exact Hun1. }
  assert (Hb3 : s3 !! "total_bytes" = Some (VNum (NInt b))).
  { unfold s3, s2, s1. by rewrite !lookup_insert_ne. }
  assert (Hl3 : s3 !! "throughput_samples" = Some (VList l)).
  { unfold s3, s2, s1. by rewrite !lookup_insert_ne. }
  clearbody s3. clear s2 Hwf2 s1 Hwf1 Hun1.
  assert (Hrest : forall sX : stats, counted sX ->
            (pkt.length p = None \/ exists size, pkt.length p = Some (Parsed size)) ->
            wp (transport <- attr (pkt.transport_layer p) ;;
                protocol <- (if truthy_str transport then attr transport
                             else attr (pkt.highest_layer p)) ;;
                ret (t, protocol))
               (fun _ s' => readable p /\ counted s')
               (fun e s' => ~ readable p /\ counted s') sX).
  { intros sX HX Hlen. apply wp_protocol_name.
    - intros Hname name. split; [|done]. split; [by eexists|]. by split.
    - intros Hname. split; [|done]. by intros (_ & _ & H). }
  apply wp_bind.
  destruct (pkt.length p) as [[|size]|] eqn:Hlen; cbn [hasattr].
  - apply wp_bind, wp_convert.
    split; [intros (_ & [Hn|(z & Hz)] & _); congruence|].
    split; [done|]. split; [done|]. split; [done|]. by left.
  - apply wp_bind, wp_convert.
    apply wp_bind. unfold iadd. apply wp_bind. eapply wp_getitem; [exact Hb3|].
    apply wp_bind, wp_lift. simpl. apply wp_setitem.
    unfold append. apply wp_bind. eapply wp_getitem.
    { rewrite lookup_insert_ne by discriminate. exact Hl3. }
    apply wp_bind, wp_lift. simpl. apply wp_setitem.
    apply Hrest; [|right; by eexists].
    split; [|split; [|split]].
    + eapply well_formed_insert; [|reflexivity|reflexivity].
      eapply well_formed_insert; [exact Hwf3|reflexivity|reflexivity].
    + by rewrite !lookup_insert_ne.
    + repeat (apply unchanged_outside_insert; [|in_keys]). exact Hun3.
    + right. exists t, size. split; [|apply lookup_insert_eq].
      rewrite lookup_insert_ne by discriminate. apply lookup_insert_eq.
  - apply wp_ret. apply Hrest; [|by left].
    split; [done|]. split; [done|]. split; [done|]. by left.
Qed.

Lemma update_stats_step (s : stats) (p : packet) (n m b : Z) (d : list (key * Z))
    (l : list elem) :
  well_formed s ->
  s !! "packet_count" = Some (VNum (NInt n)) ->
  s !! "malformed_packets" = Some (VNum (NInt m)) ->
  s !! "protocols" = Some (VDict true (counts_of d)) ->
  s !! "total_bytes" = Some (VNum (NInt b)) ->
  s !! "throughput_samples" = Some (VList l) ->
  exists s' d' m' b' l',
    update_stats p s = (Ret tt, s') /\ well_formed s' /\
    s' !! "packet_count" = Some (VNum (NInt (n + 1))) /\
    s' !! "protocols" = Some (VDict true (counts_of d')) /\
    s' !! "malformed_packets" = Some (VNum (NInt m')) /\
    s' !! "total_bytes" = Some (VNum (NInt b')) /\
    s' !! "throughput_samples" = Some (VList l') /\
    ((readable p /\ total d' = total d + 1 /\ m' = m) \/
     (~ readable p /\ d' = d /\ m' = m + 1)) /\
    ((b' = b /\ l' = l) \/
     (exists t size, b' = b + size /\ l' = (l ++ [ETuple [NFloat t; NInt size]])%list)).
Proof.
  intros Hwf Hpc Hm Hd Hb Hl.
  assert (Hwp : wp (update_stats p)
    (fun _ s' => exists d' m' b' l',
       well_formed s' /\
       s' !! "packet_count" = Some (VNum (NInt (n + 1))) /\
       s' !! "protocols" = Some (VDict true (counts_of d')) /\
       s' !! "malformed_packets" = Some (VNum (NInt m')) /\
       s' !! "total_bytes" = Some (VNum (NInt b')) /\
       s' !! "throughput_samples" = Some (VList l') /\
       ((readable p /\ total d' = total d + 1 /\ m' = m) \/
        (~ readable p /\ d' = d /\ m' = m + 1)) /\
       ((b' = b /\ l' = l) \/
        (exists t size, b' = b + size /\ l' = (l ++ [ETuple [NFloat t; NInt size]])%list)))
    (fun _ _ => False) s).
  { unfold update_stats. apply wp_try. unfold update_stats_rules. apply wp_bind.
    eapply wp_mono; [| | exact (count_packet_wp s p n b l Hwf Hpc Hb Hl)]; cbv beta.
    - intros r s1 (Hread & Hwf1 & Hpc1 & Hun1 & Hbytes).
      assert (Hd1 : s1 !! "protocols" = Some (VDict true (counts_of d))).
      { rewrite (Hun1 "protocols") by not_in_keys. exact Hd. }
      assert (Hm1 : s1 !! "malformed_packets" = Some (VNum (NInt m))).
      { rewrite (Hun1 "malformed_packets") by not_in_keys. exact Hm. }
      destruct (tally_counts s1 "protocols" (KStr (snd r)) d Hd1) as (d' & Htally & Htot).
      apply wp_bind. unfold wp at 1. rewrite Htally.
      set (s2 := <["protocols" := VDict true (counts_of d')]> s1).
      assert (Hwf2 : well_formed s2) by (by eapply well_formed_insert).
      eapply (triple_wp layer_keys no_exn _ _ _ s2 s2);
        [apply triple_analyze_layers | by apply inv_refl | | intros; discriminate].
      intros _ s3 [Hwf3 Hun3].
      assert (Hkeep : forall name, name ∉ layer_keys -> name <> "protocols" ->
                s3 !! name = s1 !! name).
      { intros name Hout Hne. rewrite (Hun3 name Hout). unfold s2.
        by rewrite lookup_insert_ne. }
      assert (Hb3 : s3 !! "total_bytes" = s1 !! "total_bytes")
        by (apply Hkeep; [not_in_keys | discriminate]).
      assert (Hl3 : s3 !! "throughput_samples" = s1 !! "throughput_samples")
        by (apply Hkeep; [not_in_keys | discriminate]).
      assert (Hfront : s3 !! "packet_count" = Some (VNum (NInt (n + 1))) /\
                s3 !! "protocols" = Some (VDict true (counts_of d')) /\
                s3 !! "malformed_packets" = Some (VNum (NInt m))).
      { split; [|split].
        - rewrite Hkeep; [done | not_in_keys | discriminate].
        - rewrite (Hun3 "protocols") by not_in_keys. apply lookup_insert_eq.
        - rewrite Hkeep; [done | not_in_keys | discriminate]. }
      destruct Hfront as (H1 & H2 & H3).
      destruct Hbytes as [[Hb1 Hl1] | (t & size & Hb1 & Hl1)].
      + exists d', m, b, l. rewrite Hb3, Hl3.
        repeat (split; [done|]). split; [left; done | left; done].
      + exists d', m, (b + size), (l ++ [ETuple [NFloat t; NInt size]])%list.
        rewrite Hb3, Hl3.
        repeat (split; [done|]). split; [left; done | right; by eexists _, _].
    - intros e s1 (Hread & Hwf1 & Hpc1 & Hun1 & Hbytes). cbn [Exception].
      assert (Hd1 : s1 !! "protocols" = Some (VDict true (counts_of d))).
      { rewrite (Hun1 "protocols") by not_in_keys. exact Hd. }
      assert (Hm1 : s1 !! "malformed_packets" = Some (VNum (NInt m))).
      { rewrite (Hun1 "malformed_packets") by not_in_keys. exact Hm. }
      unfold iadd. apply wp_bind. eapply wp_getitem; [exact Hm1|].
      apply wp_bind, wp_lift. simpl. apply wp_setitem.
      assert (Hwf2 : well_formed (<["malformed_packets" := VNum (NInt (m + 1))]> s1))
        by (by eapply well_formed_insert).
      destruct Hbytes as [[Hb1 Hl1] | (t & size & Hb1 & Hl1)].
      + exists d, (m + 1), b, l. rewrite lookup_insert_eq.
        rewrite !lookup_insert_ne by discriminate.
        repeat (split; [done|]). split; [right; done | left; done].
      + exists d, (m + 1), (b + size), (l ++ [ETuple [NFloat t; NInt size]])%list.
        rewrite lookup_insert_eq. rewrite !lookup_insert_ne by discriminate.
        repeat (split; [done|]). split; [right; done | right; by eexists _, _]. }
  destruct (wp_total _ _ _ Hwp) as ([] & s' & Hrun & d' & m' & b' & l' & H).
  exists s', d', m', b', l'. split; [exact Hrun | exact H].
Qed.

Lemma int_sum_snoc (l : list Z) x : Spec.int_sum (l ++ [x]) = Spec.int_sum l + x.
Proof. unfold Spec.int_sum. by rewrite fold_left_app. Qed.

Lemma sampled_bytes_snoc (l : list elem) t size :
  sampled_bytes (l ++ [ETuple [NFloat t; NInt size]]) = sampled_bytes l + size.
Proof. unfold sampled_bytes. rewrite map_app. apply int_sum_snoc. Qed.

Lemma process_accounts (all_packets : list packet) :
  forall (s : stats) (n m b : Z) (d : list (key * Z)) (l : list elem),
  well_formed s ->
  s !! "packet_count" = Some (VNum (NInt n)) ->
  s !! "malformed_packets" = Some (VNum (NInt m)) ->
  s !! "protocols" = Some (VDict true (counts_of d)) ->
  s !! "total_bytes" = Some (VNum (NInt b)) ->
  s !! "throughput_samples" = Some (VList l) ->
  exists s' d' m' b' l',
    process all_packets s = (Ret tt, s') /\ well_formed s' /\
    s' !! "packet_count" = Some (VNum (NInt (n + Z.of_nat (length all_packets)))) /\
    s' !! "protocols" = Some (VDict true (counts_of d')) /\
    s' !! "malformed_packets" = Some (VNum (NInt m')) /\
    s' !! "total_bytes" = Some (VNum (NInt b')) /\
    s' !! "throughput_samples" = Some (VList l') /\
    total d' + m' = total d + m + Z.of_nat (length all_packets) /\
    total d <= total d' /\ m <= m' /\
    (Forall readable all_packets -> m' = m) /\
    sampled_bytes l' - b' = sampled_bytes l - b /\
    (length l' <= length l + length all_packets)%nat.
Proof.
  induction all_packets as [|p rest IH]; intros s n m b d l Hwf Hpc Hm Hd Hb Hl.
  - exists s, d, m, b, l. simpl. rewrite Z.add_0_r.
    repeat (split; [done|]). split; [lia|]. split; [lia|]. split; [lia|].
    split; [done|]. split; lia.
  - destruct (update_stats_step s p n m b d l Hwf Hpc Hm Hd Hb Hl)
      as (s1 & d1 & m1 & b1 & l1 & Hrun & Hwf1 & Hpc1 & Hd1 & Hm1 & Hb1 & Hl1 & Hacc & Hbytes).
    destruct (IH s1 (n + 1) m1 b1 d1 l1 Hwf1 Hpc1 Hm1 Hd1 Hb1 Hl1)
      as (s' & d' & m' & b' & l' & Hrun' & Hwf' & Hpc' & Hd' & Hm' & Hb' & Hl' &
          Hsum & Hdle & Hmle & Hall & Hsb & Hlen).
    exists s', d', m', b', l'. simpl process. unfold bind. rewrite Hrun.
    split; [exact Hrun'|]. split; [done|].
    split; [rewrite Hpc'; do 3 f_equal; simpl length; lia|].
    repeat (split; [done|]).
    assert (Hs : sampled_bytes l1 - b1 = sampled_bytes l - b /\
                 (length l1 <= length l + 1)%nat).
    { destruct Hbytes as [[-> ->] | (t & size & -> & ->)].
      - split; lia.
      - rewrite sampled_bytes_snoc, length_app. simpl. split; lia. }
    simpl length.
    destruct Hacc as [(Hr & Ht & ->) | (Hr & -> & ->)].
    + split; [lia|]. split; [lia|]. split; [lia|].
      split; [intros Hf; apply Hall; by inversion Hf|]. split; lia.
    + split; [lia|]. split; [lia|]. split; [lia|].
      split; [intros Hf; by inversion Hf|]. split; lia.
Qed.

Lemma cleanup_stats_run (s : stats) (dflt : bool) (d : odict num) :
  s !! "conversations" = Some (VDict dflt d) ->
  exists s', _cleanup_stats s = (Ret tt, s') /\
    s' !! "prev_udp_time" = None /\
    s' !! "conversations" = Some (VDict false (fold_left cleanup_step d [])) /\
    forall name, name <> "prev_udp_time" -> name <> "conversations" ->
                 s' !! name = s !! name.
Proof.
  intros Hc.
  assert (Hwp : wp _cleanup_stats
            (fun _ s' => s' !! "prev_udp_time" = None /\
               s' !! "conversations" = Some (VDict false (fold_left cleanup_step d [])) /\
               forall name, name <> "prev_udp_time" -> name <> "conversations" ->
                            s' !! name = s !! name)
            (fun _ _ => False) s).
  { unfold _cleanup_stats. apply wp_bind, wp_haskey. apply wp_bind.
    assert (Hstep : wp (if bool_decide (is_Some (s !! "prev_udp_time"))
                        then delitem "prev_udp_time" else ret tt)
                       (fun _ s' => s' !! "prev_udp_time" = None /\
                          forall name, name <> "prev_udp_time" -> s' !! name = s !! name)
                       (fun _ _ => False) s).
    { case_bool_decide as Hd.
      - apply wp_delitem; [done|]. split; [apply lookup_delete_eq|].
        intros name Hne. by rewrite lookup_delete_ne.
      - apply wp_ret. split; [by apply eq_None_not_Some | done]. }
    eapply wp_mono; [| | exact Hstep]; simpl; [|done].
    intros _ s1 [H1 H2]. clear Hstep.
    apply wp_bind, wp_haskey.
    rewrite bool_decide_true by (rewrite H2 by discriminate; eauto).
    apply wp_bind. eapply wp_getitem; [rewrite H2 by discriminate; exact Hc|].
    apply wp_bind, wp_lift. simpl. apply wp_setitem.
    split; [by rewrite lookup_insert_ne|]. split; [apply lookup_insert_eq|].
    intros name Hn1 Hn2. rewrite lookup_insert_ne by done. by apply H2. }
  destruct (wp_total _ _ _ Hwp) as ([] & s' & Hrun & Hs').
  by exists s'.
Qed.

Lemma initialize_stats_counters now :
  initialize_stats now !! "packet_count" = Some (VNum (NInt 0)) /\
  initialize_stats now !! "malformed_packets" = Some (VNum (NInt 0)) /\
  initialize_stats now !! "protocols" = Some (VDict true (counts_of [])) /\
  initialize_stats now !! "total_bytes" = Some (VNum (NInt 0)) /\
  initialize_stats now !! "throughput_samples" = Some (VList []).
Proof. repeat split; vm_compute; reflexivity. Qed.



(** X2.  Whatever the records of a capture are, the analysis returns, and
    in its result [packet_count] is the number of records and equals the
    sum of the protocol tallies plus [malformed_packets]; when every record
    is readable, [malformed_packets] is 0. *)
Theorem analyze_packets_accounting (now : float64) (all_packets : list packet) :
  exists s' d m,
    analyze_packets now all_packets = (Ret tt, s') /\
    s' !! "packet_count" = Some (VNum (NInt (Z.of_nat (length all_packets)))) /\
    s' !! "protocols" = Some (VDict true (counts_of d)) /\
    s' !! "malformed_packets" = Some (VNum (NInt m)) /\
    0 <= m /\ 0 <= total d /\
    total d + m = Z.of_nat (length all_packets) /\
    (Forall readable all_packets -> m = 0).
Proof.
  destruct (initialize_stats_counters now) as (H1 & H2 & H3 & H4 & H5).
  destruct (process_accounts all_packets (initialize_stats now) 0 0 0 [] []
              (well_formed_initialize_stats now) H1 H2 H3 H4 H5)
    as (s1 & d & m & b & l & Hrun & Hwf1 & Hpc & Hd & Hm & _ & _ & Hsum & Hdle & Hmle & Hall & _).
  destruct (Hwf1 "conversations" TCounts eq_refl) as ([?|?|[] c] & Hc & Hct);
    try discriminate Hct.
  destruct (cleanup_stats_run s1 true c Hc) as (s' & Hclean & _ & _ & Hkeep).
  exists s', d, m. unfold analyze_packets, bind. rewrite Hrun.
  split; [exact Hclean|].
  rewrite !Hkeep by discriminate.
  split; [exact Hpc|]. split; [exact Hd|]. split; [exact Hm|].
  change (total []) with 0 in *. repeat split; try lia. exact Hall.
Qed.

(** X3.  In the result of an analysis, [total_bytes] is the sum of the
    sizes recorded in [throughput_samples], and there are at most as many
    samples as records. *)
Theorem analyze_packets_bytes (now : float64) (all_packets : list packet) :
  exists s' samples,
    analyze_packets now all_packets = (Ret tt, s') /\
    s' !! "throughput_samples" = Some (VList samples) /\
    s' !! "total_bytes" = Some (VNum (NInt (sampled_bytes samples))) /\
    (length samples <= length all_packets)%nat.
Proof.
  destruct (initialize_stats_counters now) as (H1 & H2 & H3 & H4 & H5).
  destruct (process_accounts all_packets (initialize_stats now) 0 0 0 [] []
              (well_formed_initialize_stats now) H1 H2 H3 H4 H5)
    as (s1 & d & m & b & l & Hrun & Hwf1 & _ & _ & _ & Hb & Hl & _ & _ & _ & _ & Hsb & Hlen).
  destruct (Hwf1 "conversations" TCounts eq_refl) as ([?|?|[] c] & Hc & Hct);
    try discriminate Hct.
  destruct (cleanup_stats_run s1 true c Hc) as (s' & Hclean & _ & _ & Hkeep).
  exists s', l. unfold analyze_packets, bind. rewrite Hrun.
  split; [exact Hclean|].
  rewrite !Hkeep by discriminate.
  split; [exact Hl|]. split; [|simpl in Hlen; lia].
  rewrite Hb. do 3 f_equal. change (sampled_bytes []) with 0 in Hsb. lia.
Qed.

(** ** What each per-layer helper writes *)

Lemma wp_returns (m : M stats unit) (P : stats -> Prop) (s : stats) :
  wp m (fun _ s' => P s') (fun _ _ => False) s ->
  exists s', m s = (Ret tt, s') /\ P s'.
Proof.
  intros H. destruct (wp_total _ _ _ H) as ([] & s' & Hrun & HP). by exists s'.
Qed.

Lemma od_set_set {V} k (v v0 : V) d : od_set k v (od_set k v0 d) = od_set k v d.
Proof.
  induction d as [|[k0 w] d IH]; simpl.
  - by rewrite decide_True.
  - destruct (decide (k = k0)) as [->|Hne]; simpl.
    + by rewrite decide_True.
    + rewrite decide_False by done. by rewrite IH.
Qed.

Lemma tallied_set k d : tallied k d (od_set k (default 0 (od_get k d) + 1) d).
Proof.
  split; [apply od_get_set_eq|]. intros k' Hne. by apply od_get_set_ne.
Qed.

Lemma wp_tally name k d (Q : unit -> stats -> Prop) (E : exn -> stats -> Prop) (s : stats) :
  s !! name = Some (VDict true (counts_of d)) ->
  Q tt (<[name := VDict true (counts_of (od_set k (default 0 (od_get k d) + 1) d))]> s) ->
  wp (tally name k) Q E s.
Proof.
  intros Hs HQ. unfold wp, tally, bind, getitem, lift, setitem. rewrite Hs. simpl.
  rewrite od_get_counts. destruct (od_get k d) as [z|]; simpl in *.
  - by rewrite insert_insert_eq, od_set_counts.
  - by rewrite insert_insert_eq, !od_set_counts, od_set_set.
Qed.

Lemma wp_iadd name z n (Q : unit -> stats -> Prop) (E : exn -> stats -> Prop) (s : stats) :
  s !! name = Some (VNum (NInt n)) ->
  Q tt (<[name := VNum (NInt (n + z))]> s) ->
  wp (iadd name (NInt z)) Q E s.
Proof.
  intros Hs HQ. unfold wp, iadd, bind, getitem, lift, setitem. by rewrite Hs.
Qed.

Lemma wp_append name e l (Q : unit -> stats -> Prop) (E : exn -> stats -> Prop) (s : stats) :
  s !! name = Some (VList l) ->
  Q tt (<[name := VList (l ++ [e])]> s) ->
  wp (append name e) Q E s.
Proof.
  intros Hs HQ. unfold wp, append, bind, getitem, lift, setitem. by rewrite Hs.
Qed.

Ltac lookup_solve :=
  repeat first [ rewrite lookup_insert_eq | rewrite lookup_insert_ne by discriminate ];
  first [ reflexivity | eassumption ].

Ltac wp_step :=
  lazymatch goal with
  | |- wp (bind _ _) _ _ _ => apply wp_bind
  | |- wp (ret _) _ _ _ => apply wp_ret
  | |- wp (attr ?o) _ _ _ =>
      apply wp_attr_cases;
      lazymatch o with
      | Some _ => idtac
      | None => idtac
      | _ => destruct o
      end; cbv beta iota; cbn [is_AttributeError]
  | |- wp (iadd _ (NInt _)) _ _ _ => eapply wp_iadd; [lookup_solve|]
  | |- wp (append _ _) _ _ _ => eapply wp_append; [lookup_solve|]
  | |- wp (tally _ _) _ _ _ => eapply wp_tally; [lookup_solve|]
  | |- wp (except_AttributeError _) _ _ _ => apply wp_except_AttributeError
  | |- wp (if ?b then _ else _) _ _ _ => destruct b
  end.

Ltac frame_solve :=
  intros; rewrite ?lookup_insert_ne by done; reflexivity.

(** X4.  [_analyze_ip_layer] on a record whose two addresses can be read:
    the sender and the receiver each get one more in [top_talkers], the
    ordered pair (src, dst) gets one more in [conversations] (the pair
    (dst, src) is another entry), and nothing else is written.  When an
    address cannot be read, nothing at all is written: both are read
    before the first tally. *)
Theorem analyze_ip_layer_effect :
  (forall (s : stats) (p : packet) (t : float64) (l : ip.layer) (src dst : string)
          (talkers conversations : list (key * Z)),
     pkt.ip p = Some l -> ip.src l = Some src -> ip.dst l = Some dst ->
     s !! "top_talkers" = Some (VDict true (counts_of talkers)) ->
     s !! "conversations" = Some (VDict true (counts_of conversations)) ->
     exists s' talkers1 talkers2 conversations',
       _analyze_ip_layer p t s = (Ret tt, s') /\
       s' !! "top_talkers" = Some (VDict true (counts_of talkers2)) /\
       tallied (KStr src) talkers talkers1 /\ tallied (KStr dst) talkers1 talkers2 /\
       s' !! "conversations" = Some (VDict true (counts_of conversations')) /\
       tallied (KTuple [src; dst]) conversations conversations' /\
       (src <> dst ->
        od_get (KTuple [dst; src]) conversations' = od_get (KTuple [dst; src]) conversations) /\
       (forall name, name <> "top_talkers" -> name <> "conversations" ->
                     s' !! name = s !! name)) /\
  (forall (s : stats) (p : packet) (t : float64) (l : ip.layer),
     pkt.ip p = Some l -> ip.src l = None \/ ip.dst l = None ->
     _analyze_ip_layer p t s = (Ret tt, s)).
Proof.
  split.
  - intros s p t l src dst talkers conversations Hip Hsrc Hdst Htalk Hconv.
    set (talkers1 := od_set (KStr src) (default 0 (od_get (KStr src) talkers) + 1) talkers).
    set (talkers2 := od_set (KStr dst) (default 0 (od_get (KStr dst) talkers1) + 1) talkers1).
    set (conversations' := od_set (KTuple [src; dst])
           (default 0 (od_get (KTuple [src; dst]) conversations) + 1) conversations).
    enough (Hwp : exists s', _analyze_ip_layer p t s = (Ret tt, s') /\
              (s' !! "top_talkers" = Some (VDict true (counts_of talkers2)) /\
               s' !! "conversations" = Some (VDict true (counts_of conversations')) /\
               forall name, name <> "top_talkers" -> name <> "conversations" ->
                            s' !! name = s !! name)).
    { destruct Hwp as (s' & Hrun & H1 & H2 & H3).
      exists s', talkers1, talkers2, conversations'.
      split; [exact Hrun|]. split; [exact H1|].
      split; [apply tallied_set|]. split; [apply tallied_set|].
      split; [exact H2|]. split; [apply tallied_set|]. split; [|exact H3].
      intros Hne. apply od_get_set_ne. congruence. }
    apply wp_returns. unfold _analyze_ip_layer. apply wp_except_AttributeError.
    apply wp_bind. eapply wp_attr; [exact Hip|].
    apply wp_bind. eapply wp_attr; [exact Hsrc|].
    apply wp_bind. eapply wp_attr; [exact Hdst|].
    repeat wp_step.
    split; [|split]; [lookup_solve | lookup_solve | frame_solve].
  - intros s p t l Hip Hnone.
    unfold _analyze_ip_layer, except_AttributeError, try_except, bind.
    rewrite Hip. simpl. destruct Hnone as [-> | ->]; [done|].
    by destruct (ip.src l).
Qed.

Lemma analyze_ip_layer_effect_witness :
  (pkt.ip (datagram fzero) = Some addresses /\
   initialize_stats fzero !! "top_talkers" = Some (VDict true (counts_of [])) /\
   initialize_stats fzero !! "conversations" = Some (VDict true (counts_of []))) /\
  exists s' conversations',
    _analyze_ip_layer (datagram fzero) fzero (initialize_stats fzero) = (Ret tt, s') /\
    s' !! "conversations" = Some (VDict true (counts_of conversations')) /\
    tallied (KTuple ["10.0.0.1"; "10.0.0.2"]) [] conversations'.
Proof.
  assert (H1 : initialize_stats fzero !! "top_talkers" = Some (VDict true (counts_of [])))
    by (vm_compute; reflexivity).
  assert (H2 : initialize_stats fzero !! "conversations" = Some (VDict true (counts_of [])))
    by (vm_compute; reflexivity).
  split; [by repeat split|].
  destruct (proj1 analyze_ip_layer_effect (initialize_stats fzero) (datagram fzero) fzero
              addresses "10.0.0.1" "10.0.0.2" [] [] eq_refl eq_refl eq_refl H1 H2)
    as (s' & _ & _ & conversations' & Hrun & _ & _ & _ & Hc & Ht & _).
  exists s', conversations'. exact (conj Hrun (conj Hc Ht)).
Defined.

(** X5.  [_analyze_tcp_layer] never raises and writes three entries only:
    [retransmissions] grows by one exactly when the layer is marked as a
    retransmission, whether or not its flags can be read; [resets] grows by
    one exactly when the flags can be read and contain RST; and the time of
    the record itself is appended to [tcp_syn_delays] exactly when the
    flags contain SYN and the layer has no [analysis_acks_frame]. *)
Theorem analyze_tcp_layer_effect (s : stats) (p : packet) (t : float64) (l : tcp.layer)
    (r q : Z) (delays : list elem) :
  pkt.tcp p = Some l ->
  s !! "retransmissions" = Some (VNum (NInt r)) ->
  s !! "resets" = Some (VNum (NInt q)) ->
  s !! "tcp_syn_delays" = Some (VList delays) ->
  exists s',
    _analyze_tcp_layer p t s = (Ret tt, s') /\
    s' !! "retransmissions" =
      Some (VNum (NInt (if hasattr (tcp.analysis_retransmission l) then r + 1 else r))) /\
    s' !! "resets" = Some (VNum (NInt (if has_flag l "RST" then q + 1 else q))) /\
    s' !! "tcp_syn_delays" =
      Some (VList (if has_flag l "SYN" && negb (hasattr (tcp.analysis_acks_frame l))
                   then delays ++ [ENum (NFloat t)] else delays)) /\
    (forall name, name <> "retransmissions" -> name <> "resets" ->
                  name <> "tcp_syn_delays" -> s' !! name = s !! name).
Proof.
  intros Htcp Hr Hq Hd. apply wp_returns.
  unfold _analyze_tcp_layer, has_flag. apply wp_except_AttributeError.
  apply wp_bind. eapply wp_attr; [exact Htcp|].
  repeat wp_step;
    (split; [lookup_solve | split; [lookup_solve | split; [lookup_solve | frame_solve]]]).
Qed.

Lemma analyze_tcp_layer_effect_witness :
  let l := {| tcp.analysis_retransmission := Some "1"; tcp.flags := None;
              tcp.analysis_acks_frame := None |} in
  let p := {| pkt.sniff_timestamp := None; pkt.length := None;
              pkt.transport_layer := None; pkt.highest_layer := None;
              pkt.ip := None; pkt.tcp := Some l; pkt.udp := None; pkt.http := None;
              pkt.tls := None; pkt.dns := None; pkt.dhcp := None; pkt.bootp := false |} in
  (initialize_stats fzero !! "retransmissions" = Some (VNum (NInt 0)) /\
   initialize_stats fzero !! "resets" = Some (VNum (NInt 0)) /\
   initialize_stats fzero !! "tcp_syn_delays" = Some (VList [])) /\
  exists s',
    _analyze_tcp_layer p fzero (initialize_stats fzero) = (Ret tt, s') /\
    s' !! "retransmissions" = Some (VNum (NInt (0 + 1))) /\
    s' !! "resets" = Some (VNum (NInt 0)).
Proof.
  intros l p.
  assert (H1 : initialize_stats fzero !! "retransmissions" = Some (VNum (NInt 0)))
    by (vm_compute; reflexivity).
  assert (H2 : initialize_stats fzero !! "resets" = Some (VNum (NInt 0)))
    by (vm_compute; reflexivity).
  assert (H3 : initialize_stats fzero !! "tcp_syn_delays" = Some (VList []))
    by (vm_compute; reflexivity).
  split; [by repeat split|].
  destruct (analyze_tcp_layer_effect (initialize_stats fzero) p fzero l 0 0 []
              eq_refl H1 H2 H3) as (s' & Hrun & Hr & Hq & _).
  exists s'. exact (conj Hrun (conj Hr Hq)).
Defined.

(** X6.  [_analyze_http_layer] tallies a response code in [http_errors]
    exactly when it starts with 4 or 5; for any other code, and for a
    message without a response code, the statistics are left as they are.
    It never raises. *)
Theorem analyze_http_layer_effect (s : stats) (p : packet) (l : http.layer)
    (errors : list (key * Z)) :
  pkt.http p = Some l ->
  s !! "http_errors" = Some (VDict true (counts_of errors)) ->
  exists s',
    _analyze_http_layer p s = (Ret tt, s') /\
    (forall name, name <> "http_errors" -> s' !! name = s !! name) /\
    match http.response_code l with
    | Some code =>
        if startswith_4_or_5 code
        then exists errors', s' !! "http_errors" = Some (VDict true (counts_of errors')) /\
                             tallied (KStr code) errors errors'
        else s' = s
    | None => s' = s
    end.
Proof.
  intros Hhttp Herr. apply wp_returns.
  unfold _analyze_http_layer. apply wp_except_AttributeError.
  apply wp_bind. eapply wp_attr; [exact Hhttp|].
  destruct (http.response_code l) as [code|]; cbn [hasattr].
  - apply wp_bind, wp_ret. destruct (startswith_4_or_5 code).
    + eapply wp_tally; [exact Herr|]. split; [frame_solve|].
      eexists. split; [apply lookup_insert_eq | apply tallied_set].
    + by apply wp_ret.
  - by apply wp_ret.
Qed.

Lemma analyze_http_layer_effect_witness :
  let p := {| pkt.sniff_timestamp := None; pkt.length := None;
              pkt.transport_layer := None; pkt.highest_layer := None;
              pkt.ip := None; pkt.tcp := None; pkt.udp := None;
              pkt.http := Some {| http.response_code := Some "200" |};
              pkt.tls := None; pkt.dns := None; pkt.dhcp := None; pkt.bootp := false |} in
  initialize_stats fzero !! "http_errors" = Some (VDict true (counts_of [])) /\
  _analyze_http_layer p (initialize_stats fzero) = (Ret tt, initialize_stats fzero).
Proof.
  intros p.
  assert (H1 : initialize_stats fzero !! "http_errors" = Some (VDict true (counts_of [])))
    by (vm_compute; reflexivity).
  split; [exact H1|].
  destruct (analyze_http_layer_effect (initialize_stats fzero) p _ [] eq_refl H1)
    as (s' & Hrun & _ & Hs).
  simpl in Hs. by rewrite <- Hs.
Defined.

(** X7.  [_analyze_tls_layer] never raises and writes four entries only:
    [tls_handshakes] grows by one exactly when the record content type is
    22, [tls_alerts] exactly when it is 21, so one record never counts as
    both; the version and the cipher suite are tallied exactly when the
    handshake type is 2 (a Server Hello) and the field is present. *)
Theorem analyze_tls_layer_effect (s : stats) (p : packet) (l : tls.layer) (h a : Z)
    (versions suites : list (key * Z)) :
  pkt.tls p = Some l ->
  s !! "tls_handshakes" = Some (VNum (NInt h)) ->
  s !! "tls_alerts" = Some (VNum (NInt a)) ->
  s !! "tls_versions" = Some (VDict true (counts_of versions)) ->
  s !! "tls_cipher_suites" = Some (VDict true (counts_of suites)) ->
  exists s' versions' suites',
    _analyze_tls_layer p s = (Ret tt, s') /\
    s' !! "tls_handshakes" =
      Some (VNum (NInt (if field_is (tls.record_content_type l) "22" then h + 1 else h))) /\
    s' !! "tls_alerts" =
      Some (VNum (NInt (if field_is (tls.record_content_type l) "21" then a + 1 else a))) /\
    (s' !! "tls_handshakes" = Some (VNum (NInt h)) \/
     s' !! "tls_alerts" = Some (VNum (NInt a))) /\
    s' !! "tls_versions" = Some (VDict true (counts_of versions')) /\
    s' !! "tls_cipher_suites" = Some (VDict true (counts_of suites')) /\
    match tls.handshake_version l with
    | Some v => if field_is (tls.handshake_type l) "2"
                then tallied (KStr v) versions versions' else versions' = versions
    | None => versions' = versions
    end /\
    match tls.handshake_ciphersuite l with
    | Some c => if field_is (tls.handshake_type l) "2"
                then tallied (KStr c) suites suites' else suites' = suites
    | None => suites' = suites
    end /\
    (forall name, name <> "tls_handshakes" -> name <> "tls_alerts" ->
                  name <> "tls_versions" -> name <> "tls_cipher_suites" ->
                  s' !! name = s !! name).
Proof.
  intros Htls Hh Ha Hv Hc.
  exists (snd (_analyze_tls_layer p s)),
    (match tls.handshake_version l with
     | Some v => if field_is (tls.handshake_type l) "2"
                 then od_set (KStr v) (default 0 (od_get (KStr v) versions) + 1) versions
                 else versions
     | None => versions
     end),
    (match tls.handshake_ciphersuite l with
     | Some c => if field_is (tls.handshake_type l) "2"
                 then od_set (KStr c) (default 0 (od_get (KStr c) suites) + 1) suites
                 else suites
     | None => suites
     end).
  assert (Hex : field_is (tls.record_content_type l) "22" = true ->
                field_is (tls.record_content_type l) "21" = false).
  { destruct (tls.record_content_type l) as [ct|]; [|done]. simpl.
    intros ->%String.eqb_eq. done. }
  enough (Hwp : exists s', _analyze_tls_layer p s = (Ret tt, s') /\
    (s' !! "tls_handshakes" =
       Some (VNum (NInt (if field_is (tls.record_content_type l) "22" then h + 1 else h))) /\
     s' !! "tls_alerts" =
       Some (VNum (NInt (if field_is (tls.record_content_type l) "21" then a + 1 else a))) /\
     s' !! "tls_versions" = Some (VDict true (counts_of
       (match tls.handshake_version l with
        | Some v => if field_is (tls.handshake_type l) "2"
                    then od_set (KStr v) (default 0 (od_get (KStr v) versions) + 1) versions
                    else versions
        | None => versions
        end))) /\
     s' !! "tls_cipher_suites" = Some (VDict true (counts_of
       (match tls.handshake_ciphersuite l with
        | Some c => if field_is (tls.handshake_type l) "2"
                    then od_set (KStr c) (default 0 (od_get (KStr c) suites) + 1) suites
                    else suites
        | None => suites
        end))) /\
     (forall name, name <> "tls_handshakes" -> name <> "tls_alerts" ->
                   name <> "tls_versions" -> name <> "tls_cipher_suites" ->
                   s' !! name = s !! name))).
  { destruct Hwp as (s' & Hrun & H1 & H2 & H3 & H4 & H5). rewrite Hrun. simpl.
    split; [done|]. split; [exact H1|]. split; [exact H2|].
    split.
    { destruct (field_is (tls.record_content_type l) "22") eqn:E22.
      - right. rewrite H2, (Hex eq_refl). done.
      - by left. }
    split; [exact H3|]. split; [exact H4|]. split; [|split; [|exact H5]].
    - destruct (tls.handshake_version l); [|done].
      destruct (field_is (tls.handshake_type l) "2"); [apply tallied_set | done].
    - destruct (tls.handshake_ciphersuite l); [|done].
      destruct (field_is (tls.handshake_type l) "2"); [apply tallied_set | done]. }
  clear Hex. apply wp_returns.
  unfold _analyze_tls_layer. apply wp_except_AttributeError.
  apply wp_bind. eapply wp_attr; [exact Htls|].
  destruct (tls.handshake_version l) as [v|]; destruct (tls.handshake_ciphersuite l) as [c|];
    cbn [hasattr]; repeat wp_step;
    (split; [lookup_solve | split; [lookup_solve | split; [lookup_solve |
       split; [lookup_solve | frame_solve]]]]).
Qed.

Lemma analyze_tls_layer_effect_witness :
  let l := {| tls.record_content_type := Some "22"; tls.handshake_type := Some "2";
              tls.handshake_version := Some "0x0303"; tls.handshake_ciphersuite := None |} in
  let p := {| pkt.sniff_timestamp := None; pkt.length := None;
              pkt.transport_layer := None; pkt.highest_layer := None;
              pkt.ip := None; pkt.tcp := None; pkt.udp := None; pkt.http := None;
              pkt.tls := Some l; pkt.dns := None; pkt.dhcp := None; pkt.bootp := false |} in
  (initialize_stats fzero !! "tls_handshakes" = Some (VNum (NInt 0)) /\
   initialize_stats fzero !! "tls_alerts" = Some (VNum (NInt 0)) /\
   initialize_stats fzero !! "tls_versions" = Some (VDict true (counts_of [])) /\
   initialize_stats fzero !! "tls_cipher_suites" = Some (VDict true (counts_of []))) /\
  exists s' versions',
    _analyze_tls_layer p (initialize_stats fzero) = (Ret tt, s') /\
    s' !! "tls_handshakes" = Some (VNum (NInt (0 + 1))) /\
    s' !! "tls_alerts" = Some (VNum (NInt 0)) /\
    s' !! "tls_versions" = Some (VDict true (counts_of versions')) /\
    tallied (KStr "0x0303") [] versions'.
Proof.
  intros l p.
  assert (H1 : initialize_stats fzero !! "tls_handshakes" = Some (VNum (NInt 0)))
    by (vm_compute; reflexivity).
  assert (H2 : initialize_stats fzero !! "tls_alerts" = Some (VNum (NInt 0)))
    by (vm_compute; reflexivity).
  assert (H3 : initialize_stats fzero !! "tls_versions" = Some (VDict true (counts_of [])))
    by (vm_compute; reflexivity).
  assert (H4 : initialize_stats fzero !! "tls_cipher_suites" = Some (VDict true (counts_of [])))
    by (vm_compute; reflexivity).
  split; [by repeat split|].
  destruct (analyze_tls_layer_effect (initialize_stats fzero) p l 0 0 [] []
              eq_refl H1 H2 H3 H4)
    as (s' & versions' & _ & Hrun & Hh & Ha & _ & Hv & _ & Ht & _).
  exists s', versions'.
  exact (conj Hrun (conj Hh (conj Ha (conj Hv Ht)))).
Defined.

Ltac eqb_literals :=
  repeat match goal with
  | |- context [String.eqb ?a ?b] =>
      let r := eval vm_compute in (String.eqb a b) in
      lazymatch r with
      | true => change (String.eqb a b) with true
      | false => change (String.eqb a b) with false
      end
  end; cbv iota.

(** X8.  [_analyze_dhcp_layer] on a message whose type can be read never
    raises and writes the DHCP entries only: message types 1, 2, 3, 5 and
    6 add one to [dhcp_discover], [dhcp_offer], [dhcp_request], [dhcp_ack]
    and [dhcp_nak] respectively, any other type adds nothing; an offer
    also tallies its sender in [dhcp_servers] when the record has an IP
    layer whose source can be read, and is counted as an offer even when
    it cannot. *)
Theorem analyze_dhcp_layer_effect (s : stats) (p : packet) (l : dhcp.layer)
    (type : string) (discover offer request ack nak : Z) (servers : list (key * Z)) :
  pkt.dhcp p = Some l ->
  dhcp.option_dhcp_message_type l = Some type ->
  s !! "dhcp_discover" = Some (VNum (NInt discover)) ->
  s !! "dhcp_offer" = Some (VNum (NInt offer)) ->
  s !! "dhcp_request" = Some (VNum (NInt request)) ->
  s !! "dhcp_ack" = Some (VNum (NInt ack)) ->
  s !! "dhcp_nak" = Some (VNum (NInt nak)) ->
  s !! "dhcp_servers" = Some (VDict true (counts_of servers)) ->
  let bump (code : string) (n : Z) := if String.eqb type code then n + 1 else n in
  exists s' servers',
    _analyze_dhcp_layer p s = (Ret tt, s') /\
    s' !! "dhcp_discover" = Some (VNum (NInt (bump "1" discover))) /\
    s' !! "dhcp_offer" = Some (VNum (NInt (bump "2" offer))) /\
    s' !! "dhcp_request" = Some (VNum (NInt (bump "3" request))) /\
    s' !! "dhcp_ack" = Some (VNum (NInt (bump "5" ack))) /\
    s' !! "dhcp_nak" = Some (VNum (NInt (bump "6" nak))) /\
    s' !! "dhcp_servers" = Some (VDict true (counts_of servers')) /\
    match pkt.ip p with
    | Some i =>
        match ip.src i with
        | Some src => if String.eqb type "2" then tallied (KStr src) servers servers'
                      else servers' = servers
        | None => servers' = servers
        end
    | None => servers' = servers
    end /\
    (forall name, name ∉ ["dhcp_discover"; "dhcp_offer"; "dhcp_request"; "dhcp_ack";
                          "dhcp_nak"; "dhcp_servers"] -> s' !! name = s !! name).
Proof.
  intros Hdhcp Htype H1 H2 H3 H5 H6 Hsrv bump. unfold bump. clear bump.
  exists (snd (_analyze_dhcp_layer p s)),
    (match pkt.ip p with
     | Some i =>
         match ip.src i with
         | Some src =>
             if String.eqb type "2"
             then od_set (KStr src) (default 0 (od_get (KStr src) servers) + 1) servers
             else servers
         | None => servers
         end
     | None => servers
     end).
  enough (Hwp : exists s', _analyze_dhcp_layer p s = (Ret tt, s') /\
    (s' !! "dhcp_discover" = Some (VNum (NInt (if String.eqb type "1" then discover + 1 else discover))) /\
     s' !! "dhcp_offer" = Some (VNum (NInt (if String.eqb type "2" then offer + 1 else offer))) /\
     s' !! "dhcp_request" = Some (VNum (NInt (if String.eqb type "3" then request + 1 else request))) /\
     s' !! "dhcp_ack" = Some (VNum (NInt (if String.eqb type "5" then ack + 1 else ack))) /\
     s' !! "dhcp_nak" = Some (VNum (NInt (if String.eqb type "6" then nak + 1 else nak))) /\
     s' !! "dhcp_servers" = Some (VDict true (counts_of
       (match pkt.ip p with
        | Some i =>
            match ip.src i with
            | Some src =>
                if String.eqb type "2"
                then od_set (KStr src) (default 0 (od_get (KStr src) servers) + 1) servers
                else servers
            | None => servers
            end
        | None => servers
        end))) /\
     (forall name, name <> "dhcp_discover" -> name <> "dhcp_offer" ->
                   name <> "dhcp_request" -> name <> "dhcp_ack" -> name <> "dhcp_nak" ->
                   name <> "dhcp_servers" -> s' !! name = s !! name))).
  { destruct Hwp as (s' & Hrun & G1 & G2 & G3 & G5 & G6 & Gs & Gf). rewrite Hrun. simpl.
    repeat (split; [done|]). split.
    - destruct (pkt.ip p) as [i|]; [|done]. destruct (ip.src i); [|done].
      destruct (String.eqb type "2"); [apply tallied_set | done].
    - intros name Hout. repeat (apply not_elem_of_cons in Hout as [? Hout]).
      by apply Gf. }
  apply wp_returns.
  unfold _analyze_dhcp_layer. apply wp_except_AttributeError.
  rewrite Hdhcp, Htype. cbn [hasattr]. apply wp_bind, wp_ret.
  destruct (String.eqb_spec type "1") as [->|N1].
  { eqb_literals. repeat wp_step.
    destruct (pkt.ip p) as [i|]; [destruct (ip.src i)|];
    (split; [lookup_solve | split; [lookup_solve | split; [lookup_solve |
       split; [lookup_solve | split; [lookup_solve | split; [lookup_solve | frame_solve]]]]]]). }
  destruct (String.eqb_spec type "2") as [->|N2].
  { eqb_literals. apply wp_bind. eapply wp_iadd; [lookup_solve|].
    destruct (pkt.ip p) as [i|]; cbn [hasattr].
    - apply wp_bind, wp_ret. apply wp_bind, wp_attr_cases.
      destruct (ip.src i) as [src|]; cbn [is_AttributeError].
      + eapply wp_tally; [lookup_solve|].
        (split; [lookup_solve | split; [lookup_solve | split; [lookup_solve |
           split; [lookup_solve | split; [lookup_solve | split; [lookup_solve | frame_solve]]]]]]).
      + (split; [lookup_solve | split; [lookup_solve | split; [lookup_solve |
           split; [lookup_solve | split; [lookup_solve | split; [lookup_solve | frame_solve]]]]]]).
    - apply wp_ret.
      (split; [lookup_solve | split; [lookup_solve | split; [lookup_solve |
         split; [lookup_solve | split; [lookup_solve | split; [lookup_solve | frame_solve]]]]]]). }
  destruct (String.eqb_spec type "3") as [->|N3].
  { eqb_literals. repeat wp_step.
    destruct (pkt.ip p) as [i|]; [destruct (ip.src i)|];
    (split; [lookup_solve | split; [lookup_solve | split; [lookup_solve |
       split; [lookup_solve | split; [lookup_solve | split; [lookup_solve | frame_solve]]]]]]). }
  destruct (String.eqb_spec type "5") as [->|N5].
  { eqb_literals. repeat wp_step.
    destruct (pkt.ip p) as [i|]; [destruct (ip.src i)|];
    (split; [lookup_solve | split; [lookup_solve | split; [lookup_solve |
       split; [lookup_solve | split; [lookup_solve | split; [lookup_solve | frame_solve]]]]]]). }
  destruct (String.eqb_spec type "6") as [->|N6].
  { eqb_literals. repeat wp_step.
    destruct (pkt.ip p) as [i|]; [destruct (ip.src i)|];
    (split; [lookup_solve | split; [lookup_solve | split; [lookup_solve |
       split; [lookup_solve | split; [lookup_solve | split; [lookup_solve | frame_solve]]]]]]). }
  apply wp_ret.
  destruct (pkt.ip p) as [i|]; [destruct (ip.src i)|];
  (split; [lookup_solve | split; [lookup_solve | split; [lookup_solve |
     split; [lookup_solve | split; [lookup_solve | split; [lookup_solve | frame_solve]]]]]]).
Qed.

Lemma analyze_dhcp_layer_effect_witness :
  let l := {| dhcp.option_dhcp_message_type := Some "2" |} in
  let p := {| pkt.sniff_timestamp := None; pkt.length := None;
              pkt.transport_layer := None; pkt.highest_layer := None;
              pkt.ip := Some addresses; pkt.tcp := None; pkt.udp := None; pkt.http := None;
              pkt.tls := None; pkt.dns := None; pkt.dhcp := Some l; pkt.bootp := true |} in
  (initialize_stats fzero !! "dhcp_discover" = Some (VNum (NInt 0)) /\
   initialize_stats fzero !! "dhcp_offer" = Some (VNum (NInt 0)) /\
   initialize_stats fzero !! "dhcp_request" = Some (VNum (NInt 0)) /\
   initialize_stats fzero !! "dhcp_ack" = Some (VNum (NInt 0)) /\
   initialize_stats fzero !! "dhcp_nak" = Some (VNum (NInt 0)) /\
   initialize_stats fzero !! "dhcp_servers" = Some (VDict true (counts_of []))) /\
  exists s' servers',
    _analyze_dhcp_layer p (initialize_stats fzero) = (Ret tt, s') /\
    s' !! "dhcp_offer" = Some (VNum (NInt (0 + 1))) /\
    s' !! "dhcp_discover" = Some (VNum (NInt 0)) /\
    s' !! "dhcp_servers" = Some (VDict true (counts_of servers')) /\
    tallied (KStr "10.0.0.1") [] servers'.
Proof.
  intros l p.
  assert (H1 : initialize_stats fzero !! "dhcp_discover" = Some (VNum (NInt 0)))
    by (vm_compute; reflexivity).
  assert (H2 : initialize_stats fzero !! "dhcp_offer" = Some (VNum (NInt 0)))
    by (vm_compute; reflexivity).
  assert (H3 : initialize_stats fzero !! "dhcp_request" = Some (VNum (NInt 0)))
    by (vm_compute; reflexivity).
  assert (H5 : initialize_stats fzero !! "dhcp_ack" = Some (VNum (NInt 0)))
    by (vm_compute; reflexivity).
  assert (H6 : initialize_stats fzero !! "dhcp_nak" = Some (VNum (NInt 0)))
    by (vm_compute; reflexivity).
  assert (Hs : initialize_stats fzero !! "dhcp_servers" = Some (VDict true (counts_of [])))
    by (vm_compute; reflexivity).
  split; [by repeat split|].
  destruct (analyze_dhcp_layer_effect (initialize_stats fzero) p l "2" 0 0 0 0 0 []
              eq_refl eq_refl H1 H2 H3 H5 H6 Hs)
    as (s' & servers' & Hrun & Hd & Ho & _ & _ & _ & Hsrv & Ht & _).
  exists s', servers'.
  exact (conj Hrun (conj Ho (conj Hd (conj Hsrv Ht)))).
Defined.

(** ** Finalization makes the conversations serializable *)

Lemma od_set_str_keys {V} (name : string) (v : V) (d : odict V) :
  forallb is_str_key (od_keys d) = true ->
  forallb is_str_key (od_keys (od_set (KStr name) v d)) = true.
Proof.
  induction d as [|[k0 v0] d IH]; simpl; [done|].
  intros [H1 H2]%andb_prop. destruct (decide (KStr name = k0)); simpl.
  - by rewrite H1, H2.
  - by rewrite H1, IH.
Qed.

Lemma od_set_keys_elem {V} (k k' : key) (v : V) (d : odict V) :
  k' ∈ od_keys (od_set k v d) <-> k' = k \/ k' ∈ od_keys d.
Proof.
  induction d as [|[k0 v0] d IH]; simpl.
  - rewrite list_elem_of_singleton. split; [by left | intros [?|H]; [done|]].
    by apply elem_of_nil in H.
  - destruct (decide (k = k0)) as [->|Hne]; simpl.
    + rewrite !elem_of_cons. tauto.
    + rewrite !elem_of_cons, IH. tauto.
Qed.

Lemma od_set_elem {V} (k k' : key) (v v' : V) (d : odict V) :
  (k', v') ∈ od_set k v d -> (k' = k /\ v' = v) \/ (k', v') ∈ d.
Proof.
  induction d as [|[k0 v0] d IH]; simpl.
  - intros [= -> ->]%list_elem_of_singleton. by left.
  - destruct (decide (k = k0)) as [->|Hne].
    + intros [[= -> ->]|H]%elem_of_cons; [by left|]. right. by apply list_elem_of_further.
    + intros [[= -> ->]|H]%elem_of_cons; [right; apply list_elem_of_here|].
      destruct (IH H) as [?|?]; [by left|]. right. by apply list_elem_of_further.
Qed.

Lemma cleaned_key_str (k : key) : is_str_key (cleaned_key k) = true.
Proof. by destruct k. Qed.

(** What the loop of [_cleanup_stats] builds: string keys only, one for
    each key of the old dictionary, each with a count that was stored
    under a key of that form. *)
Lemma cleanup_fold_keys (d acc : odict num) :
  forallb is_str_key (od_keys acc) = true ->
  let d' := fold_left cleanup_step d acc in
  forallb is_str_key (od_keys d') = true /\
  (forall k, k ∈ od_keys d' <->
             k ∈ od_keys acc \/ exists k0, k0 ∈ od_keys d /\ k = cleaned_key k0) /\
  (forall k n, (k, n) ∈ d' ->
               (k, n) ∈ acc \/ exists k0, (k0, n) ∈ d /\ k = cleaned_key k0).
Proof.
  revert acc. induction d as [|[k0 n0] d IH]; intros acc Hacc; simpl.
  - split; [done|]. split.
    + intros k. split; [by left | intros [?|(k0 & H & _)]; [done|]].
      by apply elem_of_nil in H.
    + intros k n H. by left.
  - rewrite cleanup_step_set.
    destruct (IH (od_set (cleaned_key k0) n0 acc)) as (H1 & H2 & H3).
    { destruct k0; simpl; by apply od_set_str_keys. }
    split; [exact H1|]. split.
    + intros k. rewrite H2, od_set_keys_elem. split.
      * intros [[->|H]|(k1 & Hk1 & ->)].
        -- right. exists k0. split; [apply list_elem_of_here | done].
        -- by left.
        -- right. exists k1. split; [by apply list_elem_of_further | done].
      * intros [H|(k1 & [->|Hk1]%elem_of_cons & ->)].
        -- left. by right.
        -- left. by left.
        -- right. by exists k1.
    + intros k n H. destruct (H3 k n H) as [Hin|(k1 & Hk1 & ->)].
      * destruct (od_set_elem _ _ _ _ _ Hin) as [[-> ->]|?]; [|by left].
        right. exists k0. split; [apply list_elem_of_here | done].
      * right. exists k1. split; [by apply list_elem_of_further | done].
Qed.

Lemma serializable_str_keys dflt (d : odict num) :
  forallb is_str_key (od_keys d) = true ->
  serializable (to_json (VDict dflt d)) = true.
Proof.
  simpl. induction d as [|[k n] d IH]; simpl; [done|].
  intros [H1 H2]%andb_prop. by rewrite H1, IH.
Qed.

(** X9.  [_cleanup_stats] on statistics whose [conversations] entry is a
    dictionary returns normally, removes [prev_udp_time], and leaves every
    entry other than these two as it was.  The new [conversations] entry is
    a plain dictionary that [json.dump] accepts: its keys are strings, they
    are exactly the joined forms of the old keys, and every count in it
    was stored under a key of that form.  This holds whether or not two
    keys join to the same text. *)
Theorem cleanup_stats_serializable (s : stats) (dflt : bool) (d : odict num) :
  s !! "conversations" = Some (VDict dflt d) ->
  exists s' d',
    _cleanup_stats s = (Ret tt, s') /\
    s' !! "prev_udp_time" = None /\
    s' !! "conversations" = Some (VDict false d') /\
    serializable (to_json (VDict false d')) = true /\
    (forall k, k ∈ od_keys d' <-> exists k0, k0 ∈ od_keys d /\ k = cleaned_key k0) /\
    (forall k n, (k, n) ∈ d' -> exists k0, (k0, n) ∈ d /\ k = cleaned_key k0) /\
    (forall name, name <> "prev_udp_time" -> name <> "conversations" ->
                  s' !! name = s !! name).
Proof.
  intros Hc.
  destruct (cleanup_stats_run s dflt d Hc) as (s' & Hrun & Hprev & Hconv & Hframe).
  destruct (cleanup_fold_keys d [] eq_refl) as (H1 & H2 & H3).
  exists s', (fold_left cleanup_step d []).
  split; [exact Hrun|]. split; [exact Hprev|]. split; [exact Hconv|].
  split; [by apply serializable_str_keys|]. split; [|split; [|exact Hframe]].
  - intros k. rewrite H2. split; [intros [H|H]; [by apply elem_of_nil in H | done] | by right].
  - intros k n H. destruct (H3 k n H) as [Hin|?]; [by apply elem_of_nil in Hin | done].
Qed.

Lemma cleanup_stats_serializable_witness :
  let s : stats := {[ "conversations" := VDict true clashing_conversations ]} in
  s !! "conversations" = Some (VDict true clashing_conversations) /\
  exists s' d',
    _cleanup_stats s = (Ret tt, s') /\
    s' !! "conversations" = Some (VDict false d') /\
    serializable (to_json (VDict false d')) = true.
Proof.
  intros s.
  assert (Hs : s !! "conversations" = Some (VDict true clashing_conversations))
    by apply lookup_singleton_eq.
  split; [exact Hs|].
  destruct (cleanup_stats_serializable s true clashing_conversations Hs)
    as (s' & d' & Hrun & _ & Hc & Hser & _).
  exists s', d'. exact (conj Hrun (conj Hc Hser)).
Defined.

Lemma od_set_NoDup {V} (k : key) (v : V) (d : odict V) :
  NoDup (od_keys d) -> NoDup (od_keys (od_set k v d)).
Proof.
  induction d as [|[k0 v0] d IH]; simpl.
  - intros _. apply NoDup_singleton.
  - rewrite !NoDup_cons. intros [Hk0 Hnd].
    destruct (decide (k = k0)) as [->|Hne]; simpl.
    + by rewrite NoDup_cons.
    + rewrite NoDup_cons. split; [|by apply IH].
      rewrite od_set_keys_elem. intros [?|?]; [congruence | done].
Qed.

Lemma cleanup_fold_NoDup (d acc : odict num) :
  NoDup (od_keys acc) -> NoDup (od_keys (fold_left cleanup_step d acc)).
Proof.
  revert acc. induction d as [|[k0 n0] d IH]; intros acc Hacc; simpl; [done|].
  apply IH. rewrite cleanup_step_set. by apply od_set_NoDup.
Qed.

Lemma cleaned_key_id (k : key) : is_str_key k = true -> cleaned_key k = k.
Proof. by destruct k. Qed.

Lemma map_cleaned_id (d : odict num) :
  forallb is_str_key (od_keys d) = true ->
  map (fun kv => (cleaned_key (fst kv), snd kv)) d = d.
Proof.
  induction d as [|[k n] d IH]; simpl; [done|].
  intros [H1 H2]%andb_prop. by rewrite (cleaned_key_id k H1), IH.
Qed.

(** X10.  Finalizing twice is the same as finalizing once: a second
    [_cleanup_stats] returns and changes nothing. *)
Theorem cleanup_stats_idempotent (s : stats) (dflt : bool) (d : odict num) :
  s !! "conversations" = Some (VDict dflt d) ->
  exists s', _cleanup_stats s = (Ret tt, s') /\ _cleanup_stats s' = (Ret tt, s').
Proof.
  intros Hc.
  destruct (cleanup_stats_run s dflt d Hc) as (s' & Hrun & Hprev & Hconv & Hframe).
  exists s'. split; [exact Hrun|].
  destruct (cleanup_stats_run s' false _ Hconv) as (s'' & Hrun' & Hprev' & Hconv' & Hframe').
  rewrite Hrun'. f_equal. apply map_eq. intros name.
  destruct (decide (name = "prev_udp_time")) as [->|H1]; [by rewrite Hprev, Hprev'|].
  destruct (decide (name = "conversations")) as [->|H2]; [|by apply Hframe'].
  rewrite Hconv', Hconv. do 2 f_equal.
  destruct (cleanup_fold_keys d [] eq_refl) as (Hstr & _ & _).
  rewrite cleanup_fold.
  - by rewrite map_cleaned_id.
  - apply cleanup_fold_NoDup. constructor.
  - intros k1 k2 Hk1 Hk2.
    rewrite !cleaned_key_id; [done | |].
    + rewrite forallb_forall in Hstr. apply Hstr. by apply list_elem_of_In.
    + rewrite forallb_forall in Hstr. apply Hstr. by apply list_elem_of_In.
  - done.
Qed.

Lemma cleanup_stats_idempotent_witness :
  let s := initialize_stats fzero in
  s !! "conversations" = Some (VDict true []) /\
  exists s', _cleanup_stats s = (Ret tt, s') /\ _cleanup_stats s' = (Ret tt, s').
Proof.
  intros s.
  assert (Hs : s !! "conversations" = Some (VDict true [])) by (vm_compute; reflexivity).
  split; [exact Hs|]. exact (cleanup_stats_idempotent s true [] Hs).
Defined.

(** ** The time range *)

(** Once the time stamp of a record has been read, the two bounds are
    updated, whatever happens to the record afterwards. *)
Lemma count_packet_times (s : stats) (p : packet) (t : float64) (first last : num) :
  well_formed s ->
  pkt.sniff_timestamp p = Some (Parsed t) ->
  s !! "start_timestamp" = Some (VNum first) ->
  s !! "end_timestamp" = Some (VNum last) ->
  let timed (s' : stats) :=
    well_formed s' /\
    s' !! "start_timestamp" = Some (VNum (py_min first (NFloat t))) /\
    s' !! "end_timestamp" = Some (VNum (py_max last (NFloat t))) in
  wp (count_packet p) (fun _ s' => timed s') (fun _ s' => timed s') s.
Proof.
  intros Hwf Hts Hfirst Hlast timed. unfold count_packet.
  apply wp_bind.
  eapply (triple_wp ["packet_count"] no_exn _ _ _ s s);
    [apply triple_iadd; [in_keys | reflexivity] | by apply inv_refl
    | | intros; discriminate].
  intros _ s1 [Hwf1 Hun1].
  apply wp_bind, wp_convert. rewrite Hts.
  apply wp_bind. eapply wp_getitem.
  { rewrite (Hun1 "start_timestamp") by not_in_keys. exact Hfirst. }
  apply wp_bind, wp_lift. simpl. apply wp_bind, wp_setitem.
  apply wp_bind. eapply wp_getitem.
  { rewrite lookup_insert_ne by discriminate.
    rewrite (Hun1 "end_timestamp") by not_in_keys. exact Hlast. }
  apply wp_bind, wp_lift. simpl. apply wp_bind, wp_setitem.
  set (s3 := <["end_timestamp" := _]> (<["start_timestamp" := _]> s1)).
  assert (Hwf3 : well_formed s3).
  { eapply well_formed_insert; [|reflexivity|reflexivity].
    eapply well_formed_insert; [exact Hwf1|reflexivity|reflexivity]. }
  assert (Hs3 : s3 !! "start_timestamp" = Some (VNum (py_min first (NFloat t))) /\
                s3 !! "end_timestamp" = Some (VNum (py_max last (NFloat t)))).
  { unfold s3. split; [|apply lookup_insert_eq].
    rewrite lookup_insert_ne by discriminate. apply lookup_insert_eq. }
  clearbody s3. destruct Hs3 as [Hs He].
  eapply (triple_wp ["total_bytes"; "throughput_samples"] Attribute_or_Value _ _ _ s3 s3);
    [triple_auto | by apply inv_refl | |].
  - intros r s' [Hwf' Hun']. split; [done|].
    rewrite (Hun' "start_timestamp"), (Hun' "end_timestamp") by not_in_keys. done.
  - intros e s' _ [Hwf' Hun']. split; [done|].
    rewrite (Hun' "start_timestamp"), (Hun' "end_timestamp") by not_in_keys. done.
Qed.

(** X11.  Every record whose time stamp parses extends the time range,
    also one that is counted as malformed afterwards: [start_timestamp]
    becomes the minimum of its old value and the time, [end_timestamp] the
    maximum of its old value and the time, as [min] and [max] compute
    them (with a NaN time both keep their old value). *)
Theorem update_stats_time_range (s : stats) (p : packet) (t : float64) (first last : num) :
  well_formed s ->
  pkt.sniff_timestamp p = Some (Parsed t) ->
  s !! "start_timestamp" = Some (VNum first) ->
  s !! "end_timestamp" = Some (VNum last) ->
  exists s',
    update_stats p s = (Ret tt, s') /\
    s' !! "start_timestamp" = Some (VNum (py_min first (NFloat t))) /\
    s' !! "end_timestamp" = Some (VNum (py_max last (NFloat t))) /\
    (t = S754_nan ->
     s' !! "start_timestamp" = Some (VNum first) /\ s' !! "end_timestamp" = Some (VNum last)).
Proof.
  intros Hwf Hts Hfirst Hlast.
  enough (Hwp : exists s', update_stats p s = (Ret tt, s') /\
            (s' !! "start_timestamp" = Some (VNum (py_min first (NFloat t))) /\
             s' !! "end_timestamp" = Some (VNum (py_max last (NFloat t))))).
  { destruct Hwp as (s' & Hrun & Hs & He). exists s'.
    split; [exact Hrun|]. split; [exact Hs|]. split; [exact He|].
    intros ->. rewrite Hs, He. split; do 2 f_equal.
    - unfold py_min. by destruct first as [z|[[]|[]| |[] m e]].
    - unfold py_max. by destruct last as [z|[[]|[]| |[] m e]]. }
  apply wp_returns. unfold update_stats. apply wp_try.
  unfold update_stats_rules. apply wp_bind.
  eapply wp_mono; [| | exact (count_packet_times s p t first last Hwf Hts Hfirst Hlast)];
    cbv beta.
  - intros r s1 (Hwf1 & Hs1 & He1). apply wp_bind.
    eapply (triple_wp ["protocols"] no_exn _ _ _ s1 s1);
      [apply triple_tally; [in_keys | reflexivity] | by apply inv_refl
      | | intros; discriminate].
    intros _ s2 [Hwf2 Hun2].
    eapply (triple_wp layer_keys no_exn _ _ _ s2 s2);
      [apply triple_analyze_layers | by apply inv_refl | | intros; discriminate].
    intros _ s3 [Hwf3 Hun3].
    rewrite (Hun3 "start_timestamp"), (Hun3 "end_timestamp") by not_in_keys.
    rewrite (Hun2 "start_timestamp"), (Hun2 "end_timestamp") by not_in_keys. done.
  - intros e s1 (Hwf1 & Hs1 & He1). cbn [Exception].
    eapply (triple_wp ["malformed_packets"] no_exn _ _ _ s1 s1);
      [apply triple_iadd; [in_keys | reflexivity] | by apply inv_refl
      | | intros; discriminate].
    intros _ s2 [Hwf2 Hun2].
    rewrite (Hun2 "start_timestamp"), (Hun2 "end_timestamp") by not_in_keys. done.
Qed.

Lemma update_stats_time_range_witness :
  (well_formed (initialize_stats fzero) /\
   pkt.sniff_timestamp (datagram (f64 1.5)) = Some (Parsed (f64 1.5)) /\
   initialize_stats fzero !! "start_timestamp" = Some (VNum (NFloat finf)) /\
   initialize_stats fzero !! "end_timestamp" = Some (VNum (NInt 0))) /\
  exists s',
    update_stats (datagram (f64 1.5)) (initialize_stats fzero) = (Ret tt, s') /\
    s' !! "start_timestamp" = Some (VNum (NFloat (f64 1.5))) /\
    s' !! "end_timestamp" = Some (VNum (NFloat (f64 1.5))).
Proof.
  assert (H1 : initialize_stats fzero !! "start_timestamp" = Some (VNum (NFloat finf)))
    by (vm_compute; reflexivity).
  assert (H2 : initialize_stats fzero !! "end_timestamp" = Some (VNum (NInt 0)))
    by (vm_compute; reflexivity).
  split; [split; [apply well_formed_initialize_stats | by repeat split]|].
  destruct (update_stats_time_range (initialize_stats fzero) (datagram (f64 1.5)) (f64 1.5)
              (NFloat finf) (NInt 0) (well_formed_initialize_stats fzero) eq_refl H1 H2)
    as (s' & Hrun & Hs & He & _).
  exists s'. exact (conj Hrun (conj Hs He)).
Defined.

(** ** Entries no record ever changes *)

Lemma triple_weaken {A} (K K' : list string) (X X' : exn -> bool) (m : M stats A) :
  K ⊆ K' -> (forall e, X e = true -> X' e = true) ->
  triple K X m -> triple K' X' m.
Proof.
  intros Hsub HX Hm s0 s [Hwf Hun].
  eapply wp_mono; [| | exact (Hm s s (inv_refl K s Hwf))]; simpl.
  - intros a s' [Hwf' Hun']. split; [done|].
    eapply unchanged_outside_trans; [exact Hun|]. by eapply unchanged_outside_weaken.
  - intros e s' [He [Hwf' Hun']]. split; [by apply HX|]. split; [done|].
    eapply unchanged_outside_trans; [exact Hun|]. by eapply unchanged_outside_weaken.
Qed.

Ltac sub_keys :=
  let x := fresh in let Hx := fresh in
  intros x Hx;
  repeat (apply elem_of_cons in Hx as [->|Hx]; [in_keys|]);
  by apply elem_of_nil in Hx.

Lemma triple_update_stats (p : packet) : triple written_keys no_exn (update_stats p).
Proof.
  unfold update_stats. eapply (triple_try _ Attribute_or_Value).
  - unfold update_stats_rules. apply triple_bind.
    + eapply triple_weaken; [| |apply triple_count_packet]; [sub_keys | done].
    + intros r. apply triple_bind.
      * apply triple_tally; [in_keys | reflexivity].
      * intros _. eapply triple_weaken; [| |apply triple_analyze_layers];
          [sub_keys | done].
  - intros e _. cbn [Exception]. apply triple_iadd; [in_keys | reflexivity].
Qed.

Lemma triple_process (all_packets : list packet) :
  triple written_keys no_exn (process all_packets).
Proof.
  induction all_packets as [|p rest IH]; simpl; [apply triple_ret|].
  apply triple_bind; [apply triple_update_stats | intros _; exact IH].
Qed.

(** X12.  No record, readable or not, changes [start_time],
    [expired_certs] or [self_signed_certs]: in the result of an analysis
    the two certificate lists are empty and [start_time] is the clock
    reading taken when the statistics were initialised. *)
Theorem analyze_packets_untouched (now : float64) (all_packets : list packet) :
  exists s',
    analyze_packets now all_packets = (Ret tt, s') /\
    s' !! "start_time" = Some (VNum (NFloat now)) /\
    s' !! "expired_certs" = Some (VList []) /\
    s' !! "self_signed_certs" = Some (VList []).
Proof.
  assert (Hwp : wp (process all_packets)
            (fun _ s1 => inv written_keys (initialize_stats now) s1)
            (fun _ _ => False) (initialize_stats now)).
  { eapply (triple_wp written_keys no_exn);
      [apply triple_process | apply inv_refl, well_formed_initialize_stats
      | by intros | intros; discriminate]. }
  destruct (wp_total _ _ _ Hwp) as ([] & s1 & Hrun & Hwf1 & Hun1).
  destruct (Hwf1 "conversations" TCounts eq_refl) as ([?|?|[] c] & Hc & Hct);
    try discriminate Hct.
  destruct (cleanup_stats_run s1 true c Hc) as (s' & Hclean & _ & _ & Hkeep).
  exists s'. unfold analyze_packets, bind. rewrite Hrun.
  split; [exact Hclean|].
  rewrite !Hkeep by discriminate.
  rewrite !Hun1 by (unfold written_keys; not_in_keys).
  repeat split; vm_compute; reflexivity.
Qed.

(** ** DNS tallies *)

(** X13.  What [_analyze_dns_layer] tallies for a message whose
    [flags_response] can be read: [dns_issues] grows by one exactly when
    the message is a query ("0") without a [response_time]; a message with
    a query name is tallied under that name in [dns_queries], and under its
    query type in [dns_record_types] when the type can be read too.  It
    never raises, and writes the five DNS entries only. *)
Theorem analyze_dns_layer_tallies (s : stats) (p : packet) (t : float64) (l : dns.layer)
    (response : string) (issues : Z) (queries types : list (key * Z)) :
  well_formed s ->
  pkt.dns p = Some l ->
  dns.flags_response l = Some response ->
  s !! "dns_issues" = Some (VNum (NInt issues)) ->
  s !! "dns_queries" = Some (VDict true (counts_of queries)) ->
  s !! "dns_record_types" = Some (VDict true (counts_of types)) ->
  exists s' queries' types',
    _analyze_dns_layer p t s = (Ret tt, s') /\
    s' !! "dns_issues" =
      Some (VNum (NInt (if String.eqb response "0" && negb (hasattr (dns.response_time l))
                        then issues + 1 else issues))) /\
    s' !! "dns_queries" = Some (VDict true (counts_of queries')) /\
    s' !! "dns_record_types" = Some (VDict true (counts_of types')) /\
    match dns.qry_name l with
    | Some name =>
        tallied (KStr name) queries queries' /\
        match dns.qry_type l with
        | Some type => tallied (KStr type) types types'
        | None => types' = types
        end
    | None => queries' = queries /\ types' = types
    end /\
    (forall name, name ∉ ["dns_issues"; "dns_queries"; "dns_record_types";
                          "pending_dns_queries"; "dns_response_times"] ->
                  s' !! name = s !! name).
Proof.
  intros Hwf Hdns Hresp Hi Hq Ht.
  exists (snd (_analyze_dns_layer p t s)),
    (match dns.qry_name l with
     | Some name => od_set (KStr name) (default 0 (od_get (KStr name) queries) + 1) queries
     | None => queries
     end),
    (match dns.qry_name l, dns.qry_type l with
     | Some _, Some type => od_set (KStr type) (default 0 (od_get (KStr type) types) + 1) types
     | _, _ => types
     end).
  enough (Hwp : exists s', _analyze_dns_layer p t s = (Ret tt, s') /\
    (s' !! "dns_issues" =
       Some (VNum (NInt (if String.eqb response "0" && negb (hasattr (dns.response_time l))
                         then issues + 1 else issues))) /\
     s' !! "dns_queries" = Some (VDict true (counts_of
       (match dns.qry_name l with
        | Some name => od_set (KStr name) (default 0 (od_get (KStr name) queries) + 1) queries
        | None => queries
        end))) /\
     s' !! "dns_record_types" = Some (VDict true (counts_of
       (match dns.qry_name l, dns.qry_type l with
        | Some _, Some type =>
            od_set (KStr type) (default 0 (od_get (KStr type) types) + 1) types
        | _, _ => types
        end))) /\
     (forall name, name <> "dns_issues" -> name <> "dns_queries" ->
                   name <> "dns_record_types" -> name <> "pending_dns_queries" ->
                   name <> "dns_response_times" -> s' !! name = s !! name))).
  { destruct Hwp as (s' & Hrun & H1 & H2 & H3 & H4). rewrite Hrun. simpl.
    repeat (split; [done|]). split.
    - destruct (dns.qry_name l) as [name|]; [|done].
      split; [apply tallied_set|]. destruct (dns.qry_type l); [apply tallied_set | done].
    - intros name Hout. repeat (apply not_elem_of_cons in Hout as [? Hout]).
      by apply H4. }
  apply wp_returns. unfold _analyze_dns_layer. apply wp_except_AttributeError.
  apply wp_bind. eapply wp_attr; [exact Hdns|].
  apply wp_bind. eapply wp_attr; [exact Hresp|].
  (* the timing of queries and responses keeps the tallies *)
  assert (Hrest : forall s1 : stats, well_formed s1 ->
    forall (P : stats -> Prop),
      (forall s2, (forall name, name <> "pending_dns_queries" ->
                     name <> "dns_response_times" -> s2 !! name = s1 !! name) -> P s2) ->
      wp (response0 <- attr (dns.flags_response l) ;;
          if String.eqb response0 "0" then
            query_id <- attr (dns.id l) ;;
            pending <- getitem "pending_dns_queries" ;;
            pending' <- lift (py_setitem pending (KStr query_id) (NFloat t)) ;;
            setitem "pending_dns_queries" pending'
          else if String.eqb response0 "1" then
            query_id <- attr (dns.id l) ;;
            pending <- getitem "pending_dns_queries" ;;
            waiting <- lift (py_contains pending (KStr query_id)) ;;
            if waiting then
              popped <- lift (py_pop pending (KStr query_id)) ;;
              setitem "pending_dns_queries" (snd popped) ;;
              response_time <- lift (num_sub (NFloat t) (fst popped)) ;;
              append "dns_response_times" (ENum response_time)
            else ret tt
          else ret tt)
         (fun _ s2 => P s2)
         (fun e s2 => if is_AttributeError e then P s2 else False) s1).
  { intros s1 Hwf1 P HP.
    eapply (triple_wp ["pending_dns_queries"; "dns_response_times"] is_AttributeError
              _ _ _ s1 s1); [| by apply inv_refl | |].
    - apply triple_bind; [apply triple_attr; reflexivity | intros response0].
      destruct (String.eqb response0 "0").
      + apply triple_bind; [apply triple_attr; reflexivity | intros qid].
        eapply triple_getitem_bind; [reflexivity|].
        intros [n|l0|b d] Hv; try discriminate Hv. simpl in Hv.
        apply triple_lift_bind; simpl.
        eapply triple_setitem; [in_keys | reflexivity |].
        simpl. by apply floats_set.
      + destruct (String.eqb response0 "1"); [|apply triple_ret].
        apply triple_bind; [apply triple_attr; reflexivity | intros qid].
        eapply triple_getitem_bind; [reflexivity|].
        intros [n|l0|b d] Hv; try discriminate Hv. simpl in Hv.
        apply triple_lift_bind; simpl.
        destruct (od_get (KStr qid) d) as [t0|] eqn:Hget.
        * rewrite bool_decide_true by eauto.
          apply triple_lift_bind; simpl.
          apply triple_bind.
          { eapply triple_setitem; [in_keys | reflexivity |].
            simpl. by apply floats_del. }
          intros _. destruct (floats_get _ _ _ Hv Hget) as [t1 ->].
          apply triple_lift_bind; simpl. triple_auto.
        * rewrite bool_decide_false by (intros [? ?]; done).
          apply triple_ret.
    - intros _ s2 [_ Hun]. apply HP. intros name H1 H2. apply Hun.
      intros Hin. apply elem_of_cons in Hin as [->|Hin]; [done|].
      apply elem_of_cons in Hin as [->|Hin]; [done|]. by apply elem_of_nil in Hin.
    - intros e s2 He [_ Hun]. rewrite He. apply HP. intros name H1 H2. apply Hun.
      intros Hin. apply elem_of_cons in Hin as [->|Hin]; [done|].
      apply elem_of_cons in Hin as [->|Hin]; [done|]. by apply elem_of_nil in Hin. }
  apply wp_bind.
  destruct (String.eqb response "0" && negb (hasattr (dns.response_time l))).
  - eapply wp_iadd; [exact Hi|].
    set (s1 := <["dns_issues" := _]> s).
    assert (Hwf1 : well_formed s1) by (by eapply well_formed_insert).
    subst s1. apply wp_bind.
    destruct (dns.qry_name l) as [name|]; cbn [hasattr].
    + apply wp_bind, wp_ret. apply wp_bind. eapply wp_tally; [lookup_solve|].
      apply wp_bind, wp_attr_cases.
      destruct (dns.qry_type l) as [type|]; cbn [is_AttributeError].
      * eapply wp_tally; [lookup_solve|].
        apply Hrest.
        { eapply well_formed_insert; [|reflexivity|reflexivity].
          eapply well_formed_insert; [exact Hwf1|reflexivity|reflexivity]. }
        intros s2 H2. rewrite !H2 by discriminate.
        split; [lookup_solve | split; [lookup_solve | split; [lookup_solve|]]].
        intros. rewrite H2 by done. by rewrite !lookup_insert_ne.
      * split; [lookup_solve | split; [lookup_solve | split; [lookup_solve | frame_solve]]].
    + apply wp_ret. apply Hrest; [exact Hwf1|].
      intros s2 H2. rewrite !H2 by discriminate.
      split; [lookup_solve | split; [lookup_solve | split; [lookup_solve|]]].
      intros. rewrite H2 by done. by rewrite !lookup_insert_ne.
  - apply wp_ret. apply wp_bind.
    destruct (dns.qry_name l) as [name|]; cbn [hasattr].
    + apply wp_bind, wp_ret. apply wp_bind. eapply wp_tally; [lookup_solve|].
      apply wp_bind, wp_attr_cases.
      destruct (dns.qry_type l) as [type|]; cbn [is_AttributeError].
      * eapply wp_tally; [lookup_solve|].
        apply Hrest.
        { eapply well_formed_insert; [|reflexivity|reflexivity].
          eapply well_formed_insert; [exact Hwf|reflexivity|reflexivity]. }
        intros s2 H2. rewrite !H2 by discriminate.
        split; [lookup_solve | split; [lookup_solve | split; [lookup_solve|]]].
        intros. rewrite H2 by done. by rewrite !lookup_insert_ne.
      * split; [lookup_solve | split; [lookup_solve | split; [lookup_solve | frame_solve]]].
    + apply wp_ret. apply Hrest; [exact Hwf|].
      intros s2 H2. rewrite !H2 by discriminate.
      split; [lookup_solve | split; [lookup_solve | split; [lookup_solve|]]].
      intros. by rewrite H2.
Qed.

Lemma analyze_dns_layer_tallies_witness :
  let p := dns_message "0" (f64 10.0) in
  (well_formed (initialize_stats fzero) /\
   initialize_stats fzero !! "dns_issues" = Some (VNum (NInt 0)) /\
   initialize_stats fzero !! "dns_queries" = Some (VDict true (counts_of [])) /\
   initialize_stats fzero !! "dns_record_types" = Some (VDict true (counts_of []))) /\
  exists s' queries',
    _analyze_dns_layer p (f64 10.0) (initialize_stats fzero) = (Ret tt, s') /\
    s' !! "dns_issues" = Some (VNum (NInt (0 + 1))) /\
    s' !! "dns_queries" = Some (VDict true (counts_of queries')) /\
    tallied (KStr "example.org") [] queries'.
Proof.
  intros p.
  assert (H1 : initialize_stats fzero !! "dns_issues" = Some (VNum (NInt 0)))
    by (vm_compute; reflexivity).
  assert (H2 : initialize_stats fzero !! "dns_queries" = Some (VDict true (counts_of [])))
    by (vm_compute; reflexivity).
  assert (H3 : initialize_stats fzero !! "dns_record_types" = Some (VDict true (counts_of [])))
    by (vm_compute; reflexivity).
  split; [split; [apply well_formed_initialize_stats | by repeat split]|].
  destruct (analyze_dns_layer_tallies (initialize_stats fzero) p (f64 10.0) _ "0" 0 [] []
              (well_formed_initialize_stats fzero) eq_refl eq_refl H1 H2 H3)
    as (s' & queries' & types' & Hrun & Hi & Hq & _ & Hm & _).
  exists s', queries'.
  exact (conj Hrun (conj Hi (conj Hq (proj1 Hm)))).
Defined.

(** ** The baseline store *)

Lemma load_baseline_table (self : BaselineManager) (env : faults) (files : fs) :
  load_baseline self env files =
    (match files !! baseline_path self with
     | None => Ret None
     | Some c =>
         if read_fails env then Raise BaselineError
         else match c with
              | Text j => Ret (Some j)
              | Partial _ | Garbage _ => Raise BaselineError
              | Undecodable _ => Raise UnicodeDecodeError
              | Overnested _ => Raise RecursionError
              end
     end, files).
Proof.
  unfold load_baseline, try_except, bind, exists_file, read_json, ret, raise.
  destruct (files !! baseline_path self) as [c|] eqn:Hc.
  - rewrite bool_decide_true by eauto.
    destruct (read_fails env); simpl; [done|].
    rewrite Hc. by destruct c.
  - by rewrite bool_decide_false by (intros [? ?]; done).
Qed.

Ltac outcome_cases :=
  repeat match goal with
         | |- _ /\ _ => split
         | |- _ <-> _ => split
         | |- forall _, _ => intro
         | H : _ /\ _ |- _ => destruct H
         | H : _ \/ _ |- _ => destruct H
         | H : exists _, _ |- _ => destruct H
         | H : is_Some None |- _ => destruct H
         end;
  try congruence; try discriminate.

(** X14.  [load_baseline] never writes.  A missing file is not an error:
    it gives [None].  A file that holds the text of a JSON value gives that
    value, unless the read fails.  The two classes the handler names never
    reach the caller: a read that raises [OSError] and a text that is not
    JSON end in [BaselineError], and nothing else does.  The handler names
    no other class: bytes that are not a text reach the caller as the
    [UnicodeDecodeError] of the read, and a text nested too deep as the
    [RecursionError] of the decoder. *)
Theorem load_baseline_outcome (self : BaselineManager) (env : faults) (files : fs) :
  exists r, load_baseline self env files = (r, files) /\
    (r = Ret None <-> files !! baseline_path self = None) /\
    (forall j, r = Ret (Some j) <->
               read_fails env = false /\ files !! baseline_path self = Some (Text j)) /\
    (forall e, r = Raise e -> e <> JSONDecodeError /\ e <> OSError) /\
    (r = Raise BaselineError <->
       is_Some (files !! baseline_path self) /\
       (read_fails env = true \/
        (exists j, files !! baseline_path self = Some (Partial j)) \/
        (exists s, files !! baseline_path self = Some (Garbage s)))) /\
    (r = Raise UnicodeDecodeError <->
       read_fails env = false /\
       exists b, files !! baseline_path self = Some (Undecodable b)) /\
    (r = Raise RecursionError <->
       read_fails env = false /\
       exists s, files !! baseline_path self = Some (Overnested s)).
Proof.
  rewrite load_baseline_table. eexists. split; [reflexivity|].
  destruct (files !! baseline_path self) as [[j|j|g|b|n]|];
    destruct (read_fails env); outcome_cases; eauto.
Qed.

(** X15.  What [save_baseline] has stored, [load_baseline] reads back:
    after a save that returned, a load whose read does not fail returns
    the saved record. *)
Theorem save_then_load (self : BaselineManager) (env env' : faults)
    (data : list (key * json)) (files files' : fs) :
  save_baseline self env data files = (Ret tt, files') ->
  read_fails env' = false ->
  load_baseline self env' files' = (Ret (Some (JDict data)), files').
Proof.
  intros Hsave Hread. apply save_baseline_done in Hsave.
  unfold load_baseline, try_except, bind, exists_file, read_json, ret.
  rewrite Hsave, Hread. rewrite bool_decide_true by eauto. by rewrite Hsave.
Qed.

Lemma save_then_load_witness :
  exists files',
    save_baseline default_manager no_faults [(KStr "workday", JDict [])] ∅ = (Ret tt, files') /\
    load_baseline default_manager no_faults files'
      = (Ret (Some (JDict [(KStr "workday", JDict [])])), files').
Proof.
  destruct (save_baseline default_manager no_faults [(KStr "workday", JDict [])] ∅)
    as [r files'] eqn:Hsave.
  assert (Hr : fst (save_baseline default_manager no_faults [(KStr "workday", JDict [])] ∅)
               = Ret tt) by (vm_compute; reflexivity).
  rewrite Hsave in Hr. simpl in Hr. subst r.
  exists files'. split; [reflexivity|].
  exact (save_then_load default_manager no_faults no_faults _ ∅ files' Hsave eq_refl).
Defined.

(** X16.  Whatever happens, and whichever file operation fails, the
    files [save_baseline] finds keep what they hold, the destination and
    the temporary file next to it apart.  After a save that returned no
    temporary file is left.  When the parent directory cannot be made, or
    the temporary file cannot be opened, every file keeps what it holds,
    the destination included.  The [OSError] of a file operation never
    reaches the caller as such: it is raised again as [BaselineError]. *)
Theorem save_baseline_footprint (self : BaselineManager) (env : faults)
    (data : list (key * json)) (files files' : fs) (r : outcome unit) (temp : path) :
  with_suffix (baseline_path self) ".tmp" = Ret temp ->
  save_baseline self env data files = (r, files') ->
  (forall p c, files !! p = Some c -> p <> temp -> p <> baseline_path self ->
               files' !! p = Some c) /\
  (r = Ret tt -> temp <> baseline_path self -> files' !! temp = None) /\
  (mkdir_fails env = true \/ open_fails env = true ->
   r = Raise BaselineError /\ forall p c, files !! p = Some c -> files' !! p = Some c) /\
  (forall e, r = Raise e -> e <> OSError).
Proof.
  intros Htemp.
  unfold save_baseline, try_except, bind, mkdir_parent, lift, write_json,
    replace_file, raise.
  rewrite Htemp.
  set (ok := serializable (JDict data)).
  destruct (mkdir_fails env); simpl.
  { intros [= <- <-]. repeat split; try done. by intros e [= <-]. }
  destruct (open_fails env); simpl.
  { intros [= <- <-]. repeat split; try done. by intros e [= <-]. }
  destruct (write_fails env); simpl.
  { intros [= <- <-]. split; [intros p c Hp H1 H2; by rewrite lookup_insert_ne|].
    split; [done|]. split; [by intros [[=]|[=]]|]. by intros e [= <-]. }
  destruct ok eqn:Hok; simpl.
  2:{ intros [= <- <-]. split; [intros p c Hp H1 H2; by rewrite lookup_insert_ne|].
      split; [done|]. split; [by intros [[=]|[=]]|]. by intros e [= <-]. }
  destruct (replace_fails env); simpl.
  { intros [= <- <-]. split; [intros p c Hp H1 H2; by rewrite lookup_insert_ne|].
    split; [done|]. split; [by intros [[=]|[=]]|]. by intros e [= <-]. }
  rewrite lookup_insert_eq. intros [= <- <-].
  split; [|split; [|split; [by intros [[=]|[=]] | done]]].
  - intros p c Hp H1 H2. rewrite lookup_insert_ne by done.
    rewrite lookup_delete_ne by done. by rewrite lookup_insert_ne.
  - intros _ Hne. rewrite lookup_insert_ne by done. apply lookup_delete_eq.
Qed.

Lemma save_baseline_footprint_witness :
  let other : path := ([], "notes.txt") in
  let files : fs := {[ other := Garbage "keep" ]} in
  with_suffix (baseline_path default_manager) ".tmp" = Ret ([], "network_baselines.tmp") /\
  snd (save_baseline default_manager disk_full [] files) !! other = Some (Garbage "keep").
Proof.
  intros other files.
  assert (Ht : with_suffix (baseline_path default_manager) ".tmp"
               = Ret ([], "network_baselines.tmp")) by (vm_compute; reflexivity).
  split; [exact Ht|].
  destruct (save_baseline default_manager disk_full [] files) as [r files'] eqn:Hsave.
  destruct (save_baseline_footprint default_manager disk_full [] files files' r _ Ht Hsave)
    as (Hkeep & _).
  apply Hkeep; [apply lookup_singleton_eq | discriminate | discriminate].
Defined.

(** ** The temporary path *)

Lemma append_cons (c : ascii) (a b : string) : String c a ++ b = String c (a ++ b).
Proof. reflexivity. Qed.

Lemma length_append (a b : string) :
  String.length (a ++ b) = (String.length a + String.length b)%nat.
Proof.
  induction a as [|c a IH]; [done|]. rewrite append_cons. simpl. by rewrite IH.
Qed.

Lemma substring_all (s : string) : substring 0 (String.length s) s = s.
Proof. induction s as [|c s IH]; simpl; [done|]. by rewrite IH. Qed.

Lemma substring_split (s : string) (i : nat) :
  (i <= String.length s)%nat ->
  substring 0 i s ++ substring i (String.length s - i) s = s.
Proof.
  revert i. induction s as [|c s IH]; intros i Hi; simpl in *.
  - destruct i; [done | lia].
  - destruct i as [|i]; simpl.
    + by rewrite substring_all.
    + rewrite append_cons. f_equal. apply IH. lia.
Qed.

Lemma substring_length (s : string) (i n : nat) :
  (i + n <= String.length s)%nat -> String.length (substring i n s) = n.
Proof.
  revert i n. induction s as [|c s IH]; intros i n H; simpl in *.
  - destruct i, n; simpl in *; try done; lia.
  - destruct i as [|i].
    + destruct n as [|n]; simpl; [done|]. f_equal. apply IH. lia.
    + apply IH. lia.
Qed.

Lemma rfind_dot_bound (name : string) (k j : nat) :
  rfind_dot name k = Some j -> (k <= j < k + String.length name)%nat.
Proof.
  revert k. induction name as [|c name IH]; intros k; simpl; [done|].
  destruct (rfind_dot name (S k)) as [j'|] eqn:E.
  - intros [= <-]. apply IH in E. lia.
  - destruct (Ascii.eqb c "."); [|done]. intros [= <-]. lia.
Qed.

(** A name with a suffix is its stem followed by the suffix. *)
Lemma suffix_split (name : string) :
  suffix name <> "" ->
  substring 0 (String.length name - String.length (suffix name)) name ++ suffix name = name.
Proof.
  unfold suffix. destruct (rfind_dot name 0) as [i|] eqn:E; [|done].
  destruct (Nat.ltb 0 i && Nat.ltb i (String.length name - 1)); [|done].
  intros _. apply rfind_dot_bound in E.
  rewrite substring_length by lia.
  replace (String.length name - (String.length name - i))%nat with i by lia.
  apply substring_split. lia.
Qed.

Lemma with_suffix_alias (p : path) :
  with_suffix p ".tmp" = Ret p -> suffix (snd p) = ".tmp".
Proof.
  destruct p as [dir name]. unfold with_suffix. simpl.
  destruct (String.eqb name ""); [done|].
  destruct (String.eqb_spec (suffix name) "") as [Hs|Hs].
  - intros [= H]. apply (f_equal String.length) in H.
    rewrite length_append in H. simpl in H. lia.
  - intros [= H]. pose proof (suffix_split name Hs) as Hsplit.
    symmetry. eapply String.app_inj. etrans; [exact H | symmetry; exact Hsplit].
Qed.

(** X17.  The temporary path [save_baseline] writes to is the destination
    itself exactly when the name of the baseline file ends in the suffix
    [.tmp]. *)
Theorem with_suffix_tmp_alias (p : path) :
  with_suffix p ".tmp" = Ret p <-> suffix (snd p) = ".tmp".
Proof.
  split; [apply with_suffix_alias|].
  destruct p as [dir name]. unfold with_suffix. simpl. intros Hs.
  destruct (String.eqb_spec name "") as [->|Hn]; [discriminate Hs|].
  assert (Hne : suffix name <> "") by (rewrite Hs; discriminate).
  pose proof (suffix_split name Hne) as Hsplit.
  rewrite Hs in *. simpl in *. by rewrite Hsplit.
Qed.

(** X18.  Unless the name of the baseline file ends in [.tmp], an update
    that fails, for whatever reason and at whatever step, leaves the
    stored baseline exactly as it was. *)
Theorem failed_update_keeps_baseline (self : BaselineManager) (weekday : Z) (env : faults)
    (stats : gmap string pyval) (files files' : fs) :
  suffix (snd (baseline_path self)) <> ".tmp" ->
  update_baseline self weekday env stats files = (Ret false, files') ->
  files' !! baseline_path self = files !! baseline_path self.
Proof.
  intros Hs. apply failed_update_keeps_file.
  intros H. by apply Hs, with_suffix_alias.
Qed.

Lemma failed_update_keeps_baseline_witness :
  let files : fs := {[ baseline_path default_manager := Text stored_record ]} in
  suffix (snd (baseline_path default_manager)) <> ".tmp" /\
  snd (update_baseline default_manager 0 disk_full sample_stats files)
    !! baseline_path default_manager = Some (Text stored_record).
Proof.
  intros files.
  assert (Hs : suffix (snd (baseline_path default_manager)) <> ".tmp")
    by (vm_compute; discriminate).
  split; [exact Hs|].
  destruct (update_baseline default_manager 0 disk_full sample_stats files)
    as [r files'] eqn:Hrun.
  assert (Hr : fst (update_baseline default_manager 0 disk_full sample_stats files)
               = Ret false) by (vm_compute; reflexivity).
  rewrite Hrun in Hr. simpl in Hr. subst r. cbn [snd].
  rewrite (failed_update_keeps_baseline default_manager 0 disk_full sample_stats
             files files' Hs Hrun).
  apply lookup_singleton_eq.
Defined.

(** ** Updates that write nothing *)

Lemma update_baseline_raise (self : BaselineManager) (weekday : Z) (env : faults)
    (stats : gmap string pyval) (files : fs) (e : exn) :
  update_baseline_steps self weekday env stats files = (Raise e, files) ->
  update_baseline self weekday env stats files = (Ret false, files).
Proof. intros H. unfold update_baseline, try_except. by rewrite H. Qed.

Lemma baseline_metrics_missing (stats : gmap string pyval) (name : string) :
  name ∈ ["retransmissions"; "packet_count"; "resets"; "tcp_syn_delays"; "udp_jitter";
          "http_errors"] ->
  stats !! name = None ->
  exists e, baseline_metrics stats = Raise e.
Proof.
  intros Hin Hnone. unfold baseline_metrics.
  repeat match goal with
  | |- exists e, obind ?o _ = Raise e =>
      let E := fresh "E" in
      destruct o eqn:E; cbn [obind]; [|by eexists]
  end.
  exfalso.
  assert (Hl : forall k v, lookup_stat stats k = Ret v -> stats !! k <> None).
  { intros k v. unfold lookup_stat. by destruct (stats !! k). }
  assert (Ha : forall k v, average_of stats k = Ret v -> stats !! k <> None).
  { intros k v. unfold average_of. destruct (lookup_stat stats k) eqn:El; [|done].
    intros _. by eapply Hl. }
  repeat (apply elem_of_cons in Hin as [->|Hin];
          [first [ eapply Hl; [| exact Hnone]; eassumption
                 | eapply Ha; [| exact Hnone]; eassumption ] |]).
  by apply elem_of_nil in Hin.
Qed.

(** X19.  When the statistics lack any of the entries [update_baseline]
    reads ([packet_count], [retransmissions], [resets], [tcp_syn_delays],
    [udp_jitter], [http_errors]), it returns [False] and no file is
    touched: the [KeyError] is swallowed. *)
Theorem update_baseline_missing_entry (self : BaselineManager) (weekday : Z) (env : faults)
    (stats : gmap string pyval) (files : fs) (name : string) :
  name ∈ ["packet_count"; "retransmissions"; "resets"; "tcp_syn_delays"; "udp_jitter";
          "http_errors"] ->
  stats !! name = None ->
  update_baseline self weekday env stats files = (Ret false, files).
Proof.
  intros Hin Hnone.
  assert (Hm : exists e, baseline_metrics stats = Raise e).
  { apply (baseline_metrics_missing stats name); [|done].
    revert Hin. rewrite !elem_of_cons. tauto. }
  destruct Hm as [e Hm].
  enough (exists e', update_baseline_steps self weekday env stats files = (Raise e', files))
    as [e' H] by (by eapply update_baseline_raise).
  unfold update_baseline_steps, bind, lift, raise.
  destruct (lookup_stat stats "packet_count") as [pc|e0]; [|by eexists].
  destruct (py_is_zero pc); [by eexists|].
  destruct (load_baseline_run self env files) as (rl & -> & _).
  destruct rl as [loaded|e1]; [|by eexists].
  rewrite Hm. by eexists.
Qed.

Lemma update_baseline_missing_entry_witness :
  let stats : gmap string pyval := {[ "packet_count" := VNum (NInt 5) ]} in
  stats !! "resets" = None /\
  update_baseline default_manager 0 no_faults stats ∅ = (Ret false, ∅).
Proof.
  intros stats.
  assert (Hn : stats !! "resets" = None) by (vm_compute; reflexivity).
  split; [exact Hn|].
  apply (update_baseline_missing_entry default_manager 0 no_faults stats ∅ "resets");
    [in_keys | exact Hn].
Defined.

(** X20.  A baseline file that holds anything but the text of a JSON value
    (a truncated or foreign file) is never repaired or overwritten: every
    update returns [False] and leaves all files as they are. *)
Theorem update_baseline_corrupt_file (self : BaselineManager) (weekday : Z) (env : faults)
    (stats : gmap string pyval) (files : fs) (c : content) :
  files !! baseline_path self = Some c ->
  (forall j, c <> Text j) ->
  update_baseline self weekday env stats files = (Ret false, files).
Proof.
  intros Hc Hbad.
  enough (exists e', update_baseline_steps self weekday env stats files = (Raise e', files))
    as [e' H] by (by eapply update_baseline_raise).
  unfold update_baseline_steps, bind, lift, raise.
  destruct (lookup_stat stats "packet_count") as [pc|e0]; [|by eexists].
  destruct (py_is_zero pc); [by eexists|].
  rewrite load_baseline_table, Hc.
  destruct (read_fails env); [by eexists|].
  destruct c as [j|j|g|b|n]; [by destruct (Hbad j) | by eexists..].
Qed.

Lemma update_baseline_corrupt_file_witness :
  let files : fs := {[ baseline_path default_manager := Garbage "<html>" ]} in
  (files !! baseline_path default_manager = Some (Garbage "<html>") /\
   forall j, Garbage "<html>" <> Text j) /\
  update_baseline default_manager 0 no_faults sample_stats files = (Ret false, files).
Proof.
  intros files.
  assert (Hc : files !! baseline_path default_manager = Some (Garbage "<html>"))
    by apply lookup_singleton_eq.
  assert (Hbad : forall j, Garbage "<html>" <> Text j) by (intros j; discriminate).
  split; [by split|].
  exact (update_baseline_corrupt_file default_manager 0 no_faults sample_stats files
           (Garbage "<html>") Hc Hbad).
Defined.

(** ** Updates that succeed *)

Lemma serializable_od_set (name : string) (v : json) (d : list (key * json)) :
  serializable (JDict d) = true -> serializable v = true ->
  serializable (JDict (od_set (KStr name) v d)) = true.
Proof.
  intros Hd Hv. simpl in *. induction d as [|[k0 v0] d IH]; simpl in *.
  - by rewrite Hv.
  - apply andb_prop in Hd as [H1 H2]. destruct (decide (KStr name = k0)) as [<-|Hne]; simpl.
    + rewrite Hv, H2. done.
    + by rewrite H1, IH.
Qed.

Lemma with_suffix_returns (p : path) (sfx : string) :
  snd p <> "" -> exists temp, with_suffix p sfx = Ret temp.
Proof.
  intros Hn. unfold with_suffix.
  destruct (String.eqb_spec (snd p) ""); [done|].
  destruct (String.eqb (suffix (snd p)) ""); by eexists.
Qed.

Lemma save_baseline_ok (self : BaselineManager) (data : list (key * json)) (files : fs) :
  snd (baseline_path self) <> "" -> serializable (JDict data) = true ->
  exists files', save_baseline self no_faults data files = (Ret tt, files').
Proof.
  intros Hn Hser. destruct (with_suffix_returns (baseline_path self) ".tmp" Hn) as [temp Ht].
  unfold save_baseline, try_except, bind, mkdir_parent, lift, write_json, replace_file.
  rewrite Ht. cbn [mkdir_fails open_fails write_fails replace_fails no_faults].
  rewrite Hser. rewrite lookup_insert_eq. by eexists.
Qed.

Lemma update_baseline_steps_ok (self : BaselineManager) (weekday : Z)
    (stats : gmap string pyval) (files : fs) (pc : pyval)
    (bucket old : list (key * json)) :
  stats !! "packet_count" = Some pc -> py_is_zero pc = false ->
  baseline_metrics stats = Ret bucket -> serializable (JDict bucket) = true ->
  snd (baseline_path self) <> "" ->
  (forall c, files !! baseline_path self = Some c -> exists j, c = Text j) ->
  previous_record files (baseline_path self) = JDict old ->
  serializable (JDict old) = true ->
  exists files',
    update_baseline_steps self weekday no_faults stats files = (Ret true, files') /\
    files' !! baseline_path self =
      Some (Text (JDict (od_set (KStr (get_baseline_type weekday)) (JDict bucket) old))).
Proof.
  intros Hpc Hzero Hm Hb Hn Htext Hold Hser.
  set (new := od_set (KStr (get_baseline_type weekday)) (JDict bucket) old).
  assert (Hnew : serializable (JDict new) = true) by (by apply serializable_od_set).
  destruct (save_baseline_ok self new files Hn Hnew) as [files' Hsave].
  exists files'. split; [|by eapply save_baseline_done].
  assert (Hload : exists loaded, load_baseline self no_faults files = (Ret loaded, files) /\
                    or_default loaded = JDict old).
  { rewrite load_baseline_table. rewrite <- Hold. unfold previous_record.
    destruct (files !! baseline_path self) as [c|] eqn:Hc; [|by eexists].
    destruct (Htext c eq_refl) as [j ->]. by eexists. }
  destruct Hload as (loaded & Hload & Hdef).
  unfold update_baseline_steps, bind, lift, lookup_stat.
  rewrite Hpc, Hzero, Hload, Hm, Hdef. cbn [json_setitem]. fold new. by rewrite Hsave.
Qed.

Lemma update_baseline_return (self : BaselineManager) (weekday : Z) (env : faults)
    (stats : gmap string pyval) (files files' : fs) (b : bool) :
  update_baseline_steps self weekday env stats files = (Ret b, files') ->
  update_baseline self weekday env stats files = (Ret b, files').
Proof. intros H. unfold update_baseline, try_except. by rewrite H. Qed.

(** X21.  An update goes through, returns [True] and stores the record it
    started from with today's bucket replaced, whenever: the capture is
    not empty, the five metrics can be computed, the file name is not
    empty, no file operation fails, and the baseline file, if there is
    one, holds a JSON object that [json.dump] accepts. *)
Theorem update_baseline_succeeds (self : BaselineManager) (weekday : Z)
    (stats : gmap string pyval) (files : fs) (pc : pyval)
    (bucket old : list (key * json)) :
  stats !! "packet_count" = Some pc -> py_is_zero pc = false ->
  baseline_metrics stats = Ret bucket -> serializable (JDict bucket) = true ->
  snd (baseline_path self) <> "" ->
  (forall c, files !! baseline_path self = Some c -> exists j, c = Text j) ->
  previous_record files (baseline_path self) = JDict old ->
  serializable (JDict old) = true ->
  exists files',
    update_baseline self weekday no_faults stats files = (Ret true, files') /\
    files' !! baseline_path self =
      Some (Text (JDict (od_set (KStr (get_baseline_type weekday)) (JDict bucket) old))).
Proof.
  intros Hpc Hzero Hm Hb Hn Htext Hold Hser.
  destruct (update_baseline_steps_ok self weekday stats files pc bucket old
              Hpc Hzero Hm Hb Hn Htext Hold Hser) as (files' & Hsteps & Hstored).
  exists files'. split; [|exact Hstored].
  unfold update_baseline, try_except. by rewrite Hsteps.
Qed.

Lemma sample_bucket :
  baseline_metrics sample_stats = Ret (bucket_of (Spec.computeMetrics sample_snapshot)) /\
  serializable (JDict (bucket_of (Spec.computeMetrics sample_snapshot))) = true /\
  sample_stats !! "packet_count" = Some (VNum (NInt 1000)).
Proof. repeat split; vm_compute; reflexivity. Qed.

Lemma update_baseline_succeeds_witness :
  exists files',
    update_baseline default_manager 0 no_faults sample_stats ∅ = (Ret true, files') /\
    files' !! baseline_path default_manager =
      Some (Text (JDict [(KStr "workday", JDict (bucket_of (Spec.computeMetrics sample_snapshot)));
                         (KStr "weekend", JDict [])])).
Proof.
  destruct sample_bucket as (Hm & Hser & Hpc).
  exact (update_baseline_succeeds default_manager 0 sample_stats ∅ (VNum (NInt 1000))
           (bucket_of (Spec.computeMetrics sample_snapshot))
           [(KStr "workday", JDict []); (KStr "weekend", JDict [])]
           Hpc eq_refl Hm Hser ltac:(discriminate)
           ltac:(intros c Hc; by rewrite lookup_empty in Hc) eq_refl eq_refl).
Defined.

Lemma update_baseline_true (self : BaselineManager) (weekday : Z) (env : faults)
    (stats : gmap string pyval) (files files' : fs) :
  update_baseline self weekday env stats files = (Ret true, files') ->
  exists old bucket,
    previous_record files (baseline_path self) = JDict old /\
    baseline_metrics stats = Ret bucket /\
    files' !! baseline_path self =
      Some (Text (JDict (od_set (KStr (get_baseline_type weekday)) (JDict bucket) old))).
Proof.
  unfold update_baseline, try_except.
  destruct (update_baseline_steps self weekday env stats files) as [[b|e] f] eqn:Hrun;
    [|simpl; by intros [=]].
  intros [= -> <-].
  destruct (update_baseline_steps_run _ _ _ _ _ _ _ Hrun) as (_ & old & bucket & H).
  exists old, bucket. exact H.
Qed.

Lemma od_set_nonempty {V} (k : key) (v : V) (d : odict V) : od_set k v d <> [].
Proof. destruct d as [|[k0 v0] d]; simpl; [done|]. by destruct (decide (k = k0)). Qed.

(** X22.  After a successful update on a workday followed by a successful
    update at the weekend, the stored record holds both buckets, each with
    the metrics of its own capture. *)
Theorem update_baseline_both_days (self : BaselineManager) (day1 day2 : Z)
    (env1 env2 : faults) (stats1 stats2 : gmap string pyval) (files files1 files2 : fs) :
  day1 < 5 -> 5 <= day2 ->
  update_baseline self day1 env1 stats1 files = (Ret true, files1) ->
  update_baseline self day2 env2 stats2 files1 = (Ret true, files2) ->
  exists bucket1 bucket2 record,
    baseline_metrics stats1 = Ret bucket1 /\
    baseline_metrics stats2 = Ret bucket2 /\
    files2 !! baseline_path self = Some (Text (JDict record)) /\
    od_get (KStr "workday") record = Some (JDict bucket1) /\
    od_get (KStr "weekend") record = Some (JDict bucket2).
Proof.
  intros Hd1 Hd2 Hrun1 Hrun2.
  destruct (update_baseline_true _ _ _ _ _ _ Hrun1) as (old1 & b1 & _ & Hm1 & Hf1).
  destruct (update_baseline_true _ _ _ _ _ _ Hrun2) as (old2 & b2 & Hold2 & Hm2 & Hf2).
  assert (Ht1 : get_baseline_type day1 = "workday").
  { unfold get_baseline_type. by rewrite (proj2 (Z.ltb_lt _ _) Hd1). }
  assert (Ht2 : get_baseline_type day2 = "weekend").
  { unfold get_baseline_type. by rewrite (proj2 (Z.ltb_ge _ _) Hd2). }
  rewrite Ht1 in Hf1. rewrite Ht2 in Hf2.
  unfold previous_record in Hold2. rewrite Hf1 in Hold2. simpl in Hold2.
  destruct (od_set (KStr "workday") (JDict b1) old1) as [|kv rest] eqn:Hnew;
    [by apply od_set_nonempty in Hnew|].
  injection Hold2 as <-.
  exists b1, b2, (od_set (KStr "weekend") (JDict b2) (kv :: rest)).
  split; [done|]. split; [done|]. split; [done|]. split.
  - rewrite od_get_set_ne by discriminate. rewrite <- Hnew. apply od_get_set_eq.
  - apply od_get_set_eq.
Qed.

Lemma update_baseline_both_days_witness :
  exists files1 files2 record,
    update_baseline default_manager 0 no_faults sample_stats ∅ = (Ret true, files1) /\
    update_baseline default_manager 5 no_faults sample_stats files1 = (Ret true, files2) /\
    files2 !! baseline_path default_manager = Some (Text (JDict record)) /\
    is_Some (od_get (KStr "workday") record) /\ is_Some (od_get (KStr "weekend") record).
Proof.
  destruct sample_bucket as (Hm & Hser & Hpc).
  destruct (update_baseline_steps_ok default_manager 0 sample_stats ∅ (VNum (NInt 1000))
              (bucket_of (Spec.computeMetrics sample_snapshot))
              [(KStr "workday", JDict []); (KStr "weekend", JDict [])]
              Hpc eq_refl Hm Hser ltac:(discriminate)
              ltac:(intros c Hc; by rewrite lookup_empty in Hc) eq_refl eq_refl)
    as (files1 & Hrun1 & Hf1).
  apply update_baseline_return in Hrun1.
  destruct (update_baseline_steps_ok default_manager 5 sample_stats files1 (VNum (NInt 1000))
              (bucket_of (Spec.computeMetrics sample_snapshot))
              [(KStr "workday", JDict (bucket_of (Spec.computeMetrics sample_snapshot)));
               (KStr "weekend", JDict [])]
              Hpc eq_refl Hm Hser ltac:(discriminate))
    as (files2 & Hrun2 & Hf2).
  - intros c Hc. rewrite Hf1 in Hc. injection Hc as <-. by eexists.
  - unfold previous_record. by rewrite Hf1.
  - by rewrite <- (proj1 (proj2 sample_bucket)).
  - apply update_baseline_return in Hrun2.
    destruct (update_baseline_both_days default_manager 0 5 no_faults no_faults
                sample_stats sample_stats ∅ files1 files2 ltac:(lia) ltac:(lia) Hrun1 Hrun2)
      as (b1 & b2 & record & _ & _ & Hrec & Hw & He).
    exists files1, files2, record.
    exact (conj Hrun1 (conj Hrun2 (conj Hrec (conj (ex_intro _ _ Hw) (ex_intro _ _ He))))).
Defined.

(** ** safe_divide *)

Lemma float_of_exn (v : pyval) (e : exn) :
  float_of v = Raise e -> e = OverflowError \/ e = TypeError.
Proof.
  destruct v as [[z|f]|l|b d]; simpl.
  - unfold float_of_int. destruct (binary_normalize prec emax z 0 false); try done.
    intros [= <-]. by left.
  - done.
  - intros [= <-]. by right.
  - intros [= <-]. by right.
Qed.

Lemma float_of_nonzero (v : pyval) (d : float64) :
  py_is_zero v = false -> float_of v = Ret d -> feqb d fzero = false.
Proof.
  destruct v as [[z|f]|l|b d']; simpl; try done.
  - intros Hz%Z.eqb_neq. unfold float_of_int.
    pose proof (to_float_nonzero z Hz) as Hnz. unfold to_float in Hnz.
    destruct (binary_normalize prec emax z 0 false); try done; by intros [= <-].
  - by intros Hf [= <-].
Qed.

(** X23.  [safe_divide] never raises [ZeroDivisionError]: a denominator
    equal to zero (the integer 0, 0.0 or -0.0) gives 0.0 whatever the
    numerator is, and the double a non-zero integer converts to is never
    zero.  What it can raise is the [OverflowError] or [TypeError] of
    [float()]. *)
Theorem safe_divide_never_divides_by_zero (numerator denominator : pyval) :
  (py_is_zero denominator = true -> safe_divide numerator denominator = Ret fzero) /\
  (forall e, safe_divide numerator denominator = Raise e ->
             e = OverflowError \/ e = TypeError).
Proof.
  unfold safe_divide. split; [by intros ->|].
  destruct (py_is_zero denominator) eqn:Hz; [done|].
  destruct (float_of numerator) as [n|e1] eqn:Hn; cbn [obind];
    [|intros e [= <-]; by eapply float_of_exn].
  destruct (float_of denominator) as [d|e2] eqn:Hd; cbn [obind];
    [|intros e [= <-]; by eapply float_of_exn].
  unfold float_div. by rewrite (float_of_nonzero _ _ Hz Hd).
Qed.

Lemma safe_divide_never_divides_by_zero_witness :
  py_is_zero (VNum (NFloat (S754_zero true))) = true /\
  safe_divide (VList []) (VNum (NFloat (S754_zero true))) = Ret fzero.
Proof.
  split; [reflexivity|].
  exact (proj1 (safe_divide_never_divides_by_zero (VList []) (VNum (NFloat (S754_zero true))))
           eq_refl).
Defined.

(** ** Interface names *)

Lemma prefix_paren_cons (c : ascii) (s : string) :
  String.prefix " (" (String c s) = Ascii.eqb c " " && String.prefix "(" s.
Proof.
  change (String.prefix " (" (String c s))
    with (if ascii_dec " " c then String.prefix "(" s else false).
  destruct (ascii_dec " " c) as [<-|Hne]; [done|].
  symmetry. apply andb_false_iff. left. apply Ascii.eqb_neq. congruence.
Qed.

Lemma prefix_empty (s : string) : String.prefix "" s = true.
Proof. by destruct s. Qed.

Lemma prefix_open_cons (c : ascii) (s : string) :
  String.prefix "(" (String c s) = Ascii.eqb c "(".
Proof.
  change (String.prefix "(" (String c s))
    with (if ascii_dec "(" c then String.prefix "" s else false).
  destruct (ascii_dec "(" c) as [<-|Hne]; [by rewrite prefix_empty|].
  symmetry. apply Ascii.eqb_neq. congruence.
Qed.

Lemma prefix_paren (rest : string) : String.prefix " (" (" (" ++ rest) = true.
Proof.
  change (" (" ++ rest) with (String " " (String "(" rest)).
  rewrite prefix_paren_cons.
  change (String.prefix "(" (String "(" rest))
    with (if ascii_dec "(" "(" then String.prefix "" rest else false).
  by rewrite prefix_empty.
Qed.

Lemma before_first_unfold (sep s : string) :
  before_first sep s =
    if String.prefix sep s then ""
    else match s with
         | EmptyString => ""
         | String c rest => String c (before_first sep rest)
         end.
Proof. by destruct s. Qed.

Lemma before_first_absent (s : string) :
  str_contains " (" s = false -> before_first " (" s = s.
Proof.
  induction s as [|c s IH]; [intros _; reflexivity|].
  intros H. cbn [str_contains] in H. apply orb_false_iff in H as [Hp Hc].
  cbn [before_first]. rewrite Hp. f_equal. by apply IH.
Qed.

Lemma before_first_display (iface rest : string) :
  str_contains " (" iface = false ->
  before_first " (" (iface ++ " (" ++ rest) = iface.
Proof.
  induction iface as [|c s IH].
  { intros _. change ("" ++ " (" ++ rest) with (" (" ++ rest).
    rewrite before_first_unfold. by rewrite prefix_paren. }
  intros H. cbn [str_contains] in H. apply orb_false_iff in H as [Hp Hc].
  rewrite append_cons. cbn [before_first].
  assert (Hnp : String.prefix " (" (String c (s ++ " (" ++ rest)) = false).
  { rewrite prefix_paren_cons in *. apply andb_false_iff in Hp as [Hp|Hp];
      apply andb_false_iff; [by left|]. right.
    destruct s as [|c' s']; [done|]. rewrite append_cons.
    by rewrite prefix_open_cons in *. }
  rewrite Hnp. f_equal. by apply IH.
Qed.

(** X24.  [extract_device_name] gives back the device a display string
    was built from: for a device name that holds no [" ("], with or
    without a friendly name attached. *)
Theorem extract_device_name_display (iface friendly : string) :
  str_contains " (" iface = false ->
  extract_device_name (interface_display iface friendly) = iface.
Proof.
  intros H. unfold extract_device_name, interface_display.
  destruct (negb (String.eqb friendly "")).
  - by apply before_first_display.
  - by apply before_first_absent.
Qed.

Lemma extract_device_name_display_witness :
  str_contains " (" "en11" = false /\
  interface_display "en11" "USB LAN" = "en11 (USB LAN)" /\
  extract_device_name (interface_display "en11" "USB LAN") = "en11".
Proof.
  split; [reflexivity|]. split; [reflexivity|].
  apply (extract_device_name_display "en11" "USB LAN"). reflexivity.
Defined.

Lemma before_first_no_sep (s : string) :
  str_contains " (" (before_first " (" s) = false.
Proof.
  induction s as [|c s IH]; [reflexivity|].
  cbn [before_first]. destruct (String.prefix " (" (String c s)) eqn:Hp; [done|].
  cbn [str_contains]. rewrite IH, orb_false_r.
  rewrite prefix_paren_cons in *. apply andb_false_iff in Hp as [Hp|Hp];
    apply andb_false_iff; [by left|]. right.
  destruct s as [|c' s']; [done|]. cbn [before_first].
  destruct (String.prefix " (" (String c' s')) eqn:Hp'.
  - rewrite prefix_paren_cons in Hp'. apply andb_prop in Hp' as [Hc' _].
    apply Ascii.eqb_eq in Hc' as ->. done.
  - by rewrite prefix_open_cons in *.
Qed.

(** X25.  The name [extract_device_name] returns holds no [" ("], so
    extracting twice is extracting once. *)
Theorem extract_device_name_idempotent (s : string) :
  str_contains " (" (extract_device_name s) = false /\
  extract_device_name (extract_device_name s) = extract_device_name s.
Proof.
  split; [apply before_first_no_sep|].
  apply before_first_absent, before_first_no_sep.
Qed.

(** X26.  [validate_interface] accepts a name exactly when the detection
    succeeded and the name is an entry of the detected list or the device
    name extracted from one; a detection that raises gives [False].  So
    the device name [start_capture] extracts from any entry of the list
    passes its own check. *)
Theorem validate_interface_accepts (active_interfaces : outcome (list string))
    (interface : string) :
  (validate_interface active_interfaces interface = true <->
   exists active entry,
     active_interfaces = Ret active /\ entry ∈ active /\
     (interface = entry \/ interface = extract_device_name entry)) /\
  (forall active entry,
     active_interfaces = Ret active -> entry ∈ active ->
     validate_interface active_interfaces (extract_device_name entry) = true).
Proof.
  assert (Hiff : forall x, validate_interface active_interfaces x = true <->
            exists active entry,
              active_interfaces = Ret active /\ entry ∈ active /\
              (x = entry \/ x = extract_device_name entry)).
  { intros x. unfold validate_interface. destruct active_interfaces as [active|e].
    - rewrite existsb_exists. split.
      + intros (entry & Hin & H). exists active, entry.
        split; [done|]. split; [by apply list_elem_of_In|].
        apply orb_prop in H as [H|H]; apply String.eqb_eq in H; [by left | by right].
      + intros (active' & entry & [= <-] & Hin & H). exists entry.
        split; [by apply list_elem_of_In|].
        apply orb_true_iff. destruct H as [->| ->]; [left | right]; apply String.eqb_refl.
    - split; [done | by intros (? & ? & [=] & _)]. }
  split; [apply Hiff|].
  intros active entry Hr Hin. apply Hiff. exists active, entry. by auto.
Qed.

Lemma validate_interface_accepts_witness :
  "en11 (USB LAN)" ∈ ["en0 (Wi-Fi)"; "en11 (USB LAN)"] /\
  validate_interface (Ret ["en0 (Wi-Fi)"; "en11 (USB LAN)"])
    (extract_device_name "en11 (USB LAN)") = true.
Proof.
  assert (Hin : "en11 (USB LAN)" ∈ ["en0 (Wi-Fi)"; "en11 (USB LAN)"]) by in_keys.
  split; [exact Hin|].
  exact (proj2 (validate_interface_accepts (Ret ["en0 (Wi-Fi)"; "en11 (USB LAN)"]) "")
           _ _ eq_refl Hin).
Defined.

(** ** The statistics as the report exports them *)

Lemma prepare_fold (d acc : odict num) :
  fold_left (fun result kv => od_set (prepare_key (fst kv)) (snd kv) result) d acc
  = fold_left cleanup_step d acc.
Proof.
  revert acc. induction d as [|[k n] d IH]; intros acc; simpl; [done|].
  rewrite IH. f_equal. by destruct k.
Qed.

(** X27.  Every value of the dictionary [_prepare_for_serialization]
    returns is accepted by [json.dump], whatever the statistics hold: the
    tuple keys of [conversations] and of [prev_udp_time] have become
    strings.  Numbers and lists are passed on as they are, and no entry
    is added or dropped. *)
Theorem prepare_for_serialization_serializable (stats : gmap string pyval) (name : string) :
  (forall v, _prepare_for_serialization stats !! name = Some v ->
             serializable (to_json v) = true) /\
  (is_Some (_prepare_for_serialization stats !! name) <-> is_Some (stats !! name)) /\
  (forall v, stats !! name = Some v ->
             match v with
             | VDict _ _ => True
             | _ => _prepare_for_serialization stats !! name = Some v
             end).
Proof.
  unfold _prepare_for_serialization. rewrite lookup_fmap.
  destruct (stats !! name) as [v0|]; simpl.
  - split; [|split].
    + intros v [= <-]. destruct v0 as [n|l|b d]; simpl.
      * done.
      * induction l as [|e l IH]; simpl; [done|]. rewrite IH.
        destruct e as [x|t]; simpl; [done|]. by induction t.
      * rewrite prepare_fold.
        destruct (cleanup_fold_keys d [] eq_refl) as (Hstr & _).
        by apply (serializable_str_keys false).
    + split; intros _; by eexists.
    + intros v [= <-]. by destruct v0.
  - split; [done|]. split; [split; by intros [? ?] | done].
Qed.

Lemma prepare_for_serialization_serializable_witness :
  let stats : gmap string pyval :=
    {[ "prev_udp_time" := VDict false [(KTuple ["a"; "b"; "1"; "2"], NFloat fzero)] ]} in
  _prepare_for_serialization stats !! "prev_udp_time" = Some (VDict false [(KStr "a_b_1_2", NFloat fzero)]) /\
  serializable (to_json (VDict false [(KStr "a_b_1_2", NFloat fzero)])) = true.
Proof.
  intros stats.
  assert (H : _prepare_for_serialization stats !! "prev_udp_time"
              = Some (VDict false [(KStr "a_b_1_2", NFloat fzero)]))
    by (vm_compute; reflexivity).
  split; [exact H|].
  exact (proj1 (prepare_for_serialization_serializable stats "prev_udp_time") _ H).
Defined.

(** X28.  The report and the analyzer convert the conversations alike:
    what [_prepare_for_serialization] makes of the raw [conversations] is
    what [_cleanup_stats] stores, and it leaves the entry of a finalized
    snapshot as it is. *)
Theorem prepare_for_serialization_conversations (s : stats) (dflt : bool) (d : odict num) :
  s !! "conversations" = Some (VDict dflt d) ->
  exists s',
    _cleanup_stats s = (Ret tt, s') /\
    _prepare_for_serialization s !! "conversations" = s' !! "conversations" /\
    _prepare_for_serialization s' !! "conversations" = s' !! "conversations".
Proof.
  intros Hc.
  destruct (cleanup_stats_run s dflt d Hc) as (s' & Hrun & _ & Hconv & _).
  exists s'. split; [exact Hrun|].
  unfold _prepare_for_serialization. rewrite !lookup_fmap, Hc, Hconv. simpl.
  rewrite !prepare_fold. split; [done|]. do 2 f_equal.
  destruct (cleanup_fold_keys d [] eq_refl) as (Hstr & _ & _).
  rewrite cleanup_fold.
  - by rewrite map_cleaned_id.
  - apply cleanup_fold_NoDup. constructor.
  - intros k1 k2 Hk1 Hk2.
    rewrite !cleaned_key_id; [done | |].
    + rewrite forallb_forall in Hstr. apply Hstr. by apply list_elem_of_In.
    + rewrite forallb_forall in Hstr. apply Hstr. by apply list_elem_of_In.
  - done.
Qed.

Lemma prepare_for_serialization_conversations_witness :
  let s : stats := {[ "conversations" := VDict true clashing_conversations ]} in
  s !! "conversations" = Some (VDict true clashing_conversations) /\
  exists s',
    _cleanup_stats s = (Ret tt, s') /\
    _prepare_for_serialization s !! "conversations" = s' !! "conversations".
Proof.
  intros s.
  assert (Hs : s !! "conversations" = Some (VDict true clashing_conversations))
    by apply lookup_singleton_eq.
  split; [exact Hs|].
  destruct (prepare_for_serialization_conversations s true clashing_conversations Hs)
    as (s' & Hrun & H1 & _).
  exists s'. exact (conj Hrun H1).
Defined.

(** ** The configuration stays valid *)

(** An item the schema has nothing against. *)
Lemma collect_errors_nil (items : list (key * cval)) :
  collect_errors items = Ret [] <->
  Forall (fun kv => forall schema, od_get (fst kv) VALIDATION_SCHEMA = Some schema ->
                      _validate_value (fst kv) (snd kv) schema = Ret None) items.
Proof.
  induction items as [|[k value] rest IH]; cbn [collect_errors].
  - split; [constructor | done].
  - rewrite Forall_cons. cbn [fst snd]. rewrite <- IH. clear IH.
    destruct (od_get k VALIDATION_SCHEMA) as [schema|].
    + destruct (_validate_value k value schema) as [[error|]|e] eqn:Hv; cbn [obind].
      * split; [by destruct (collect_errors rest) as [errors|e]|].
        intros [H _]. specialize (H schema eq_refl). congruence.
      * destruct (collect_errors rest) as [errors|e]; cbn [obind].
        -- split.
           ++ intros [= ->]. split; [|done]. intros schema' [= <-]. exact Hv.
           ++ by intros [_ ->].
        -- split; [done | by intros [_ ?]].
      * split; [done|]. intros [H _]. specialize (H schema eq_refl). congruence.
    + split; [by intros ->; split | by intros [_ ->]].
Qed.

Lemma Forall_od_set {V} (P : key * V -> Prop) (k : key) (v : V) (d : odict V) :
  P (k, v) -> Forall P d -> Forall P (od_set k v d).
Proof.
  intros Hv. induction 1 as [|[k0 v0] d Hhd Htl IH]; simpl.
  - by repeat constructor.
  - destruct (decide (k = k0)) as [<-|Hne]; constructor; done.
Qed.

Lemma Forall_update {V} (P : key * V -> Prop) (items d : odict V) :
  Forall P items -> Forall P d ->
  Forall P (fold_left (fun c kv => od_set (fst kv) (snd kv) c) items d).
Proof.
  intros Hitems. revert d. induction Hitems as [|[k v] items Hhd _ IH]; intros d Hd; simpl.
  - done.
  - apply IH. by apply Forall_od_set.
Qed.

(** X29.  A configuration object always passes its own [validate()]: the
    defaults do, and so does what a [set] or an [update] that returned
    leaves, when the configuration did before the call. *)
Theorem config_stays_valid :
  PacketInsightConfig.validate DEFAULT_CONFIG = Ret [] /\
  (forall (config config' : odict cval) (k : key) (value : cval),
     PacketInsightConfig.validate config = Ret [] ->
     PacketInsightConfig.set k value config = Done config' ->
     PacketInsightConfig.validate config' = Ret []) /\
  (forall (config config' config_dict : odict cval),
     PacketInsightConfig.validate config = Ret [] ->
     PacketInsightConfig.update config_dict config = Done config' ->
     PacketInsightConfig.validate config' = Ret []) /\
  (forall (config_dict : option (odict cval)) (config' : odict cval),
     PacketInsightConfig.__init__ config_dict = Done config' ->
     PacketInsightConfig.validate config' = Ret []).
Proof.
  assert (Hdefault : collect_errors DEFAULT_CONFIG = Ret []) by (vm_compute; reflexivity).
  assert (Hupdate : forall config config' config_dict : odict cval,
            collect_errors config = Ret [] ->
            PacketInsightConfig.update config_dict config = Done config' ->
            collect_errors config' = Ret []).
  { intros config config' config_dict Hvalid.
    unfold PacketInsightConfig.update.
    destruct (collect_errors config_dict) as [[|error errors]|e] eqn:Hd; try done.
    intros [= <-]. apply collect_errors_nil. apply Forall_update.
    + by apply collect_errors_nil.
    + by apply collect_errors_nil. }
  unfold PacketInsightConfig.validate. split; [exact Hdefault|].
  split; [|split; [exact Hupdate|]].
  2:{ intros [[|item items]|] config'; cbn [PacketInsightConfig.__init__].
      - by intros [= <-].
      - by apply Hupdate.
      - by intros [= <-]. }
  - intros config config' k value Hvalid.
    unfold PacketInsightConfig.set.
    destruct (od_get k VALIDATION_SCHEMA) as [schema|] eqn:Hs.
    + destruct (_validate_value k value schema) as [[error|]|e] eqn:Hv; try done.
      intros [= <-]. apply collect_errors_nil. apply Forall_od_set.
      * cbn [fst snd]. intros schema' Hs'. rewrite Hs in Hs'. by injection Hs' as <-.
      * by apply collect_errors_nil.
    + intros [= <-]. apply collect_errors_nil. apply Forall_od_set.
      * cbn [fst snd]. intros schema' Hs'. by rewrite Hs in Hs'.
      * by apply collect_errors_nil.
Qed.

Lemma config_stays_valid_witness :
  PacketInsightConfig.validate DEFAULT_CONFIG = Ret [] /\
  exists config',
    PacketInsightConfig.set (KStr "worker_threads") (CInt 8) DEFAULT_CONFIG = Done config' /\
    PacketInsightConfig.get (KStr "worker_threads") CNone config' = CInt 8 /\
    PacketInsightConfig.validate config' = Ret [].
Proof.
  split; [exact (proj1 config_stays_valid)|].
  eexists. split; [vm_compute; reflexivity|]. split; [vm_compute; reflexivity|].
  apply (proj1 (proj2 config_stays_valid) DEFAULT_CONFIG _ (KStr "worker_threads") (CInt 8)).
  - exact (proj1 config_stays_valid).
  - vm_compute. reflexivity.
Defined.

Lemma schema_float_rules (k : key) (schema : rule) :
  od_get k VALIDATION_SCHEMA = Some schema -> rule_type schema = Cfloat ->
  exists lo hi, schema = bounded Cfloat (NFloat lo) (NFloat hi).
Proof.
  unfold VALIDATION_SCHEMA. cbn [od_get].
  repeat (destruct (decide _) as [_|_];
          [intros [= <-] Ht; first [discriminate Ht | by eexists _, _] |]).
  intros [=].
Qed.

Lemma fltb_nan_r (f : float64) : fltb f S754_nan = false.
Proof. by destruct f as [[]|[]| |[] m e]. Qed.

(** X30.  The schema checks the class of a value, not its worth: a
    setting declared as a [float] refuses every [int] (a threshold of 1
    must be written 1.0), and accepts NaN, which is below no minimum and
    above no maximum. *)
Theorem config_float_settings (k : key) (schema : rule) (config : odict cval) :
  od_get k VALIDATION_SCHEMA = Some schema -> rule_type schema = Cfloat ->
  (forall z, PacketInsightConfig.set k (CInt z) config
             = ConfigurationError [WrongType k Cfloat (CInt z)]) /\
  PacketInsightConfig.set k (CFloat S754_nan) config
    = Done (od_set k (CFloat S754_nan) config).
Proof.
  intros Hs Ht. destruct (schema_float_rules k schema Hs Ht) as (lo & hi & ->).
  unfold PacketInsightConfig.set. rewrite Hs. split; [done|].
  unfold _validate_value, bounded. cbn [rule_type rule_min rule_max rule_choices
    isinstance negb as_num obind num_lt].
  change (fltb S754_nan lo) with false. cbv iota. cbn [obind].
  by rewrite fltb_nan_r.
Qed.

Lemma config_float_settings_witness :
  od_get (KStr "retransmission_threshold") VALIDATION_SCHEMA
    = Some (bounded Cfloat (NFloat (f64 0.0)) (NFloat (f64 1.0))) /\
  PacketInsightConfig.set (KStr "retransmission_threshold") (CInt 1) DEFAULT_CONFIG
    = ConfigurationError [WrongType (KStr "retransmission_threshold") Cfloat (CInt 1)].
Proof.
  split; [reflexivity|].
  exact (proj1 (config_float_settings (KStr "retransmission_threshold") _ DEFAULT_CONFIG
                  eq_refl eq_refl) 1).
Defined.
